(** * tjaf.py: the TJA chart scanner and its document projector

    A shallow embedding of [src/tjaf.py] (class [Tja]: [__init__], [_parse],
    [to_mongo]) and the properties of it that the specification states.

    Python's [str] is a sequence of Unicode code points, so a string is a
    [list N] here.  The interpreter's built-ins the parser calls ([strip],
    [split], [upper], [int], [float], [re.split], [os.path]) are written out
    after CPython; what they read from the Unicode character database outside
    ASCII (case pairs, decimal digits) is a parameter, the class [Unicode]. *)

From Stdlib Require Import ZArith NArith Lia Ascii String.
From stdpp Require Import base option list strings gmap.

Abbreviation str := (list N).

(** ** Python's built-ins on [str] *)
Module Py.

(** A literal of the source text: the code points of an ASCII string. *)
Fixpoint u (s : string) : str :=
  match s with
  | EmptyString => []
  | String a r => N_of_ascii a :: u r
  end.

Definition ord (a : ascii) : N := N_of_ascii a.

#[global] Arguments u : simpl never.
#[global] Arguments ord : simpl never.

(** [bool(s)] of a string: non-empty. *)
Definition nonempty (s : str) : bool :=
  match s with [] => false | _ :: _ => true end.

(** [s or None]. *)
Definition or_None (s : str) : option str :=
  if nonempty s then Some s else None.

(** [bool(o)] of an [Optional[str]]. *)
Definition truthy (o : option str) : bool :=
  match o with Some s => nonempty s | None => false end.

(** [str.isspace] of one code point ([Py_UNICODE_ISSPACE]): U+0009..U+000D,
    U+001C..U+0020, U+0085, U+00A0, U+1680, U+2000..U+200A, U+2028, U+2029,
    U+202F, U+205F, U+3000.  It is also what [str.strip()] removes and what
    [\s] matches in [re] on a [str]. *)
Definition isspace (c : N) : bool :=
  ((9 <=? c) && (c <=? 13) || (28 <=? c) && (c <=? 32)
   || (c =? 0x85) || (c =? 0xa0) || (c =? 0x1680)
   || (0x2000 <=? c) && (c <=? 0x200a)
   || (c =? 0x2028) || (c =? 0x2029) || (c =? 0x202f)
   || (c =? 0x205f) || (c =? 0x3000))%N.

Fixpoint drop_while (p : N → bool) (s : str) : str :=
  match s with
  | [] => []
  | c :: r => if p c then drop_while p r else s
  end.

Fixpoint take_while (p : N → bool) (s : str) : str :=
  match s with
  | [] => []
  | c :: r => if p c then c :: take_while p r else []
  end.

Definition lstrip_with (p : N → bool) (s : str) : str := drop_while p s.
Definition rstrip_with (p : N → bool) (s : str) : str :=
  rev (drop_while p (rev s)).

(** [s.strip()]. *)
Definition strip (s : str) : str := rstrip_with isspace (lstrip_with isspace s).

(** [s.lstrip(".")] for a one-character argument. *)
Definition lstrip_char (c : N) (s : str) : str := lstrip_with (N.eqb c) s.

(** [s.split(sep)] for a one-character separator: never the empty list. *)
Fixpoint split (sep : N) (s : str) : list str :=
  match s with
  | [] => [[]]
  | c :: r =>
      if (c =? sep)%N then [] :: split sep r
      else match split sep r with
           | w :: ws => (c :: w) :: ws
           | [] => [[c]]
           end
  end.

(** [sep.join(ls)] for a one-character separator. *)
Fixpoint join (sep : N) (ls : list str) : str :=
  match ls with
  | [] => []
  | [l] => l
  | l :: rest => l ++ sep :: join sep rest
  end.

(** [sep in s] together with [s.split(sep, 1)]: [None] when [sep] does not
    occur, else the text before and after its first occurrence. *)
Fixpoint split_once (sep : N) (s : str) : option (str * str) :=
  match s with
  | [] => None
  | c :: r =>
      if (c =? sep)%N then Some ([], r)
      else match split_once sep r with
           | Some (k, v) => Some (c :: k, v)
           | None => None
           end
  end.

(** [s.startswith(p)]. *)
Fixpoint startswith (p s : str) : bool :=
  match p, s with
  | [], _ => true
  | a :: p', b :: s' => (a =? b)%N && startswith p' s'
  | _ :: _, [] => false
  end.

(** [re.split(r"\s+", s)]: the pieces between maximal runs of whitespace.
    [in_run] tells that the previous code point was whitespace. *)
Fixpoint re_split_spaces_from (in_run : bool) (s : str) : list str :=
  match s with
  | [] => [[]]
  | c :: r =>
      if isspace c then
        if in_run then re_split_spaces_from true r
        else [] :: re_split_spaces_from true r
      else match re_split_spaces_from false r with
           | w :: ws => (c :: w) :: ws
           | [] => [[c]]
           end
  end.

Definition re_split_spaces (s : str) : list str := re_split_spaces_from false s.

(** [l[0]] of a list the caller knows to be non-empty. *)
Definition first (l : list str) : str := hd [] l.

(** *** Case mapping and numbers *)

(** What the built-ins read from the Unicode character database for a code
    point outside ASCII.  [to_lower] gets the text before and after the code
    point: the lower-case form of U+03A3 depends on it.  [max_str_digits] is
    [sys.get_int_max_str_digits()], 0 for no limit. *)
Class Unicode := {
  to_upper : N → str;
  to_lower : str → N → str → str;
  to_decimal : N → option N;
  max_str_digits : N
}.

Definition is_ascii_lower (c : N) : bool := ((97 <=? c) && (c <=? 122))%N.
Definition is_ascii_upper (c : N) : bool := ((65 <=? c) && (c <=? 90))%N.
Definition ascii_upper (c : N) : N := if is_ascii_lower c then (c - 32)%N else c.
Definition ascii_lower (c : N) : N := if is_ascii_upper c then (c + 32)%N else c.
Definition is_digit (c : N) : bool := ((48 <=? c) && (c <=? 57))%N.

(** A visible ASCII code point. *)
Definition printable (x : N) : bool := ((33 <=? x) && (x <=? 126))%N.

Section WithUnicode.
Context `{Unicode}.

Definition upper_cp (c : N) : str :=
  if (c <? 128)%N then [ascii_upper c] else to_upper c.

(** [s.upper()]: code point by code point, a code point may become several. *)
Definition upper (s : str) : str := mjoin (upper_cp <$> s).

Definition lower_cp (before : str) (c : N) (after : str) : str :=
  if (c <? 128)%N then [ascii_lower c] else to_lower before c after.

Fixpoint lower_from (before s : str) : str :=
  match s with
  | [] => []
  | c :: r => lower_cp before c r ++ lower_from (before ++ [c]) r
  end.

(** [s.lower()]. *)
Definition lower (s : str) : str := lower_from [] s.

(** [_PyUnicode_TransformDecimalAndSpaceToASCII], which [int] and [float]
    apply to a [str] first: whitespace and decimal digits outside ASCII
    become a blank and an ASCII digit, anything else there becomes [?],
    which no number contains. *)
Definition to_ascii_cp (c : N) : N :=
  if (c <? 127)%N then c
  else if isspace c then 32%N
  else match to_decimal c with
       | Some d => (48 + d)%N
       | None => 63%N
       end.

(** The C locale's [isspace], skipped around a number. *)
Definition c_isspace (c : N) : bool := ((9 <=? c) && (c <=? 13) || (c =? 32))%N.

Definition number_text (s : str) : str :=
  rstrip_with c_isspace (lstrip_with c_isspace (to_ascii_cp <$> s)).

(** The longest prefix [digit ("_"? digit)*], as digit values, and the rest. *)
Fixpoint scan_digits (s : str) : list N * str :=
  match s with
  | [] => ([], [])
  | c :: r =>
      if is_digit c then
        match r with
        | 95%N :: (d :: _) as r' =>
            if is_digit d then
              let (ds, rest) := scan_digits r' in ((c - 48)%N :: ds, rest)
            else ([(c - 48)%N], r)
        | _ => let (ds, rest) := scan_digits r in ((c - 48)%N :: ds, rest)
        end
      else ([], s)
  end.

Definition split_sign (s : str) : bool * str :=
  match s with
  | 45%N :: r => (true, r)
  | 43%N :: r => (false, r)
  | _ => (false, s)
  end.

Definition decimal_value (ds : list N) : Z :=
  fold_left (fun acc d => (10 * acc + Z.of_N d)%Z) ds 0%Z.

(** The limit on the digits of a decimal string, checked above 640 digits. *)
Definition too_many_digits (ds : list N) : bool :=
  let n := N.of_nat (length ds) in
  ((640 <? n) && (0 <? max_str_digits) && (max_str_digits <? n))%N.

(** [int(s)] in base 10: [None] stands for ValueError. *)
Definition int (s : str) : option Z :=
  let (neg, body) := split_sign (number_text s) in
  let (ds, rest) := scan_digits body in
  if nonempty rest then None
  else match ds with
       | [] => None
       | _ => if too_many_digits ds then None
              else Some (if neg then (- decimal_value ds)%Z else decimal_value ds)
       end.

(** [_Py_string_to_number_with_underscores]: an underscore stands between
    two digits; the text without them, or [None]. *)
Fixpoint without_underscores (prev : N) (s : str) : option str :=
  match s with
  | [] => if (prev =? 95)%N then None else Some []
  | c :: r =>
      if (c =? 95)%N then
        if is_digit prev then without_underscores c r else None
      else if (prev =? 95)%N && negb (is_digit c) then None
      else cons c <$> without_underscores c r
  end.

Definition is_exponent (s : str) : bool :=
  match s with
  | [] => true
  | e :: r =>
      ((e =? 101) || (e =? 69))%N &&
      (let r' := (split_sign r).2 in nonempty r' && forallb is_digit r')
  end.

(** The decimal, infinity and NaN forms [float] accepts, sign included. *)
Definition float_syntax (s : str) : bool :=
  let body := (split_sign s).2 in
  let folded := ascii_lower <$> body in
  if bool_decide (folded = u "inf") || bool_decide (folded = u "infinity")
     || bool_decide (folded = u "nan") then true
  else
    let int_part := take_while is_digit body in
    let r1 := drop_while is_digit body in
    let frac_part := match r1 with 46%N :: r => take_while is_digit r | _ => [] end in
    let r2 := match r1 with 46%N :: r => drop_while is_digit r | _ => r1 end in
    (nonempty int_part || nonempty frac_part) && is_exponent r2.

(** A float is kept as the text [float] was given: [PyFloat s] is [float(s)]. *)
Definition float_ok (s : str) : bool :=
  match without_underscores 0%N (number_text s) with
  | Some t => float_syntax t
  | None => false
  end.

End WithUnicode.

(** The database with nothing outside ASCII: code points there have no case
    and are no digits.  It is the interpreter's on every text whose code
    points outside ASCII are of that kind. *)
Definition plain : Unicode :=
  {| to_upper c := [c]; to_lower _ c _ := [c]; to_decimal _ := None;
     max_str_digits := 4300 |}.

End Py.

(** ** [os.path] on a POSIX system ([posixpath], [genericpath._splitext]) *)
Module PosixPath.
Import Py.

(** [s.rfind(c)]: the last index of [c], -1 when it does not occur. *)
Fixpoint rfind (c : N) (s : str) : Z :=
  match s with
  | [] => -1
  | a :: r =>
      let j := rfind c r in
      if (0 <=? j)%Z then (j + 1)%Z
      else if (a =? c)%N then 0%Z else (-1)%Z
  end.

(** [s[i:j]] for indices that are not negative. *)
Definition slice (s : str) (i j : Z) : str :=
  take (Z.to_nat j - Z.to_nat i) (drop (Z.to_nat i) s).

Definition basename (p : str) : str :=
  let i := (rfind (ord "/") p + 1)%Z in
  drop (Z.to_nat i) p.

(** [splitext]: the extension starts at the last dot when that dot comes
    after the last separator and the loop over [p[sepIndex+1:dotIndex]] meets
    something else than a dot; else there is none. *)
Definition splitext (p : str) : str * str :=
  let sepIndex := rfind (ord "/") p in
  let dotIndex := rfind (ord ".") p in
  if (sepIndex <? dotIndex)%Z
     && existsb (fun c => negb (c =? ord ".")%N) (slice p (sepIndex + 1) dotIndex)
  then (take (Z.to_nat dotIndex) p, drop (Z.to_nat dotIndex) p)
  else (p, []).

(** A file name before the extension has a code point that is no dot. *)
Definition has_stem (stem : str) : Prop := ∃ c, c ∈ stem ∧ c ≠ ord ".".

End PosixPath.

(** ** The class [Tja] *)
Module Tja.
Import Py.

(** *** Exceptions *)
Inductive exn := ValueError | KeyError | IndexError.

Inductive result (A : Type) :=
  | Ok (a : A)
  | Raise (e : exn).
Arguments Ok {A} a.
Arguments Raise {A} e.

#[export] Instance result_ret : MRet result := @Ok.
#[export] Instance result_bind : MBind result := fun A B f r =>
  match r with
  | Ok a => f a
  | Raise e => Raise e
  end.

(** A built-in that answers [None] for ValueError, called outside [try]. *)
Definition or_raise {A} (o : option A) : result A :=
  match o with
  | Some a => Ok a
  | None => Raise ValueError
  end.

(** *** Data *)

(** A number of the chart: an [int], or the [float] of a text. *)
Inductive number :=
  | PyInt (n : Z)
  | PyFloat (s : str).

(** The dict of an EXAM line: keys id, type, red_pass, gold_pass, scope. *)
Record ExamRecord := {
  exam_id : Z;
  exam_type : str;
  red_pass : Z;
  gold_pass : Z;
  scope : str
}.

(** The dict of a NEXTSONG line: keys title, artist, genre, wave, offset,
    scoreInit. *)
Record SongRecord := {
  song_title : str;
  artist : str;
  genre : str;
  song_wave : str;
  song_offset : number;
  scoreInit : Z
}.

(** The dict of a course: the keys stars and branch, and the keys exams and
    songs when they were stored ([None]: no such key). *)
Record CourseRecord := {
  stars : option Z;
  branch : bool;
  exams : option (list ExamRecord);
  songs : option (list SongRecord)
}.

(** The attributes of a [Tja] object. *)
Record Tja := {
  text : str;
  title : option str;
  subtitle : option str;
  title_ja : option str;
  subtitle_ja : option str;
  wave : option str;
  offset : option number;
  courses : gmap str CourseRecord
}.

(** The object and the local variables of [_parse]. *)
Record Frame := {
  self : Tja;
  current_course : option str;
  current_exams : list ExamRecord;
  current_songs : list SongRecord;
  in_song_section : bool
}.

Definition set_title v (t : Tja) : Tja :=
  {| text := text t; title := v; subtitle := subtitle t; title_ja := title_ja t;
     subtitle_ja := subtitle_ja t; wave := wave t; offset := offset t;
     courses := courses t |}.
Definition set_subtitle v (t : Tja) : Tja :=
  {| text := text t; title := title t; subtitle := v; title_ja := title_ja t;
     subtitle_ja := subtitle_ja t; wave := wave t; offset := offset t;
     courses := courses t |}.
Definition set_title_ja v (t : Tja) : Tja :=
  {| text := text t; title := title t; subtitle := subtitle t; title_ja := v;
     subtitle_ja := subtitle_ja t; wave := wave t; offset := offset t;
     courses := courses t |}.
Definition set_subtitle_ja v (t : Tja) : Tja :=
  {| text := text t; title := title t; subtitle := subtitle t; title_ja := title_ja t;
     subtitle_ja := v; wave := wave t; offset := offset t;
     courses := courses t |}.
Definition set_wave v (t : Tja) : Tja :=
  {| text := text t; title := title t; subtitle := subtitle t; title_ja := title_ja t;
     subtitle_ja := subtitle_ja t; wave := v; offset := offset t;
     courses := courses t |}.
Definition set_offset v (t : Tja) : Tja :=
  {| text := text t; title := title t; subtitle := subtitle t; title_ja := title_ja t;
     subtitle_ja := subtitle_ja t; wave := wave t; offset := v;
     courses := courses t |}.
Definition set_courses v (t : Tja) : Tja :=
  {| text := text t; title := title t; subtitle := subtitle t; title_ja := title_ja t;
     subtitle_ja := subtitle_ja t; wave := wave t; offset := offset t;
     courses := v |}.

Definition update_self (f : Tja → Tja) (fr : Frame) : Frame :=
  {| self := f (self fr); current_course := current_course fr;
     current_exams := current_exams fr; current_songs := current_songs fr;
     in_song_section := in_song_section fr |}.
Definition set_in_song_section (b : bool) (fr : Frame) : Frame :=
  {| self := self fr; current_course := current_course fr;
     current_exams := current_exams fr; current_songs := current_songs fr;
     in_song_section := b |}.
Definition append_song (s : SongRecord) (fr : Frame) : Frame :=
  {| self := self fr; current_course := current_course fr;
     current_exams := current_exams fr; current_songs := current_songs fr ++ [s];
     in_song_section := in_song_section fr |}.
Definition append_exam (e : ExamRecord) (fr : Frame) : Frame :=
  {| self := self fr; current_course := current_course fr;
     current_exams := current_exams fr ++ [e]; current_songs := current_songs fr;
     in_song_section := in_song_section fr |}.

Definition set_stars v (r : CourseRecord) : CourseRecord :=
  {| stars := v; branch := branch r; exams := exams r; songs := songs r |}.
Definition set_branch v (r : CourseRecord) : CourseRecord :=
  {| stars := stars r; branch := v; exams := exams r; songs := songs r |}.
Definition set_exams v (r : CourseRecord) : CourseRecord :=
  {| stars := stars r; branch := branch r; exams := Some v; songs := songs r |}.
Definition set_songs v (r : CourseRecord) : CourseRecord :=
  {| stars := stars r; branch := branch r; exams := exams r; songs := Some v |}.

(** [self.courses[k][...] = ...]: the inner dict of key [k] is updated in
    place; KeyError when [self.courses] has no key [k] ([None] is never one). *)
Definition setitem_course (k : option str) (f : CourseRecord → CourseRecord)
    (cs : gmap str CourseRecord) : result (gmap str CourseRecord) :=
  match k with
  | Some c =>
      match cs !! c with
      | Some r => Ok (<[c := f r]> cs)
      | None => Raise KeyError
      end
  | None => Raise KeyError
  end.

(** [k in self.courses]. *)
Definition has_course (k : option str) (cs : gmap str CourseRecord) : bool :=
  match k with
  | Some c => bool_decide (is_Some (cs !! c))
  | None => false
  end.

(** *** [_parse] *)
Section Parse.
Context `{Unicode}.

(** [parts[i].strip()] when [len(parts) > i], else the empty string. *)
Definition field (parts : list str) (i : nat) : str :=
  match parts !! i with
  | Some p => strip p
  | None => []
  end.

(** The dict [song_info] of lines 34-41; [float] and [int] are called
    outside any [try]. *)
Definition song_info (parts : list str) : result SongRecord :=
  off ← (if nonempty (field parts 4)
         then if float_ok (field parts 4)
              then Ok (PyFloat (field parts 4)) else Raise ValueError
         else Ok (PyInt 0));
  score ← (if nonempty (field parts 5)
           then or_raise (int (field parts 5))
           else Ok 0%Z);
  Ok {| song_title := field parts 0; artist := field parts 1;
        genre := field parts 2; song_wave := field parts 3;
        song_offset := off; scoreInit := score |}.

(** Lines 75-79, "Save previous course data if exists".  The copy of a list
    is the list: after every commit the two buffers are bound to new lists
    (lines 95-96), so no stored list is appended to later. *)
Definition save_previous (fr : Frame) : gmap str CourseRecord :=
  let cs := courses (self fr) in
  if truthy (current_course fr) && has_course (current_course fr) cs then
    let cs := if bool_decide (current_exams fr ≠ [])
              then alter (set_exams (current_exams fr)) (default [] (current_course fr)) cs
              else cs in
    if bool_decide (current_songs fr ≠ [])
    then alter (set_songs (current_songs fr)) (default [] (current_course fr)) cs
    else cs
  else cs.

(** Lines 81-91: [course_map.get(token)]. *)
Definition course_map (token : str) : option str :=
  if bool_decide (token = u "EASY") then Some (u "easy")
  else if bool_decide (token = u "NORMAL") then Some (u "normal")
  else if bool_decide (token = u "HARD") then Some (u "hard")
  else if bool_decide (token = u "ONI") then Some (u "oni")
  else if bool_decide (token = u "EDIT") then Some (u "ura")
  else if bool_decide (token = u "URA") then Some (u "ura")
  else if bool_decide (token = u "DAN") then Some (u "dan")
  else if bool_decide (token = u "TOWER") then Some (u "tower")
  else None.

(** Lines 74-96, the COURSE directive. *)
Definition on_course (val : str) (fr : Frame) : Frame :=
  let cs := save_previous fr in
  let cc := course_map (upper (strip val)) in
  let cs := if truthy cc && negb (has_course cc cs)
            then <[default [] cc := {| stars := None; branch := false;
                                       exams := None; songs := None |}]> cs
            else cs in
  {| self := set_courses cs (self fr); current_course := cc;
     current_exams := []; current_songs := [];
     in_song_section := in_song_section fr |}.

(** Lines 99-103, the LEVEL directive under a course. *)
Definition on_level (val : str) (fr : Frame) : result Frame :=
  let stars := int (first (re_split_spaces val)) in
  cs ← setitem_course (current_course fr) (set_stars stars) (courses (self fr));
  Ok (update_self (set_courses cs) fr).

Definition is_exam_key (key : str) : bool :=
  bool_decide (key = u "EXAM1") || bool_decide (key = u "EXAM2")
  || bool_decide (key = u "EXAM3") || bool_decide (key = u "EXAM4").

(** Lines 113-118: the two thresholds, both 0 when either [int] fails. *)
Definition pass_values (exam_parts : list str) : Z * Z :=
  let p1 := strip (nth 1 exam_parts []) in
  let p2 := strip (nth 2 exam_parts []) in
  match (if nonempty p1 then int p1 else Some 0%Z) with
  | Some red_pass =>
      match (if nonempty p2 then int p2 else Some 0%Z) with
      | Some gold_pass => (red_pass, gold_pass)
      | None => (0%Z, 0%Z)
      end
  | None => (0%Z, 0%Z)
  end.

(** [int(key[-1])]. *)
Definition key_number (key : str) : result Z :=
  match last key with
  | Some c => or_raise (int [c])
  | None => Raise IndexError
  end.

(** Lines 112-127: the dict [exam_data], [n] being [int(key[-1])]. *)
Definition exam_data (n : Z) (exam_parts : list str) : ExamRecord :=
  let exam_type := lower (strip (nth 0 exam_parts [])) in
  let '(red, gold) := pass_values exam_parts in
  let scope := if bool_decide (3 < length exam_parts)
               then lower (strip (nth 3 exam_parts [])) else u "l" in
  {| exam_id := n; exam_type := exam_type; red_pass := red;
     gold_pass := gold; scope := scope |}.

(** Lines 110-128, an EXAM1..EXAM4 directive under a course. *)
Definition on_exam (key val : str) (fr : Frame) : result Frame :=
  let exam_parts := split (ord ",") val in
  if bool_decide (3 ≤ length exam_parts) then
    n ← key_number key;
    Ok (append_exam (exam_data n exam_parts) fr)
  else Ok fr.

(** Lines 58-128, the chain on the key of a [key:value] line. *)
Definition on_key_value (key val : str) (fr : Frame) : result Frame :=
  if bool_decide (key = u "TITLE") then Ok (update_self (set_title (or_None val)) fr)
  else if bool_decide (key = u "TITLEJA") then Ok (update_self (set_title_ja (or_None val)) fr)
  else if bool_decide (key = u "SUBTITLE") then Ok (update_self (set_subtitle (or_None val)) fr)
  else if bool_decide (key = u "SUBTITLEJA") then Ok (update_self (set_subtitle_ja (or_None val)) fr)
  else if bool_decide (key = u "WAVE") then Ok (update_self (set_wave (or_None val)) fr)
  else if bool_decide (key = u "OFFSET") then
    Ok (update_self (set_offset (if float_ok val then Some (PyFloat val) else None)) fr)
  else if bool_decide (key = u "COURSE") then Ok (on_course val fr)
  else if bool_decide (key = u "LEVEL") && truthy (current_course fr) then on_level val fr
  else if is_exam_key key && truthy (current_course fr) then on_exam key val fr
  else Ok fr.

(** Lines 130-131, a line without a colon. *)
Definition on_other (line : str) (fr : Frame) : result Frame :=
  if truthy (current_course fr)
     && (startswith (u "BRANCHSTART") line || startswith (u "#BRANCHSTART") line)
  then cs ← setitem_course (current_course fr) (set_branch true) (courses (self fr));
       Ok (update_self (set_courses cs) fr)
  else Ok fr.

(** Lines 25-131, the body of the loop for one [raw] line. *)
Definition step (fr : Frame) (raw : str) : result Frame :=
  let line := strip raw in
  if negb (nonempty line) then Ok fr
  else if startswith (u "#NEXTSONG") (upper line) then
    let parts := split (ord ",") (strip (drop 9 line)) in
    if bool_decide (4 ≤ length parts)
    then song ← song_info parts; Ok (append_song song fr)
    else Ok fr
  else if startswith (u "#START") (upper line) then Ok (set_in_song_section true fr)
  else if startswith (u "#END") (upper line) then Ok (set_in_song_section false fr)
  else match split_once (ord ":") line with
       | Some (k, v) => on_key_value (upper (strip k)) (strip v) fr
       | None => on_other line fr
       end.

(** The [for] loop over the lines. *)
Fixpoint for_lines (lines : list str) (fr : Frame) : result Frame :=
  match lines with
  | [] => Ok fr
  | raw :: rest => fr' ← step fr raw; for_lines rest fr'
  end.

(** Lines 134-138, "Save final course data". *)
Definition save_final (fr : Frame) : gmap str CourseRecord :=
  let cs := courses (self fr) in
  if truthy (current_course fr) && has_course (current_course fr) cs then
    let cs := if bool_decide (current_exams fr ≠ [])
              then alter (set_exams (current_exams fr)) (default [] (current_course fr)) cs
              else cs in
    if bool_decide (current_songs fr ≠ [])
    then alter (set_songs (current_songs fr)) (default [] (current_course fr)) cs
    else cs
  else cs.

(** Lines 18-22: the local variables at the start of [_parse]. *)
Definition enter (t : Tja) : Frame :=
  {| self := t; current_course := None; current_exams := [];
     current_songs := []; in_song_section := false |}.

Definition _parse (t : Tja) : result Tja :=
  fr ← for_lines (split 10 (text t)) (enter t);
  Ok (set_courses (save_final fr) (self fr)).

(** [Tja(text)]: the attributes of lines 7-14, then [_parse]. *)
Definition fresh (text : str) : Tja :=
  {| text := text; title := None; subtitle := None; title_ja := None;
     subtitle_ja := None; wave := None; offset := None; courses := ∅ |}.

Definition __init__ (text : str) : result Tja := _parse (fresh text).

(** *** [to_mongo] *)

Record Lang := {
  ja : option str;
  en : option str;
  cn : option str;
  tw : option str;
  ko : option str
}.

(** The dict [to_mongo] returns; [doc_courses] keeps the order of its keys. *)
Record Document := {
  doc_id : str;
  doc_type : str;
  doc_title : option str;
  doc_subtitle : option str;
  title_lang : Lang;
  subtitle_lang : Lang;
  doc_courses : list (str * option CourseRecord);
  enabled : bool;
  category_id : option str;
  music_type : str;
  doc_offset : number;
  skin_id : option str;
  preview : number;
  volume : number;
  maker_id : option str;
  hash : option str;
  order : str;
  created_ns : Z
}.

(** [a or b] on optional strings. *)
Definition or_else (a b : option str) : option str :=
  if truthy a then a else b.

(** Lines 141-148. *)
Definition extension (t : Tja) : str :=
  let ext :=
    if truthy (wave t) then
      let base := PosixPath.basename (default [] (wave t)) in
      let e := (PosixPath.splitext base).2 in
      if nonempty e then Some (lower (lstrip_char (ord ".") e)) else None
    else None in
  if truthy ext then default [] ext else u "mp3".

(** Lines 150-191.  The dict of a course always has the keys stars and
    branch, so it is true in [if course_data]. *)
Definition to_mongo (t : Tja) (song_id : str) (created : Z) : Document :=
  let ext := extension t in
  let courses_out :=
    (fun name => (name, courses t !! name)) <$>
      [u "easy"; u "normal"; u "hard"; u "oni"; u "ura"; u "dan"; u "tower"] in
  {| doc_id := song_id;
     doc_type := u "tja";
     doc_title := title t;
     doc_subtitle := subtitle t;
     title_lang := {| ja := or_else (title_ja t) (title t); en := None;
                      cn := or_else (title_ja t) None; tw := None; ko := None |};
     subtitle_lang := {| ja := or_else (subtitle_ja t) (subtitle t); en := None;
                         cn := or_else (subtitle_ja t) None; tw := None; ko := None |};
     doc_courses := courses_out;
     enabled := false;
     category_id := None;
     music_type := ext;
     doc_offset := PyInt 0;
     skin_id := None;
     preview := PyInt 0;
     volume := PyFloat (u "1.0");
     maker_id := None;
     hash := None;
     order := song_id;
     created_ns := created |}.

(** *** The kinds of lines

    The tests of the loop body in their order, as a classification of the
    raw line; the properties below speak of lines through it. *)

Inductive kind :=
  | Blank
  | NextSong (parts : list str)
  | Start
  | End_
  | KeyValue (key val : str)
  | Bare (line : str).

Definition classify (raw : str) : kind :=
  let line := strip raw in
  if negb (nonempty line) then Blank
  else if startswith (u "#NEXTSONG") (upper line)
  then NextSong (split (ord ",") (strip (drop 9 line)))
  else if startswith (u "#START") (upper line) then Start
  else if startswith (u "#END") (upper line) then End_
  else match split_once (ord ":") line with
       | Some (k, v) => KeyValue (upper (strip k)) (strip v)
       | None => Bare line
       end.

Definition dispatch (fr : Frame) (k : kind) : result Frame :=
  match k with
  | Blank => Ok fr
  | NextSong parts =>
      if bool_decide (4 ≤ length parts)
      then song ← song_info parts; Ok (append_song song fr)
      else Ok fr
  | Start => Ok (set_in_song_section true fr)
  | End_ => Ok (set_in_song_section false fr)
  | KeyValue key val => on_key_value key val fr
  | Bare line => on_other line fr
  end.

(** A COURSE directive, and the value it carries. *)
Definition course_value (raw : str) : option str :=
  match classify raw with
  | KeyValue key val => if bool_decide (key = u "COURSE") then Some val else None
  | _ => None
  end.

Definition is_course_line (raw : str) : bool :=
  bool_decide (is_Some (course_value raw)).

(** A COURSE directive whose value is in the alias table. *)
Definition is_recognized_course_line (raw : str) : bool :=
  match course_value raw with
  | Some val => bool_decide (is_Some (course_map (upper (strip val))))
  | None => false
  end.

(** A COURSE directive that makes [c] the current course. *)
Definition introduces (c : str) (raw : str) : bool :=
  match course_value raw with
  | Some val => bool_decide (course_map (upper (strip val)) = Some c)
  | None => false
  end.

Definition is_level_line (raw : str) : bool :=
  match classify raw with
  | KeyValue key _ => bool_decide (key = u "LEVEL")
  | _ => false
  end.

Definition is_exam_line (raw : str) : bool :=
  match classify raw with
  | KeyValue key _ => is_exam_key key
  | _ => false
  end.

Definition is_nextsong_line (raw : str) : bool :=
  match classify raw with
  | NextSong _ => true
  | _ => false
  end.

(** A line without a colon that starts with the branch marker. *)
Definition is_branch_line (raw : str) : bool :=
  match classify raw with
  | Bare line => startswith (u "BRANCHSTART") line || startswith (u "#BRANCHSTART") line
  | _ => false
  end.

(** The number in the key of an EXAM directive. *)
Definition exam_number (key : str) : Z :=
  if bool_decide (key = u "EXAM1") then 1
  else if bool_decide (key = u "EXAM2") then 2
  else if bool_decide (key = u "EXAM3") then 3
  else 4.

(** The record an EXAM line appends under a course, if it appends one. *)
Definition exam_of (raw : str) : option ExamRecord :=
  match classify raw with
  | KeyValue key val =>
      if is_exam_key key && bool_decide (3 ≤ length (split (ord ",") val))
      then Some (exam_data (exam_number key) (split (ord ",") val))
      else None
  | _ => None
  end.

(** The record a NEXTSONG line appends, if it appends one. *)
Definition song_of (raw : str) : option SongRecord :=
  match classify raw with
  | NextSong parts =>
      if bool_decide (4 ≤ length parts)
      then match song_info parts with Ok s => Some s | Raise _ => None end
      else None
  | _ => None
  end.

(** A NEXTSONG line with four fields or more whose offset or scoreInit is
    there and is no number. *)
Definition aborts (raw : str) : bool :=
  match classify raw with
  | NextSong parts =>
      bool_decide (4 ≤ length parts)
      && (nonempty (field parts 4) && negb (float_ok (field parts 4))
          || nonempty (field parts 5) && bool_decide (int (field parts 5) = None))
  | _ => false
  end.

Definition exams_of (lines : list str) : list ExamRecord := omap exam_of lines.
Definition songs_of (lines : list str) : list SongRecord := omap song_of lines.

(** The text without the lines that satisfy [p]. *)
Definition without (p : str → bool) (text : str) : str :=
  join 10 (filter (fun raw => p raw = false) (split 10 text)).

(** The frame keeps the invariant of the loop: the current course, when
    there is one, is a key of [self.courses]. *)
Definition wf (fr : Frame) : Prop :=
  truthy (current_course fr) = true →
  has_course (current_course fr) (courses (self fr)) = true.

(** Two objects that differ in [text] at most. *)
Definition same_chart (a b : Tja) : Prop :=
  title a = title b ∧ subtitle a = subtitle b ∧ title_ja a = title_ja b
  ∧ subtitle_ja a = subtitle_ja b ∧ wave a = wave b ∧ offset a = offset b
  ∧ courses a = courses b.

(** The commit, spelled out on the record of the current course. *)
Definition committed (fr : Frame) (r : CourseRecord) : CourseRecord :=
  {| stars := stars r; branch := branch r;
     exams := if bool_decide (current_exams fr ≠ []) then Some (current_exams fr) else exams r;
     songs := if bool_decide (current_songs fr ≠ []) then Some (current_songs fr) else songs r |}.

(** Lines 58-72 alone: what a key other than COURSE, LEVEL and EXAM1..EXAM4
    does to the object. *)
Definition on_scalar (key val : str) (t : Tja) : Tja :=
  if bool_decide (key = u "TITLE") then set_title (or_None val) t
  else if bool_decide (key = u "TITLEJA") then set_title_ja (or_None val) t
  else if bool_decide (key = u "SUBTITLE") then set_subtitle (or_None val) t
  else if bool_decide (key = u "SUBTITLEJA") then set_subtitle_ja (or_None val) t
  else if bool_decide (key = u "WAVE") then set_wave (or_None val) t
  else if bool_decide (key = u "OFFSET")
  then set_offset (if float_ok val then Some (PyFloat val) else None) t
  else t.

(** No course is current. *)
Definition idle (fr : Frame) : Prop := truthy (current_course fr) = false.

(** Two outcomes of [Tja(text)] that agree: the same exception, or objects
    that differ in [text] at most. *)
Definition same_result (a b : result Tja) : Prop :=
  match a, b with
  | Ok x, Ok y => same_chart x y
  | Raise e1, Raise e2 => e1 = e2
  | _, _ => False
  end.

(** The record a COURSE line creates (line 93). *)
Definition blank_record : CourseRecord :=
  {| stars := None; branch := false; exams := None; songs := None |}.

(** The lists of a record are those of [old], unless the block [post] gave
    new ones. *)
Definition kept_or_replaced (old : CourseRecord) (post : list str)
    (r : CourseRecord) : Prop :=
  exams r = (if bool_decide (exams_of post = []) then exams old
             else Some (exams_of post))
  ∧ songs r = (if bool_decide (songs_of post = []) then songs old
               else Some (songs_of post)).


(** The seven course names, in the order of [to_mongo]. *)
Definition course_names : list str :=
  [u "easy"; u "normal"; u "hard"; u "oni"; u "ura"; u "dan"; u "tower"].


(** *** Further vocabulary

    Relations between frames, the lines without effect, the scalar
    attributes and the validity of what is stored. *)

(** Two frames with the same courses, current course and buffers. *)
Definition course_alike (a b : Frame) : Prop :=
  courses (self a) = courses (self b)
  ∧ current_course a = current_course b
  ∧ current_exams a = current_exams b
  ∧ current_songs a = current_songs b.

(** Two frames that differ in [self.text] and [in_song_section] at most. *)
Definition alike (a b : Frame) : Prop :=
  same_chart (self a) (self b) ∧ course_alike a b.

(** Two frames with the same courses and current course, and with the same
    buffers while a course is current. *)
Definition same_courses (a b : Frame) : Prop :=
  courses (self a) = courses (self b)
  ∧ current_course a = current_course b
  ∧ (truthy (current_course a) = true →
     current_exams a = current_exams b ∧ current_songs a = current_songs b).

(** Two outcomes of [Tja(text)] with the same courses. *)
Definition same_courses_result (a b : result Tja) : Prop :=
  match a, b with
  | Ok x, Ok y => courses x = courses y
  | Raise e1, Raise e2 => e1 = e2
  | _, _ => False
  end.

(** What a line does to the scalar attributes (lines 58-72). *)
Definition metadata (raw : str) (t : Tja) : Tja :=
  match classify raw with
  | KeyValue key val => on_scalar key val t
  | _ => t
  end.

(** The keys the chain of lines 58-128 knows. *)
Definition known_key (key : str) : bool :=
  bool_decide (key ∈ [u "TITLE"; u "TITLEJA"; u "SUBTITLE"; u "SUBTITLEJA";
                      u "WAVE"; u "OFFSET"; u "COURSE"; u "LEVEL";
                      u "EXAM1"; u "EXAM2"; u "EXAM3"; u "EXAM4"]).

(** A line no branch of the loop body acts on: a blank line, a #START or
    #END marker, a NEXTSONG line of fewer than four fields, a line with an
    unknown key, an EXAM line of fewer than three fields, a line without a
    colon that is no branch-start line. *)
Definition ignored (raw : str) : bool :=
  match classify raw with
  | Blank | Start | End_ => true
  | NextSong parts => bool_decide (length parts < 4)
  | KeyValue key val =>
      negb (known_key key)
      || is_exam_key key && bool_decide (length (split (ord ",") val) < 3)
  | Bare line =>
      negb (startswith (u "BRANCHSTART") line || startswith (u "#BRANCHSTART") line)
  end.

(** The five text attributes, their keys and their values in an object. *)
Inductive scalar := Title | TitleJa | Subtitle | SubtitleJa | Wave.

Definition scalar_key (s : scalar) : str :=
  match s with
  | Title => u "TITLE"
  | TitleJa => u "TITLEJA"
  | Subtitle => u "SUBTITLE"
  | SubtitleJa => u "SUBTITLEJA"
  | Wave => u "WAVE"
  end.

Definition scalar_of (s : scalar) (t : Tja) : option str :=
  match s with
  | Title => title t
  | TitleJa => title_ja t
  | Subtitle => subtitle t
  | SubtitleJa => subtitle_ja t
  | Wave => wave t
  end.

(** A [key:value] line with the key [key]. *)
Definition has_key (key : str) (raw : str) : bool :=
  match classify raw with
  | KeyValue k _ => bool_decide (k = key)
  | _ => false
  end.

(** [float(val)] under [try] (lines 69-72): the value of OFFSET. *)
Definition offset_value (val : str) : option number :=
  if float_ok val then Some (PyFloat val) else None.

(** The kind of the line [k:v], [k] without a colon: the three directives
    come first, whatever follows them. *)
Definition kind_with_colon (k v : str) : kind :=
  let line := lstrip_with isspace k ++ ord ":" :: rstrip_with isspace v in
  if startswith (u "#NEXTSONG") (upper line)
  then NextSong (split (ord ",") (strip (drop 9 line)))
  else if startswith (u "#START") (upper line) then Start
  else if startswith (u "#END") (upper line) then End_
  else KeyValue (upper (strip k)) (strip v).

(** The offset of a stored song: the [int] 0 of a blank field, or the
    [float] of a text that [float] accepts. *)
Definition valid_offset (n : number) : bool :=
  match n with
  | PyInt z => bool_decide (z = 0%Z)
  | PyFloat s => nonempty s && float_ok s
  end.

(** A stored exam has the number of its key. *)
Definition valid_exam (e : ExamRecord) : Prop := (1 ≤ exam_id e ≤ 4)%Z.

(** A stored song: its four texts are stripped, its offset is valid. *)
Definition valid_song (s : SongRecord) : Prop :=
  strip (song_title s) = song_title s ∧ strip (artist s) = artist s
  ∧ strip (genre s) = genre s ∧ strip (song_wave s) = song_wave s
  ∧ valid_offset (song_offset s) = true.

(** A stored list is never empty, and its entries are valid. *)
Definition valid_record (r : CourseRecord) : Prop :=
  (∀ l, exams r = Some l → l ≠ [] ∧ Forall valid_exam l)
  ∧ (∀ l, songs r = Some l → l ≠ [] ∧ Forall valid_song l).

Definition valid_frame (fr : Frame) : Prop :=
  map_Forall (fun _ r => valid_record r) (courses (self fr))
  ∧ Forall valid_exam (current_exams fr)
  ∧ Forall valid_song (current_songs fr).

(** [a or b] when [a] is not the empty string. *)
Definition first_of (a b : option str) : option str :=
  match a with Some x => Some x | None => b end.

(** The text with a carriage return before every line feed. *)
Definition crlf (text : str) : str :=
  mjoin ((fun c => if (c =? 10)%N then [13; 10]%N else [c]) <$> text).

(** A line that sets a scalar attribute (lines 58-72). *)
Definition is_scalar_line (raw : str) : bool :=
  match classify raw with
  | KeyValue key _ =>
      bool_decide (key ∈ [u "TITLE"; u "TITLEJA"; u "SUBTITLE"; u "SUBTITLEJA";
                          u "WAVE"; u "OFFSET"])
  | _ => false
  end.

End Parse.
End Tja.

(** ** Inputs of the examples *)
Module Samples.
Import Py.

(** The chart of the specification's example; 9733 is U+2605, the star. *)
Definition sample_text : str :=
  join 10 [u "TITLE:Foo"; u "COURSE:ONI"; u "LEVEL:8 (" ++ [9733%N] ++ u ")";
           u "EXAM1:g,80,100,m"; u "BRANCHSTART"; u "COURSE:HARD"; u "LEVEL:5"; []].

(** A chart without a course. *)
Definition no_course_text : str :=
  join 10 [u "TITLE:Foo"; u "EXAM1:g,80,100,m"; u "#NEXTSONG a,b,c,d.ogg,1.5,7";
           u "LEVEL:5"; u "BRANCHSTART"].

(** A NEXTSONG line whose offset is no number. *)
Definition bad_song_text : str := u "#NEXTSONG a,b,c,wave.ogg,bad,0".

(** A last course with an exam and a song after it. *)
Definition last_course_text : str :=
  join 10 [u "COURSE:Oni"; u "EXAM1:g,bad,10"; u "#nextsong a,b,c,d.ogg, 1.5 ,7"].

(** The course oni declared twice, with another course in between and after. *)
Definition twice_text : str :=
  join 10 [u "COURSE:Oni"; u "LEVEL:8"; u "BRANCHSTART"; u "EXAM1:g,80,100,m";
           u "COURSE:Hard"; u "COURSE:Oni"; u "EXAM2:ok,1,2";
           u "COURSE:Easy"; u "LEVEL:2"].

(** Lines without effect around a title and a course. *)
Definition noise_text : str :=
  join 10 [u "TITLE:Foo"; u "#START"; u "1011,"; u "#END"; u "GENRE:pop"; [];
           u "COURSE:Oni"; u "EXAM1:g,1"; u "#NEXTSONG a,b"; u "LEVEL:3"].

(** The lines of [noise_text] that do nothing. *)
Definition noise_lines : list str :=
  [u "#START"; u "1011,"; u "#END"; u "GENRE:pop"; []; u "EXAM1:g,1";
   u "#NEXTSONG a,b"].

(** Two lines with blanks, a tab and a carriage return around them. *)
Definition indented_text : str :=
  [32; 32]%N ++ u "TITLE:Foo" ++ [32; 13; 10; 9]%N ++ u "COURSE:Oni" ++ [32]%N.

(** A title given twice, the second time in lower case with a colon in the
    value; an offset given twice, the second time with no number. *)
Definition retitled_text : str :=
  join 10 [u "TITLE:One"; u "OFFSET:-1.5"; u "title: Two:2 "; u "OFFSET:soon";
           u "TITLEJA:"; u "SUBTITLE:Sub"; u "SUBTITLEJA:Fuku"; u "COURSE:Oni"].

(** Three of the attribute lines of [retitled_text]. *)
Definition attribute_lines : list str :=
  [u "TITLE:One"; u "OFFSET:soon"; u "SUBTITLEJA:Fuku"].

(** A song, an exam and a title before the first course. *)
Definition header_text : str :=
  join 10 [u "TITLE:Foo"; u "#NEXTSONG a,b,c,d.ogg"; u "EXAM1:g,1,2";
           u "COURSE:Oni"; u "LEVEL:3"].

(** Two LEVEL lines and a branch in the block of oni, then another course. *)
Definition level_text : str :=
  join 10 [u "COURSE:Oni"; u "LEVEL:3"; u "BRANCHSTART"; u "LEVEL:9 stars";
           u "COURSE:Hard"; u "LEVEL:x"].

End Samples.

Import Py Tja Samples.

(** * Properties *)

(** ** Splitting and joining *)
Section Strings.

Lemma split_no_sep sep s : Forall (fun w => sep ∉ w) (split sep s).
Proof.
  induction s as [|c r IH]; cbn.
  - repeat constructor. by intros ?%elem_of_nil.
  - destruct (N.eqb_spec c sep) as [->|Hne].
    + constructor; [by intros ?%elem_of_nil | done].
    + destruct (split sep r) as [|w ws]; [repeat constructor|].
      * intros [?|?%elem_of_nil]%elem_of_cons; done.
      * inversion_clear IH. constructor; [|done].
        intros [?|?]%elem_of_cons; done.
Qed.

Lemma split_app_sep sep w s :
  sep ∉ w → split sep (w ++ sep :: s) = w :: split sep s.
Proof.
  induction w as [|c w IH]; cbn; intros Hw.
  - by rewrite N.eqb_refl.
  - apply not_elem_of_cons in Hw as [Hc Hw].
    destruct (N.eqb_spec c sep) as [->|_]; [done|]. by rewrite IH.
Qed.

Lemma split_no_occurrence sep w : sep ∉ w → split sep w = [w].
Proof.
  induction w as [|c w IH]; cbn; intros Hw; [done|].
  apply not_elem_of_cons in Hw as [Hc Hw].
  destruct (N.eqb_spec c sep) as [->|_]; [done|]. by rewrite IH.
Qed.

Lemma split_join sep ls :
  ls ≠ [] → Forall (fun w => sep ∉ w) ls → split sep (join sep ls) = ls.
Proof.
  induction ls as [|w ls IH]; [done|]. intros _ Hall.
  inversion_clear Hall as [|? ? Hw Hls]. destruct ls as [|w' ls].
  - cbn. by apply split_no_occurrence.
  - change (join sep (w :: w' :: ls)) with (w ++ sep :: join sep (w' :: ls)).
    rewrite split_app_sep by done. f_equal. by apply IH.
Qed.

Lemma startswith_app p z : startswith p (p ++ z) = true.
Proof. induction p as [|a p IH]; cbn; [done|]. by rewrite N.eqb_refl. Qed.

Lemma startswith_cons a p s :
  startswith (a :: p) s = true ↔ ∃ s', s = a :: s' ∧ startswith p s' = true.
Proof.
  destruct s as [|b s]; cbn.
  - split; [done|]. by intros (? & ? & _).
  - rewrite andb_true_iff, N.eqb_eq. split.
    + intros [-> ?]. eauto.
    + intros (s' & [= -> ->] & ?). done.
Qed.

Lemma split_once_None sep s : split_once sep s = None ↔ sep ∉ s.
Proof.
  induction s as [|c r IH]; cbn.
  - split; [|done]. intros _ ?%elem_of_nil. done.
  - rewrite not_elem_of_cons. destruct (N.eqb_spec c sep) as [->|Hne].
    + split; [done|]. by intros [? _].
    + destruct (split_once sep r) as [[k v]|].
      * split; [done|]. intros [_ Hr]. by apply IH in Hr.
      * split; [|done]. intros _. split; [done|]. by apply IH.
Qed.

Lemma drop_while_app_stop p x d y :
  p d = false → drop_while p (x ++ d :: y) = drop_while p x ++ d :: y.
Proof.
  intros Hd. induction x as [|a x IH]; cbn.
  - by rewrite Hd.
  - by destruct (p a).
Qed.

Lemma rstrip_app p a d rest :
  p d = false → rstrip_with p (a ++ d :: rest) = a ++ d :: rstrip_with p rest.
Proof.
  intros Hd. unfold rstrip_with.
  rewrite rev_app_distr. cbn. rewrite <- app_assoc. cbn.
  rewrite drop_while_app_stop by done.
  rewrite rev_app_distr. cbn. by rewrite rev_involutive, <- app_assoc.
Qed.

(** Stripping keeps a prefix that starts and ends with something else than
    whitespace. *)
Lemma strip_keeps_prefix c a d rest :
  isspace c = false → isspace d = false →
  strip (c :: a ++ d :: rest) = c :: a ++ d :: rstrip_with isspace rest.
Proof.
  intros Hc Hd. unfold strip, lstrip_with. cbn [drop_while]. rewrite Hc.
  apply (rstrip_app isspace (c :: a) d rest Hd).
Qed.

Lemma strip_solid p rest :
  p ≠ [] → Forall (fun c => isspace c = false) p →
  strip (p ++ rest) = p ++ rstrip_with isspace rest.
Proof.
  intros Hne Hall. destruct p as [|c p]; [done|].
  inversion_clear Hall as [|? ? Hc Hp].
  destruct (decide (p = [])) as [->|Hp'].
  - unfold strip, lstrip_with. cbn [drop_while app]. rewrite Hc.
    apply (rstrip_app isspace [] c rest Hc).
  - destruct (exists_last Hp') as (a & d & ->).
    apply Forall_app in Hp as [_ Hd]. inversion_clear Hd as [|? ? Hd' _].
    replace ((c :: a ++ [d]) ++ rest) with (c :: a ++ d :: rest)
      by (cbn; by rewrite <- app_assoc).
    rewrite strip_keeps_prefix by done. cbn. by rewrite <- app_assoc.
Qed.

End Strings.

(** ** Paths *)
Section Paths.
Import PosixPath.

Lemma rfind_range c s : (-1 <= rfind c s < Z.of_nat (length s))%Z.
Proof.
  induction s as [|a r IH]; cbn; [lia|].
  destruct (Z.leb_spec 0 (rfind c r)); [lia|].
  destruct (a =? c)%N; lia.
Qed.

Lemma rfind_absent c s : c ∉ s ↔ rfind c s = (-1)%Z.
Proof.
  induction s as [|a r IH]; cbn.
  - split; [done|]. intros _ ?%elem_of_nil. done.
  - rewrite not_elem_of_cons. pose proof (rfind_range c r).
    destruct (Z.leb_spec 0 (rfind c r)) as [Hr|Hr].
    + split; [|lia]. intros [_ Hc%IH]. lia.
    + destruct (N.eqb_spec a c) as [->|Hne].
      * split; [|done]. by intros [? _].
      * split; [done|]. intros _. split; [done|]. apply IH. lia.
Qed.

Lemma rfind_last c a b : c ∉ b → rfind c (a ++ c :: b) = Z.of_nat (length a).
Proof.
  intros Hb. induction a as [|x a IH]; cbn.
  - rewrite (proj1 (rfind_absent _ _) Hb). cbn. by rewrite N.eqb_refl.
  - rewrite IH. destruct (Z.leb_spec 0 (Z.of_nat (length a))); lia.
Qed.

Lemma rfind_found c s :
  (0 <= rfind c s)%Z →
  ∃ a b, s = a ++ c :: b ∧ (c ∉ b) ∧ rfind c s = Z.of_nat (length a).
Proof.
  induction s as [|x r IH]; cbn; [lia|].
  pose proof (rfind_range c r).
  destruct (Z.leb_spec 0 (rfind c r)) as [Hr|Hr].
  - intros _. destruct (IH Hr) as (a & b & -> & Hb & Hlen).
    exists (x :: a), b. split_and!; [done|done|]. cbn. lia.
  - destruct (N.eqb_spec x c) as [->|Hne]; [|lia].
    intros _. exists [], r. split_and!; [done| |done].
    apply rfind_absent. lia.
Qed.

Lemma basename_no_sep w : ord "/" ∉ basename w.
Proof.
  unfold basename. pose proof (rfind_range (ord "/") w).
  destruct (Z.leb_spec 0 (rfind (ord "/") w)) as [Hr|Hr].
  - destruct (rfind_found _ _ Hr) as (a & b & -> & Hb & ->).
    replace (Z.to_nat (Z.of_nat (length a) + 1)) with (length (a ++ [ord "/"]))
      by (rewrite length_app; change (length [ord "/"]) with 1; lia).
    replace (a ++ ord "/" :: b) with ((a ++ [ord "/"]) ++ b)
      by (by rewrite <- app_assoc).
    by rewrite drop_app_length.
  - replace (rfind (ord "/") w) with (-1)%Z by lia.
    change (drop (Z.to_nat (-1 + 1)) w) with w. apply rfind_absent. lia.
Qed.

Lemma existsb_stem stem :
  existsb (fun c => negb (c =? ord ".")%N) stem = true ↔ has_stem stem.
Proof.
  rewrite existsb_exists. unfold has_stem. split.
  - intros (c & Hc%list_elem_of_In & Hne). exists c. split; [done|].
    intros ->. by rewrite N.eqb_refl in Hne.
  - intros (c & Hc & Hne). exists c. split; [by apply list_elem_of_In|].
    by destruct (N.eqb_spec c (ord ".")).
Qed.

Lemma slice_from_start p j : slice p (-1 + 1) j = take (Z.to_nat j) p.
Proof. unfold slice. change (Z.to_nat (-1 + 1)) with 0. by rewrite Nat.sub_0_r. Qed.

Lemma splitext_ext p stem x :
  ord "/" ∉ p → p = stem ++ ord "." :: x → ord "." ∉ x → has_stem stem →
  splitext p = (stem, ord "." :: x).
Proof.
  intros Hsep -> Hx Hstem. unfold splitext.
  rewrite (proj1 (rfind_absent _ _) Hsep), (rfind_last _ _ _ Hx).
  rewrite slice_from_start, Nat2Z.id, take_app_length, drop_app_length.
  rewrite (proj2 (existsb_stem stem) Hstem).
  destruct (Z.ltb_spec (-1) (Z.of_nat (length stem))); [done|lia].
Qed.

Lemma splitext_none p :
  ord "/" ∉ p →
  (∀ stem x, p = stem ++ ord "." :: x → ord "." ∉ x → ¬ has_stem stem) →
  splitext p = (p, []).
Proof.
  intros Hsep Hno. unfold splitext.
  rewrite (proj1 (rfind_absent _ _) Hsep).
  pose proof (rfind_range (ord ".") p).
  destruct (Z.ltb_spec (-1) (rfind (ord ".") p)) as [Hlt|Hge]; [|done].
  destruct (rfind_found (ord ".") p) as (a & b & Hp & Hb & Hi); [lia|].
  rewrite Hi, slice_from_start, Nat2Z.id. rewrite Hp at 1. rewrite take_app_length.
  destruct (existsb _ a) eqn:Hex; [|done].
  apply existsb_stem in Hex. by destruct (Hno a b Hp Hb).
Qed.

Lemma extension_cases p :
  (∃ stem x, p = stem ++ ord "." :: x ∧ (ord "." ∉ x) ∧ has_stem stem)
  ∨ (∀ stem x, p = stem ++ ord "." :: x → ord "." ∉ x → ¬ has_stem stem).
Proof.
  pose proof (rfind_range (ord ".") p).
  destruct (Z.leb_spec 0 (rfind (ord ".") p)) as [Hr|Hr].
  - destruct (rfind_found _ _ Hr) as (a & b & Hp & Hb & Hi).
    destruct (existsb (fun c => negb (c =? ord ".")%N) a) eqn:Hex.
    + left. exists a, b. split_and!; [done|done|]. by apply existsb_stem.
    + right. intros stem x Hp' Hx Hstem.
      assert (length stem = length a) as Hlen.
      { rewrite Hp', (rfind_last _ _ _ Hx) in Hi. lia. }
      rewrite Hp' in Hp. apply app_inj_1 in Hp as [-> _]; [|done].
      apply existsb_stem in Hstem. congruence.
  - right. intros stem x -> _ _.
    assert (ord "." ∉ stem ++ ord "." :: x) as Hno by (apply rfind_absent; lia).
    apply Hno. apply elem_of_app. right. apply elem_of_cons. by left.
Qed.

Lemma lstrip_dot x : ord "." ∉ x → lstrip_char (ord ".") (ord "." :: x) = x.
Proof.
  intros Hx. unfold lstrip_char, lstrip_with. cbn. rewrite N.eqb_refl.
  destruct x as [|c x]; [done|]. cbn.
  apply not_elem_of_cons in Hx as [Hc _].
  destruct (N.eqb_spec (ord ".") c); [congruence|done].
Qed.

End Paths.

(** ** The loop body, line by line *)
Section Scanner.
Context `{Unicode}.

Lemma step_dispatch fr raw : step fr raw = dispatch fr (classify raw).
Proof.
  unfold step, classify. cbv zeta.
  destruct (negb (nonempty (strip raw))); [done|].
  destruct (startswith (u "#NEXTSONG") (upper (strip raw))); [done|].
  destruct (startswith (u "#START") (upper (strip raw))); [done|].
  destruct (startswith (u "#END") (upper (strip raw))); [done|].
  destruct (split_once (ord ":") (strip raw)) as [[k v]|]; done.
Qed.

Lemma key_number_exam key :
  is_exam_key key = true → key_number key = Ok (exam_number key).
Proof.
  unfold is_exam_key, exam_number. intros Hk.
  repeat case_bool_decide; subst; try done.
Qed.

Lemma has_course_Some c cs :
  has_course (Some c) cs = true ↔ is_Some (cs !! c).
Proof. unfold has_course. by rewrite bool_decide_eq_true. Qed.

Lemma truthy_Some cc : truthy cc = true → ∃ c, cc = Some c ∧ nonempty c = true.
Proof. destruct cc as [c|]; [eauto | done]. Qed.

Lemma setitem_course_ok cc f cs :
  truthy cc = true → has_course cc cs = true →
  ∃ c r, cc = Some c ∧ cs !! c = Some r
         ∧ setitem_course cc f cs = Ok (<[c := f r]> cs).
Proof.
  intros [c [-> _]]%truthy_Some [r Hr]%has_course_Some.
  exists c, r. unfold setitem_course. by rewrite Hr.
Qed.

Lemma save_previous_final fr : save_final fr = save_previous fr.
Proof. reflexivity. Qed.

Lemma save_previous_active fr c r :
  current_course fr = Some c → nonempty c = true →
  courses (self fr) !! c = Some r →
  save_previous fr = <[c := committed fr r]> (courses (self fr)).
Proof.
  intros Hc Hn Hr. unfold save_previous, committed. rewrite Hc. cbn.
  rewrite Hn. cbn. rewrite bool_decide_eq_true_2 by eauto.
  apply map_eq. intros k. destruct (decide (k = c)) as [->|Hk].
  - rewrite lookup_insert_eq.
    repeat case_bool_decide; rewrite ?lookup_alter_eq, ?Hr; cbn; try done.
    all: rewrite ?lookup_alter_eq, ?Hr; cbn; try done.
    by destruct r.
  - rewrite lookup_insert_ne by done.
    repeat case_bool_decide; rewrite ?lookup_alter_ne by done; done.
Qed.

Lemma save_previous_idle fr :
  truthy (current_course fr) = false → save_previous fr = courses (self fr).
Proof. unfold save_previous. by intros ->. Qed.

Lemma save_previous_dom fr k :
  is_Some (save_previous fr !! k) ↔ is_Some (courses (self fr) !! k).
Proof.
  unfold save_previous.
  repeat case_match; rewrite ?lookup_alter_is_Some; done.
Qed.

Lemma song_info_cases parts :
  (∃ s, song_info parts = Ok s
        ∧ (nonempty (field parts 4) && negb (float_ok (field parts 4))
           || nonempty (field parts 5) && bool_decide (int (field parts 5) = None)) = false)
  ∨ (song_info parts = Raise ValueError
     ∧ (nonempty (field parts 4) && negb (float_ok (field parts 4))
        || nonempty (field parts 5) && bool_decide (int (field parts 5) = None)) = true).
Proof.
  unfold song_info.
  destruct (nonempty (field parts 4)), (float_ok (field parts 4)),
    (nonempty (field parts 5)); cbn;
    try destruct (int (field parts 5)) eqn:Hi; cbn; eauto.
Qed.

Lemma step_aborts fr raw : aborts raw = true → step fr raw = Raise ValueError.
Proof.
  rewrite step_dispatch. unfold aborts.
  destruct (classify raw) as [|parts| | | |]; try done. cbn.
  intros [Hlen Hbad]%andb_true_iff. rewrite Hlen.
  destruct (song_info_cases parts) as [(s & _ & Hs)|[-> _]]; [congruence | done].
Qed.

Lemma on_course_wf val fr : wf (on_course val fr).
Proof.
  unfold wf, on_course. cbn. intros Ht. rewrite Ht. cbn.
  destruct (truthy_Some _ Ht) as (c & Hc & _). rewrite Hc in *. cbn.
  destruct (bool_decide (is_Some (save_previous fr !! c))) eqn:Hh; cbn.
  - done.
  - apply bool_decide_eq_true. rewrite lookup_insert_eq. eauto.
Qed.


Lemma step_course fr raw val :
  course_value raw = Some val → step fr raw = Ok (on_course val fr).
Proof.
  rewrite step_dispatch. unfold course_value.
  destruct (classify raw); try done.
  case_bool_decide; [|done]. intros [= <-]. by subst.
Qed.

Lemma not_course_line raw :
  is_course_line raw = false ↔ course_value raw = None.
Proof.
  unfold is_course_line. rewrite bool_decide_eq_false.
  destruct (course_value raw); split; try done.
  intros []. eauto.
Qed.

Lemma update_self_id fr : update_self (fun t => t) fr = fr.
Proof. by destruct fr. Qed.

Lemma is_exam_key_LEVEL key :
  bool_decide (key = u "LEVEL") = true → is_exam_key key = false.
Proof. intros ->%bool_decide_eq_true. reflexivity. Qed.

Lemma on_scalar_courses key val t : courses (on_scalar key val t) = courses t.
Proof. unfold on_scalar. by repeat case_bool_decide. Qed.

Lemma on_scalar_same_chart key val a b :
  same_chart a b → same_chart (on_scalar key val a) (on_scalar key val b).
Proof.
  unfold same_chart, on_scalar. intros (?&?&?&?&?&?&?).
  repeat case_bool_decide; by cbn.
Qed.

Lemma is_exam_key_cases key :
  is_exam_key key = true →
  key = u "EXAM1" ∨ key = u "EXAM2" ∨ key = u "EXAM3" ∨ key = u "EXAM4".
Proof.
  unfold is_exam_key. intros Hk.
  destruct (decide (key = u "EXAM1")); [tauto|].
  destruct (decide (key = u "EXAM2")); [tauto|].
  destruct (decide (key = u "EXAM3")); [tauto|].
  destruct (decide (key = u "EXAM4")); [tauto|].
  by rewrite !bool_decide_eq_false_2 in Hk by done.
Qed.

Lemma on_scalar_exam key val t :
  is_exam_key key = true → on_scalar key val t = t.
Proof. by intros [->|[->|[->| ->]]]%is_exam_key_cases. Qed.

Lemma update_self_ext f g fr :
  (∀ t, f t = g t) → update_self f fr = update_self g fr.
Proof. intros Hfg. unfold update_self. by rewrite Hfg. Qed.

(** Apart from COURSE, LEVEL and EXAM under a course, a key sets a scalar
    attribute or is ignored. *)
Lemma on_key_value_shape key val fr :
  key ≠ u "COURSE" →
  on_key_value key val fr =
    if bool_decide (key = u "LEVEL") && truthy (current_course fr)
    then on_level val fr
    else if is_exam_key key && truthy (current_course fr)
    then on_exam key val fr
    else Ok (update_self (on_scalar key val) fr).
Proof.
  intros Hc.
  destruct (decide (key = u "TITLE")) as [->|?]; [done|].
  destruct (decide (key = u "TITLEJA")) as [->|?]; [done|].
  destruct (decide (key = u "SUBTITLE")) as [->|?]; [done|].
  destruct (decide (key = u "SUBTITLEJA")) as [->|?]; [done|].
  destruct (decide (key = u "WAVE")) as [->|?]; [done|].
  destruct (decide (key = u "OFFSET")) as [->|?]; [done|].
  unfold on_key_value.
  rewrite (update_self_ext (on_scalar key val) (fun t => t)).
  - rewrite !bool_decide_eq_false_2 by done. by rewrite update_self_id.
  - intros t. unfold on_scalar. by rewrite !bool_decide_eq_false_2 by done.
Qed.

Ltac keep_same :=
  split_and!; rewrite ?app_nil_r; try done;
  let c := fresh "c" in let r := fresh "r" in
  let Hc := fresh "Hc" in let Hr := fresh "Hr" in
  intros c r Hc Hr; exists r; rewrite ?Hr, ?orb_false_r; done.

Lemma step_keep fr raw fr' :
  wf fr → step fr raw = Ok fr' → is_course_line raw = false →
  current_course fr' = current_course fr
  ∧ current_exams fr' = current_exams fr
      ++ (if truthy (current_course fr) then option_list (exam_of raw) else [])
  ∧ current_songs fr' = current_songs fr ++ option_list (song_of raw)
  ∧ (∀ d, current_course fr ≠ Some d →
       courses (self fr') !! d = courses (self fr) !! d)
  ∧ (∀ c r, current_course fr = Some c → courses (self fr) !! c = Some r →
       ∃ r', courses (self fr') !! c = Some r' ∧ exams r' = exams r
         ∧ songs r' = songs r
         ∧ (is_level_line raw = false → stars r' = stars r)
         ∧ branch r' = branch r || (truthy (current_course fr) && is_branch_line raw)).
Proof.
  intros Hwf. rewrite step_dispatch, not_course_line.
  unfold course_value, exam_of, song_of, is_level_line, is_branch_line.
  destruct (classify raw) as [|parts| | |key val|line]; cbn.
  - intros [= <-] _. rewrite !app_nil_r, andb_false_r. destruct (truthy _); rewrite ?app_nil_r.
    all: repeat split; eauto; intros c r Hc Hr; exists r; by rewrite orb_false_r.
  - case_bool_decide; cbn.
    + destruct (song_info parts) as [s|e]; cbn; [|done].
      intros [= <-] _. cbn. rewrite andb_false_r.
      destruct (truthy _); rewrite ?app_nil_r.
      all: repeat split; eauto; intros c r Hc Hr; exists r; by rewrite orb_false_r.
    + intros [= <-] _. rewrite !app_nil_r, andb_false_r. destruct (truthy _); rewrite ?app_nil_r.
      all: repeat split; eauto; intros c r Hc Hr; exists r; by rewrite orb_false_r.
  - intros [= <-] _. cbn. rewrite !app_nil_r, andb_false_r. destruct (truthy _); rewrite ?app_nil_r.
    all: repeat split; eauto; intros c r Hc Hr; exists r; by rewrite orb_false_r.
  - intros [= <-] _. cbn. rewrite !app_nil_r, andb_false_r. destruct (truthy _); rewrite ?app_nil_r.
    all: repeat split; eauto; intros c r Hc Hr; exists r; by rewrite orb_false_r.
  - intros Hstep Hkey.
    assert (key ≠ u "COURSE") as Hne by (by case_bool_decide).
    rewrite (on_key_value_shape key val fr Hne) in Hstep. rewrite andb_false_r.
    pose proof (on_scalar_courses key val) as Hf.
    destruct (bool_decide (key = u "LEVEL")) eqn:Hlevel; cbn in Hstep.
    + rewrite (is_exam_key_LEVEL _ Hlevel). cbn.
      destruct (truthy (current_course fr)) eqn:Ht; rewrite ?Ht in Hstep.
      * unfold on_level in Hstep.
        destruct (setitem_course_ok _ (set_stars (int (first (re_split_spaces val))))
                    _ Ht (Hwf Ht)) as (c & r & Hc & Hr & Hs).
        rewrite Hs in Hstep. cbn in Hstep. injection Hstep as <-. cbn. rewrite !app_nil_r.
        repeat split; [|].
        -- intros d Hd. apply lookup_insert_ne. congruence.
        -- intros c' r' Hc' Hr'. assert (c' = c) as -> by congruence.
           assert (r' = r) as -> by congruence.
           eexists. rewrite lookup_insert_eq. repeat split; try done.
           cbn. by rewrite orb_false_r.
      * rewrite (is_exam_key_LEVEL _ Hlevel) in Hstep.
        cbn in Hstep. injection Hstep as <-. cbn. rewrite !app_nil_r, Hf.
        repeat split; eauto. intros c r Hc Hr. exists r. by rewrite ?Hf, Hr, orb_false_r.
    + destruct (is_exam_key key && truthy (current_course fr)) eqn:Hex.
      * apply andb_true_iff in Hex as [Hex Ht]. rewrite Hex, Ht. cbn.
        unfold on_exam in Hstep. cbv zeta in Hstep.
        rewrite (key_number_exam _ Hex) in Hstep.
        destruct (bool_decide (3 ≤ length (split (ord ",") val)));
          cbn in Hstep; injection Hstep as <-; cbn; rewrite ?app_nil_r.
        all: repeat split; eauto; intros c r Hc Hr; exists r; by rewrite Hr, orb_false_r.
      * injection Hstep as <-. cbn. rewrite Hf, app_nil_r.
        assert ((if truthy (current_course fr)
                 then option_list
                        (if is_exam_key key
                            && bool_decide (3 ≤ length (split (ord ",") val))
                         then Some (exam_data (exam_number key) (split (ord ",") val))
                         else None)
                 else []) = []) as ->.
        { destruct (truthy _), (is_exam_key key); done. }
        rewrite app_nil_r.
        repeat split; eauto. intros c r Hc Hr. exists r. by rewrite ?Hf, Hr, orb_false_r.
  - intros Hstep _. unfold on_other in Hstep. rewrite !app_nil_r.
    destruct (truthy (current_course fr)) eqn:Ht; cbn in *.
    + destruct (startswith (u "BRANCHSTART") line || startswith (u "#BRANCHSTART") line).
      * destruct (setitem_course_ok _ (set_branch true) _ Ht (Hwf Ht))
          as (c & r & Hc & Hr & Hs).
        rewrite Hs in Hstep. cbn in Hstep. injection Hstep as <-. cbn.
        split_and!; try done.
        -- by rewrite app_nil_r.
        -- intros d Hd. apply lookup_insert_ne. congruence.
        -- intros c' r' Hc' Hr'. assert (c' = c) as -> by congruence.
           assert (r' = r) as -> by congruence.
           eexists. rewrite lookup_insert_eq. split_and!; try done.
           cbn. by rewrite orb_true_r.
      * injection Hstep as <-. keep_same.
    + injection Hstep as <-. keep_same.
Qed.


Lemma step_wf fr raw fr' : wf fr → step fr raw = Ok fr' → wf fr'.
Proof.
  intros Hwf Hstep. destruct (course_value raw) as [val|] eqn:Hcv.
  - rewrite (step_course _ _ _ Hcv) in Hstep. injection Hstep as <-.
    apply on_course_wf.
  - apply not_course_line in Hcv.
    destruct (step_keep _ _ _ Hwf Hstep Hcv) as (Hcc & _ & _ & _ & Hrec).
    unfold wf. rewrite Hcc. intros Ht. specialize (Hwf Ht).
    destruct (truthy_Some _ Ht) as (c & Hc & _). rewrite Hc in *.
    apply has_course_Some in Hwf as [r Hr].
    destruct (Hrec c r eq_refl Hr) as (r' & Hr' & _).
    apply has_course_Some. eauto.
Qed.

Lemma step_returns fr raw :
  wf fr → aborts raw = false → ∃ fr', step fr raw = Ok fr'.
Proof.
  intros Hwf. rewrite step_dispatch. unfold aborts.
  destruct (classify raw) as [|parts| | |key val|line]; cbn; try (by eexists).
  - destruct (bool_decide (4 ≤ length parts)); cbn; [|by eexists].
    intros Hok. destruct (song_info_cases parts) as [(s & -> & _)|[_ Hbad]].
    + cbn. by eexists.
    + congruence.
  - intros _. destruct (decide (key = u "COURSE")) as [->|Hne]; [by eexists|].
    rewrite (on_key_value_shape key val fr Hne).
    destruct (bool_decide (key = u "LEVEL") && truthy (current_course fr)) eqn:Hl.
    { apply andb_true_iff in Hl as [_ Ht]. unfold on_level.
      destruct (setitem_course_ok _ (set_stars (int (first (re_split_spaces val))))
                  _ Ht (Hwf Ht)) as (c & r & _ & _ & ->).
      cbn. by eexists. }
    destruct (is_exam_key key && truthy (current_course fr)) eqn:He; [|by eexists].
    apply andb_true_iff in He as [He _]. unfold on_exam. cbv zeta.
    rewrite (key_number_exam _ He). cbn.
    destruct (bool_decide (3 ≤ _)); by eexists.
  - intros _. unfold on_other.
    destruct (truthy (current_course fr)) eqn:Ht; cbn; [|by eexists].
    destruct (_ || _); [|by eexists].
    destruct (setitem_course_ok _ (set_branch true) _ Ht (Hwf Ht))
      as (c & r & _ & _ & ->).
    cbn. by eexists.
Qed.

Lemma step_raise fr raw e :
  wf fr → step fr raw = Raise e → e = ValueError ∧ aborts raw = true.
Proof.
  intros Hwf Hstep. destruct (aborts raw) eqn:Ha.
  - rewrite (step_aborts _ _ Ha) in Hstep. by injection Hstep as <-.
  - destruct (step_returns _ _ Hwf Ha) as [fr' Hfr']. congruence.
Qed.

Lemma for_lines_app a b fr :
  for_lines (a ++ b) fr = fr' ← for_lines a fr; for_lines b fr'.
Proof.
  revert fr. induction a as [|raw a IH]; intros fr; cbn; [done|].
  destruct (step fr raw); cbn; [apply IH | done].
Qed.

Lemma for_lines_wf lines fr fr' :
  wf fr → for_lines lines fr = Ok fr' → wf fr'.
Proof.
  revert fr. induction lines as [|raw lines IH]; intros fr Hwf; cbn.
  - by intros [= <-].
  - destruct (step fr raw) as [fr1|] eqn:Hs; cbn; [|done].
    apply IH. by eapply step_wf.
Qed.

Lemma for_lines_aborts lines fr :
  wf fr → existsb aborts lines = true → for_lines lines fr = Raise ValueError.
Proof.
  revert fr. induction lines as [|raw lines IH]; intros fr Hwf; cbn; [done|].
  destruct (aborts raw) eqn:Ha; cbn.
  - intros _. by rewrite (step_aborts _ _ Ha).
  - intros Hex. destruct (step_returns _ _ Hwf Ha) as [fr' Hfr']. rewrite Hfr'. cbn.
    apply IH; [by eapply step_wf | done].
Qed.

Lemma for_lines_returns lines fr :
  wf fr → existsb aborts lines = false → ∃ fr', for_lines lines fr = Ok fr'.
Proof.
  revert fr. induction lines as [|raw lines IH]; intros fr Hwf; cbn; [by eexists|].
  intros [Ha Hex]%orb_false_iff.
  destruct (step_returns _ _ Hwf Ha) as [fr' Hfr']. rewrite Hfr'. cbn.
  apply IH; [by eapply step_wf | done].
Qed.

(** ** Runs of lines *)

Lemma for_lines_join ls fr :
  Forall (fun w => 10%N ∉ w) ls →
  for_lines (split 10 (join 10 ls)) fr = for_lines ls fr.
Proof.
  intros Hall. destruct ls as [|w ls]; [done|].
  by rewrite split_join.
Qed.

Lemma idle_wf fr : idle fr → wf fr.
Proof. unfold idle, wf. congruence. Qed.

Lemma idle_step fr1 fr2 raw :
  idle fr1 → idle fr2 → same_chart (self fr1) (self fr2) →
  is_course_line raw = false →
  match step fr1 raw, step fr2 raw with
  | Ok a, Ok b => idle a ∧ idle b ∧ same_chart (self a) (self b)
  | Raise e1, Raise e2 => e1 = e2
  | _, _ => False
  end.
Proof.
  intros Hi1 Hi2 Hsame. rewrite !step_dispatch, not_course_line.
  unfold course_value, idle in *.
  destruct (classify raw) as [|parts| | |key val|line]; cbn; try done.
  - intros _. case_bool_decide; [|done].
    destruct (song_info parts); cbn; done.
  - intros Hk. assert (key ≠ u "COURSE") as Hne by (by case_bool_decide).
    rewrite !on_key_value_shape by done. rewrite Hi1, Hi2, !andb_false_r.
    cbn. split_and!; try done. by apply on_scalar_same_chart.
  - intros _. unfold on_other. by rewrite Hi1, Hi2.
Qed.

Lemma idle_skip fr raw :
  idle fr → (is_exam_line raw || is_nextsong_line raw) = true →
  aborts raw = false →
  ∃ fr', step fr raw = Ok fr' ∧ idle fr' ∧ self fr' = self fr.
Proof.
  intros Hi. rewrite step_dispatch.
  unfold is_exam_line, is_nextsong_line, aborts, idle in *.
  destruct (classify raw) as [|parts| | |key val|line]; cbn; try done.
  - intros _. destruct (bool_decide (4 ≤ length parts)); cbn; [|by eexists].
    intros Hok. destruct (song_info_cases parts) as [(s & -> & _)|[_ Hbad]];
      [by eexists | congruence].
  - rewrite orb_false_r. intros Hk _.
    assert (key ≠ u "COURSE") as Hne.
    { by destruct (is_exam_key_cases _ Hk) as [->|[->|[->| ->]]]. }
    rewrite on_key_value_shape by done. rewrite Hi, !andb_false_r.
    eexists. split_and!; [done|done|]. cbn.
    destruct fr as [t ? ? ? ?]; cbn. by rewrite on_scalar_exam.
Qed.


Lemma idle_run (p : str → bool) lines fr1 fr2 :
  Forall (fun raw => is_course_line raw = false
            ∧ (p raw = true →
               (is_exam_line raw || is_nextsong_line raw) = true
               ∧ aborts raw = false)) lines →
  idle fr1 → idle fr2 → same_chart (self fr1) (self fr2) →
  match for_lines (filter (fun raw => p raw = false) lines) fr1,
        for_lines lines fr2 with
  | Ok a, Ok b => idle a ∧ idle b ∧ same_chart (self a) (self b)
  | Raise e1, Raise e2 => e1 = e2
  | _, _ => False
  end.
Proof.
  intros Hall. revert fr1 fr2.
  induction Hall as [|raw lines [Hnc Hp] _ IH]; intros fr1 fr2 Hi1 Hi2 Hsame.
  { by cbn. }
  destruct (p raw) eqn:Hpr.
  - rewrite filter_cons_False by (by rewrite Hpr).
    destruct (Hp eq_refl) as [Hkind Hok].
    destruct (idle_skip fr2 raw Hi2 Hkind Hok) as (fr2' & Hs & Hi2' & Hself).
    cbn. rewrite Hs. cbn. apply IH; [done|done|by rewrite Hself].
  - rewrite filter_cons_True by done. cbn.
    pose proof (idle_step fr1 fr2 raw Hi1 Hi2 Hsame Hnc) as Hstep.
    destruct (step fr1 raw) as [a|e1], (step fr2 raw) as [b|e2]; cbn; try done.
    destruct Hstep as (?&?&?). by apply IH.
Qed.

Lemma quiet_run lines fr fr' :
  Forall (fun raw => is_course_line raw = false) lines →
  current_course fr = None → for_lines lines fr = Ok fr' →
  current_course fr' = None ∧ courses (self fr') = courses (self fr).
Proof.
  intros Hall. revert fr.
  induction Hall as [|raw lines Hnc _ IH]; intros fr Hcc; cbn.
  { by intros [= <-]. }
  destruct (step fr raw) as [fr1|] eqn:Hs; cbn; [|done].
  intros Hrun.
  assert (wf fr) as Hwf by (apply idle_wf; unfold idle; by rewrite Hcc).
  destruct (step_keep _ _ _ Hwf Hs Hnc) as (Hcc1 & _ & _ & Hother & _).
  rewrite Hcc in Hcc1. destruct (IH fr1 Hcc1 Hrun) as [-> ->].
  split; [done|]. apply map_eq. intros d. apply Hother. by rewrite Hcc.
Qed.


(** ** Blocks of a course *)

Lemma course_map_names token c : course_map token = Some c → c ∈ course_names.
Proof.
  unfold course_map, course_names.
  repeat case_bool_decide; intros [= <-]; set_solver.
Qed.

Lemma course_names_nonempty c : c ∈ course_names → nonempty c = true.
Proof.
  unfold course_names. rewrite !elem_of_cons, elem_of_nil.
  intros [->|[->|[->|[->|[->|[->|[->|[]]]]]]]]; reflexivity.
Qed.

Lemma course_map_nonempty token c : course_map token = Some c → nonempty c = true.
Proof. intros ?%course_map_names. by apply course_names_nonempty. Qed.

Lemma introduces_spec c raw :
  introduces c raw = true ↔
  ∃ val, course_value raw = Some val ∧ course_map (upper (strip val)) = Some c.
Proof.
  unfold introduces. destruct (course_value raw) as [val|].
  - rewrite bool_decide_eq_true. split.
    + intros Hm. by exists val.
    + by intros (? & [= <-] & ?).
  - split; [done|]. by intros (? & [=] & _).
Qed.

(** The record of [c] after a COURSE line when [c] was a key before. *)
Lemma on_course_lookup_old val fr c :
  is_Some (courses (self fr) !! c) →
  courses (self (on_course val fr)) !! c = save_previous fr !! c.
Proof.
  intros Hc. unfold on_course. cbn.
  destruct (truthy (course_map (upper (strip val)))) eqn:Ht; cbn; [|done].
  destruct (truthy_Some _ Ht) as (d & -> & _). cbn.
  destruct (bool_decide (is_Some (save_previous fr !! d))) eqn:Hd; cbn; [done|].
  apply bool_decide_eq_false in Hd.
  apply lookup_insert_ne. intros ->. apply Hd. by apply save_previous_dom.
Qed.

(** The record of the course a COURSE line introduces. *)
Lemma on_course_lookup_new val fr c :
  course_map (upper (strip val)) = Some c →
  courses (self (on_course val fr)) !! c =
    match save_previous fr !! c with
    | Some r => Some r
    | None => Some {| stars := None; branch := false; exams := None; songs := None |}
    end.
Proof.
  intros Hc. unfold on_course. cbn. rewrite Hc. cbn.
  rewrite (course_map_nonempty _ _ Hc). cbn.
  destruct (save_previous fr !! c) as [r|] eqn:Hr.
  - rewrite bool_decide_eq_true_2 by eauto. done.
  - rewrite bool_decide_eq_false_2 by (by intros [? ?]). cbn.
    apply lookup_insert_eq.
Qed.

Lemma save_previous_lookup fr c r :
  courses (self fr) !! c = Some r →
  ∃ r', save_previous fr !! c = Some r'
        ∧ stars r' = stars r ∧ branch r' = branch r
        ∧ (current_course fr ≠ Some c → r' = r).
Proof.
  intros Hr. destruct (truthy (current_course fr)) eqn:Ht.
  - destruct (truthy_Some _ Ht) as (d & Hd & Hn).
    destruct (decide (d = c)) as [->|Hne].
    + rewrite (save_previous_active _ _ _ Hd Hn Hr), lookup_insert_eq.
      eexists. split_and!; try done; congruence.
    + unfold save_previous. rewrite Ht, Hd. cbn.
      exists r. split_and!; try done.
      repeat case_match; rewrite ?lookup_alter_ne by done; done.
  - rewrite save_previous_idle by done. exists r. done.
Qed.

Lemma block_run c lines fr fr' :
  wf fr → current_course fr = Some c → nonempty c = true →
  Forall (fun raw => is_course_line raw = false) lines →
  for_lines lines fr = Ok fr' →
  current_course fr' = Some c
  ∧ current_exams fr' = current_exams fr ++ exams_of lines
  ∧ current_songs fr' = current_songs fr ++ songs_of lines
  ∧ (∀ d, d ≠ c → courses (self fr') !! d = courses (self fr) !! d)
  ∧ (∀ r, courses (self fr) !! c = Some r →
       ∃ r', courses (self fr') !! c = Some r' ∧ exams r' = exams r
         ∧ songs r' = songs r
         ∧ (Forall (fun raw => is_level_line raw = false) lines → stars r' = stars r)
         ∧ branch r' = branch r || existsb is_branch_line lines).
Proof.
  intros Hwf Hc Hn Hall. revert fr Hwf Hc.
  induction Hall as [|raw lines Hnc _ IH]; intros fr Hwf Hc; cbn.
  { intros [= <-]. rewrite !app_nil_r. split_and!; try done.
    intros r Hr. exists r. by rewrite orb_false_r. }
  destruct (step fr raw) as [fr1|] eqn:Hs; cbn; [|done]. intros Hrun.
  destruct (step_keep _ _ _ Hwf Hs Hnc) as (Hcc & Hex & Hso & Hother & Hrec).
  rewrite Hc in Hcc. rewrite Hc in Hex. cbn in Hex. rewrite Hn in Hex.
  destruct (IH fr1 (step_wf _ _ _ Hwf Hs) Hcc Hrun)
    as (Hcc' & Hex' & Hso' & Hother' & Hrec').
  split_and!.
  - done.
  - rewrite Hex', Hex, <- app_assoc. f_equal. unfold exams_of. cbn.
    by destruct (exam_of raw).
  - rewrite Hso', Hso, <- app_assoc. f_equal. unfold songs_of. cbn.
    by destruct (song_of raw).
  - intros d Hd. rewrite Hother' by done. apply Hother. congruence.
  - intros r Hr. destruct (Hrec c r Hc Hr) as (r1 & Hr1 & He1 & Hs1 & Hst1 & Hb1).
    destruct (Hrec' r1 Hr1) as (r2 & Hr2 & He2 & Hs2 & Hst2 & Hb2).
    exists r2. split_and!; try congruence.
    + intros Hlev. inversion_clear Hlev. rewrite Hst2, Hst1; done.
    + rewrite Hb2, Hb1, Hc. cbn. rewrite Hn. cbn. by rewrite orb_assoc.
Qed.

(** While another course is current, the record of [c] stays as it is. *)
Lemma away_run c lines fr fr' :
  wf fr → current_course fr ≠ Some c →
  Forall (fun raw => introduces c raw = false) lines →
  for_lines lines fr = Ok fr' →
  current_course fr' ≠ Some c
  ∧ courses (self fr') !! c = courses (self fr) !! c.
Proof.
  intros Hwf Hc Hall. revert fr Hwf Hc.
  induction Hall as [|raw lines Hni _ IH]; intros fr Hwf Hc; cbn.
  { by intros [= <-]. }
  destruct (step fr raw) as [fr1|] eqn:Hs; cbn; [|done]. intros Hrun.
  assert (current_course fr1 ≠ Some c
          ∧ courses (self fr1) !! c = courses (self fr) !! c) as [Hc1 Hl1].
  { destruct (course_value raw) as [val|] eqn:Hcv.
    - rewrite (step_course _ _ _ Hcv) in Hs. injection Hs as <-.
      unfold introduces in Hni. rewrite Hcv in Hni.
      apply bool_decide_eq_false in Hni. split; [done|].
      destruct (courses (self fr) !! c) as [r|] eqn:Hr.
      + rewrite on_course_lookup_old by eauto.
        destruct (save_previous_lookup _ _ _ Hr) as (r' & -> & _ & _ & Heq).
        by rewrite Heq.
      + unfold on_course. cbn.
        assert (save_previous fr !! c = None) as Hsp.
        { apply eq_None_not_Some. rewrite save_previous_dom, Hr. by intros [? ?]. }
        destruct (truthy (course_map (upper (strip val)))) eqn:Ht; cbn; [|done].
        destruct (truthy_Some _ Ht) as (d & Hd & _). rewrite Hd in *. cbn.
        destruct (negb _); [|by rewrite Hsp].
        rewrite lookup_insert_ne by congruence. by rewrite Hsp.
    - apply not_course_line in Hcv.
      destruct (step_keep _ _ _ Hwf Hs Hcv) as (Hcc & _ & _ & Hother & _).
      split; [congruence|]. by apply Hother. }
  destruct (IH fr1 (step_wf _ _ _ Hwf Hs) Hc1 Hrun) as [? ->]. done.
Qed.

(** ** The whole parse *)

Lemma enter_idle t : idle (enter t).
Proof. done. Qed.

Lemma enter_wf t : wf (enter t).
Proof. apply idle_wf, enter_idle. Qed.

Lemma save_final_idle fr : idle fr → save_final fr = courses (self fr).
Proof. intros Hi. rewrite save_previous_final. by apply save_previous_idle. Qed.

Lemma parse_lines_ok lines t0 t :
  (fr ← for_lines lines (enter t0); Ok (set_courses (save_final fr) (self fr))) = Ok t →
  ∃ fr, for_lines lines (enter t0) = Ok fr ∧ wf fr
        ∧ t = set_courses (save_final fr) (self fr).
Proof.
  destruct (for_lines lines (enter t0)) as [fr|] eqn:Hrun; cbn; [|done].
  intros [= <-]. exists fr. split_and!; try done.
  eapply for_lines_wf; [apply enter_wf | done].
Qed.

Lemma init_ok text t :
  __init__ text = Ok t →
  ∃ fr, for_lines (split 10 text) (enter (fresh text)) = Ok fr ∧ wf fr
        ∧ t = set_courses (save_final fr) (self fr).
Proof. apply parse_lines_ok. Qed.

(** [Tja(text)] raises exactly when a line aborts, and then ValueError. *)
Lemma init_outcome text :
  if existsb aborts (split 10 text)
  then __init__ text = Raise ValueError
  else ∃ t, __init__ text = Ok t.
Proof.
  unfold __init__, _parse. cbn [Tja.text fresh].
  destruct (existsb aborts (split 10 text)) eqn:Hex.
  - by rewrite for_lines_aborts; [|apply enter_wf|].
  - destruct (for_lines_returns (split 10 text) _ (enter_wf (fresh text)) Hex)
      as [fr Hfr].
    rewrite Hfr. cbn. by eexists.
Qed.

Lemma init_no_abort text t raw :
  __init__ text = Ok t → raw ∈ split 10 text → aborts raw = false.
Proof.
  intros (fr & Hrun & _)%init_ok Hin.
  destruct (aborts raw) eqn:Ha; [|done].
  rewrite for_lines_aborts in Hrun; [done|apply enter_wf|].
  apply existsb_exists. exists raw. split; [by apply list_elem_of_In | done].
Qed.

Lemma without_lines p text fr :
  for_lines (split 10 (without p text)) fr
  = for_lines (filter (fun raw => p raw = false) (split 10 text)) fr.
Proof.
  unfold without. apply for_lines_join.
  apply Forall_forall. intros w Hw%list_elem_of_filter.
  destruct Hw as [_ Hw]. revert w Hw. apply Forall_forall, split_no_sep.
Qed.

Lemma idle_effect text (p : str → bool) :
  Forall (fun raw => is_course_line raw = false) (split 10 text) →
  (∀ raw, raw ∈ split 10 text → p raw = true →
     (is_exam_line raw || is_nextsong_line raw) = true ∧ aborts raw = false) →
  same_result (__init__ (without p text)) (__init__ text).
Proof.
  intros Hnc Hp. unfold __init__, _parse. cbn [Tja.text fresh].
  rewrite without_lines.
  assert (Forall (fun raw => is_course_line raw = false
            ∧ (p raw = true →
               (is_exam_line raw || is_nextsong_line raw) = true
               ∧ aborts raw = false)) (split 10 text)) as Hall.
  { apply Forall_forall. intros raw Hin. split; [|by apply Hp].
    revert raw Hin. by apply Forall_forall. }
  pose proof (idle_run p _ (enter (fresh (without p text))) (enter (fresh text))
                Hall (enter_idle _) (enter_idle _)) as Hsim.
  destruct (for_lines (filter _ _) _) as [a|e1], (for_lines (split 10 text) _) as [b|e2];
    cbn in *; try (by apply Hsim).
  destruct Hsim as (Ha & Hb & Hsame); [done|].
  rewrite !save_final_idle by done.
  unfold same_chart in *. by destruct a as [[]], b as [[]].
Qed.

(** The frame after a COURSE line for [c] and a block without COURSE lines;
    [r1] is the record of [c] right after the COURSE line. *)
Lemma course_block pre cl post c fr0 fr :
  wf fr0 → introduces c cl = true →
  Forall (fun raw => is_course_line raw = false) post →
  for_lines (pre ++ cl :: post) fr0 = Ok fr →
  ∃ fr1, for_lines pre fr0 = Ok fr1 ∧ wf fr1 ∧ wf fr
    ∧ current_course fr = Some c ∧ nonempty c = true
    ∧ current_exams fr = exams_of post
    ∧ current_songs fr = songs_of post
    ∧ ∃ r, courses (self fr) !! c = Some r
        ∧ exams r = exams (default blank_record (save_previous fr1 !! c))
        ∧ songs r = songs (default blank_record (save_previous fr1 !! c))
        ∧ (Forall (fun raw => is_level_line raw = false) post →
           stars r = stars (default blank_record (save_previous fr1 !! c)))
        ∧ branch r = branch (default blank_record (save_previous fr1 !! c))
                     || existsb is_branch_line post.
Proof.
  intros Hwf0 (val & Hcv & Hmap)%introduces_spec Hpost.
  rewrite for_lines_app.
  destruct (for_lines pre fr0) as [fr1|] eqn:Hpre; cbn; [|done].
  rewrite (step_course _ _ _ Hcv). cbn. intros Hrun.
  pose proof (for_lines_wf _ _ _ Hwf0 Hpre) as Hwf1.
  pose proof (on_course_wf val fr1) as Hwf2.
  pose proof (course_map_nonempty _ _ Hmap) as Hn.
  assert (current_course (on_course val fr1) = Some c) as Hcc by done.
  destruct (block_run c post _ fr Hwf2 Hcc Hn Hpost Hrun)
    as (Hc & Hex & Hso & _ & Hrec).
  exists fr1. split_and!; try done.
  { by eapply for_lines_wf. }
  pose proof (on_course_lookup_new val fr1 c Hmap) as Hnew.
  destruct (Hrec (default blank_record (save_previous fr1 !! c)))
    as (r & Hr & ? & ? & ? & ?).
  { rewrite Hnew. by destruct (save_previous fr1 !! c). }
  by exists r.
Qed.

Lemma save_final_active fr c r :
  current_course fr = Some c → nonempty c = true →
  courses (self fr) !! c = Some r →
  save_final fr !! c = Some (committed fr r).
Proof.
  intros Hc Hn Hr. rewrite save_previous_final.
  rewrite (save_previous_active _ _ _ Hc Hn Hr). apply lookup_insert_eq.
Qed.

Lemma committed_kept_or_replaced fr post r r0 :
  current_exams fr = exams_of post → current_songs fr = songs_of post →
  exams r = exams r0 → songs r = songs r0 →
  kept_or_replaced r0 post (committed fr r).
Proof.
  intros Hex Hso He Hs. unfold kept_or_replaced, committed. cbn.
  rewrite Hex, Hso, He, Hs. split.
  - destruct (decide (exams_of post = [])) as [Heq|Hne].
    + by rewrite bool_decide_eq_false_2, bool_decide_eq_true_2 by (by rewrite ?Heq; auto).
    + by rewrite bool_decide_eq_true_2, bool_decide_eq_false_2.
  - destruct (decide (songs_of post = [])) as [Heq|Hne].
    + by rewrite bool_decide_eq_false_2, bool_decide_eq_true_2 by (by rewrite ?Heq; auto).
    + by rewrite bool_decide_eq_true_2, bool_decide_eq_false_2.
Qed.

Lemma not_recognized raw val :
  is_recognized_course_line raw = false → course_value raw = Some val →
  course_map (upper (strip val)) = None.
Proof.
  unfold is_recognized_course_line. intros Hr Hcv. rewrite Hcv in Hr.
  apply bool_decide_eq_false in Hr. apply eq_None_not_Some. done.
Qed.

Lemma on_course_unrecognized val fr :
  course_map (upper (strip val)) = None →
  on_course val fr =
    {| self := set_courses (save_previous fr) (self fr); current_course := None;
       current_exams := []; current_songs := [];
       in_song_section := in_song_section fr |}.
Proof. intros Hm. unfold on_course. by rewrite Hm. Qed.

(** With no current course the lines up to the next recognized COURSE line
    leave the courses and the buffer of exams as they are. *)
Lemma dropped_run lines fr fr' :
  current_course fr = None →
  Forall (fun raw => is_recognized_course_line raw = false) lines →
  for_lines lines fr = Ok fr' →
  current_course fr' = None
  ∧ courses (self fr') = courses (self fr)
  ∧ (current_exams fr = [] → current_exams fr' = []).
Proof.
  intros Hc Hall. revert fr Hc.
  induction Hall as [|raw lines Hnr _ IH]; intros fr Hc; cbn.
  { by intros [= <-]. }
  destruct (step fr raw) as [fr1|] eqn:Hs; cbn; [|done]. intros Hrun.
  assert (idle fr) as Hi by (unfold idle; by rewrite Hc).
  assert (current_course fr1 = None ∧ courses (self fr1) = courses (self fr)
          ∧ (current_exams fr = [] → current_exams fr1 = [])) as (Hc1 & Hcs1 & He1).
  { destruct (course_value raw) as [val|] eqn:Hcv.
    - rewrite (step_course _ _ _ Hcv) in Hs. injection Hs as <-.
      rewrite (on_course_unrecognized _ _ (not_recognized _ _ Hnr Hcv)). cbn.
      by rewrite save_previous_idle.
    - apply not_course_line in Hcv.
      destruct (step_keep _ _ _ (idle_wf _ Hi) Hs Hcv) as (Hcc & Hex & _ & Hother & _).
      rewrite Hc in Hcc, Hex. cbn in Hex. rewrite app_nil_r in Hex.
      split_and!; [done| |congruence].
      apply map_eq. intros d. apply Hother. by rewrite Hc. }
  destruct (IH fr1 Hc1 Hrun) as (? & ? & ?). split_and!; [done|congruence|auto].
Qed.

Lemma idle_courses fr raw fr' :
  idle fr → is_course_line raw = false → step fr raw = Ok fr' →
  courses (self fr') = courses (self fr).
Proof.
  intros Hi. rewrite step_dispatch, not_course_line.
  unfold course_value, idle in *.
  destruct (classify raw) as [|parts| | |key val|line]; cbn.
  - by intros _ [= <-].
  - intros _. case_bool_decide; [|by intros [= <-]].
    destruct (song_info parts); cbn; [|done]. by intros [= <-].
  - by intros _ [= <-].
  - by intros _ [= <-].
  - intros Hk. assert (key ≠ u "COURSE") as Hne by (by case_bool_decide).
    rewrite on_key_value_shape by done. rewrite Hi, !andb_false_r.
    intros [= <-]. cbn. apply on_scalar_courses.
  - intros _. unfold on_other. rewrite Hi. cbn. by intros [= <-].
Qed.

Lemma step_keys fr raw fr' k :
  wf fr → step fr raw = Ok fr' →
  (∀ d, is_Some (courses (self fr) !! d) → d ∈ course_names) →
  is_Some (courses (self fr') !! k) → k ∈ course_names.
Proof.
  intros Hwf Hs Hk. destruct (course_value raw) as [val|] eqn:Hcv.
  - rewrite (step_course _ _ _ Hcv) in Hs. injection Hs as <-.
    unfold on_course. cbn.
    destruct (truthy (course_map (upper (strip val)))) eqn:Ht; cbn.
    + destruct (truthy_Some _ Ht) as (d & Hd & _). rewrite Hd. cbn.
      destruct (negb _).
      * destruct (decide (k = d)) as [->|Hne].
        -- intros _. by eapply course_map_names.
        -- rewrite lookup_insert_ne by done. rewrite save_previous_dom. apply Hk.
      * rewrite save_previous_dom. apply Hk.
    + rewrite save_previous_dom. apply Hk.
  - apply not_course_line in Hcv.
    destruct (truthy (current_course fr)) eqn:Ht.
    + destruct (step_keep _ _ _ Hwf Hs Hcv) as (_ & _ & _ & Hother & Hrec).
      destruct (decide (current_course fr = Some k)) as [Hck|Hck].
      * intros _. apply Hk. specialize (Hwf Ht). rewrite Hck in Hwf.
        by apply has_course_Some.
      * rewrite Hother by done. apply Hk.
    + rewrite (idle_courses _ _ _ Ht Hcv Hs). apply Hk.
Qed.

Lemma init_keys text t k :
  __init__ text = Ok t → is_Some (courses t !! k) → k ∈ course_names.
Proof.
  intros (fr & Hrun & _ & ->)%init_ok. cbn.
  rewrite save_previous_final, save_previous_dom.
  assert (∀ lines fr0 fr,
            (∀ k, is_Some (courses (self fr0) !! k) → k ∈ course_names) →
            wf fr0 → for_lines lines fr0 = Ok fr →
            ∀ k, is_Some (courses (self fr) !! k) → k ∈ course_names) as Hgen.
  { clear. intros lines. induction lines as [|raw lines IH]; intros fr0 fr Hk Hwf; cbn.
    { by intros [= <-]. }
    destruct (step fr0 raw) as [fr1|] eqn:Hs; cbn; [|done].
    apply IH; [|by eapply step_wf].
    intros k. by eapply step_keys. }
  eapply Hgen; [|apply enter_wf|exact Hrun].
  intros k0. cbn. rewrite lookup_empty. by intros [? ?].
Qed.

(** ** Directives and the branch marker *)

Lemma upper_app a b : upper (a ++ b) = upper a ++ upper b.
Proof. unfold upper. by rewrite fmap_app, join_app. Qed.

Lemma printable_ascii c :
  (33 <= ascii_upper c <= 126)%N →
  isspace c = false ∧ upper_cp c = [ascii_upper c].
Proof.
  unfold ascii_upper, is_ascii_lower, upper_cp, ascii_upper, is_ascii_lower.
  intros Hc.
  assert (c < 128)%N as Hlt.
  { destruct ((97 <=? c) && (c <=? 122))%N eqn:Hl; [|lia].
    apply andb_true_iff in Hl as [_ ?%N.leb_le]. lia. }
  assert (33 <= c)%N as Hge.
  { destruct ((97 <=? c) && (c <=? 122))%N eqn:Hl; [|lia].
    apply andb_true_iff in Hl as [?%N.leb_le _]. lia. }
  split.
  - apply not_true_is_false. unfold isspace.
    rewrite !orb_true_iff, !andb_true_iff, !N.leb_le, !N.eqb_eq. lia.
  - by rewrite (proj2 (N.ltb_lt _ _) Hlt).
Qed.

Lemma upper_printable p :
  Forall (fun x => (33 <= x <= 126)%N) (ascii_upper <$> p) →
  Forall (fun c => isspace c = false) p ∧ upper p = ascii_upper <$> p.
Proof.
  induction p as [|c p IH]; [done|].
  rewrite fmap_cons. intros Hall. inversion_clear Hall as [|? ? Hc Hp].
  destruct (printable_ascii c Hc) as [Hs Hu], (IH Hp) as [Hsp Hup].
  split; [by constructor|].
  change (upper (c :: p)) with (upper_cp c ++ upper p). by rewrite Hu, Hup.
Qed.

Lemma printable_all q :
  forallb printable q = true → Forall (fun x => (33 <= x <= 126)%N) q.
Proof.
  induction q as [|x q IH]; cbn; [done|].
  intros [Hx Hq]%andb_true_iff. constructor; [|by apply IH].
  unfold printable in Hx. apply andb_true_iff in Hx as [?%N.leb_le ?%N.leb_le]. lia.
Qed.

(** A line that starts with a directive in any ASCII case: after stripping
    its upper-case form starts with the directive. *)
Lemma directive_line q p rest :
  q ≠ [] → forallb printable q = true →
  ascii_upper <$> p = q →
  ∃ z, strip (p ++ rest) = p ++ z
       ∧ nonempty (p ++ z) = true
       ∧ ∀ z', upper (p ++ z') = q ++ upper z'.
Proof.
  intros Hq Hall%printable_all Hp. rewrite <- Hp in Hall.
  destruct (upper_printable p Hall) as [Hsp Hup].
  assert (p ≠ []) as Hne by (intros ->; by rewrite <- Hp in Hq).
  exists (rstrip_with isspace rest). split_and!.
  - by apply strip_solid.
  - by destruct p.
  - intros z'. by rewrite upper_app, Hup, Hp.
Qed.

Lemma nextsong_any_case p rest :
  ascii_upper <$> p = u "#NEXTSONG" → is_nextsong_line (p ++ rest) = true.
Proof.
  intros Hp.
  destruct (directive_line (u "#NEXTSONG") p rest) as (z & Hs & Hn & Hu);
    [done|done|done|].
  unfold is_nextsong_line, classify. cbv zeta. rewrite Hs, Hn, Hu. cbn.
  by rewrite startswith_app.
Qed.

Lemma start_any_case p rest :
  ascii_upper <$> p = u "#START" → classify (p ++ rest) = Start.
Proof.
  intros Hp.
  destruct (directive_line (u "#START") p rest) as (z & Hs & Hn & Hu);
    [done|done|done|].
  unfold classify. cbv zeta. rewrite Hs, Hn, Hu. cbn.
  rewrite startswith_app.
  change (startswith (u "#NEXTSONG") (u "#START" ++ upper z)) with false. done.
Qed.

Lemma end_any_case p rest :
  ascii_upper <$> p = u "#END" → classify (p ++ rest) = End_.
Proof.
  intros Hp.
  destruct (directive_line (u "#END") p rest) as (z & Hs & Hn & Hu);
    [done|done|done|].
  unfold classify. cbv zeta. rewrite Hs, Hn, Hu. cbn.
  rewrite startswith_app.
  change (startswith (u "#NEXTSONG") (u "#END" ++ upper z)) with false.
  change (startswith (u "#START") (u "#END" ++ upper z)) with false. done.
Qed.


Lemma classify_bare line :
  (startswith (u "BRANCHSTART") line || startswith (u "#BRANCHSTART") line) = true →
  nonempty line = true
  ∧ startswith (u "#NEXTSONG") (upper line) = false
  ∧ startswith (u "#START") (upper line) = false
  ∧ startswith (u "#END") (upper line) = false.
Proof.
  intros [Hs|Hs]%orb_true_iff.
  - change (u "BRANCHSTART") with (66 :: u "RANCHSTART")%N in Hs.
    apply startswith_cons in Hs as (l & -> & _). done.
  - change (u "#BRANCHSTART") with (35 :: 66 :: u "RANCHSTART")%N in Hs.
    apply startswith_cons in Hs as (l & -> & Hs).
    apply startswith_cons in Hs as (l' & -> & _). done.
Qed.

Lemma is_branch_line_spec raw :
  is_branch_line raw = true ↔
  (ord ":" ∉ strip raw)
  ∧ (startswith (u "BRANCHSTART") (strip raw)
     || startswith (u "#BRANCHSTART") (strip raw)) = true.
Proof.
  unfold is_branch_line, classify. cbv zeta.
  rewrite <- split_once_None. split.
  - destruct (negb (nonempty (strip raw))); [done|].
    destruct (startswith (u "#NEXTSONG") (upper (strip raw))); [done|].
    destruct (startswith (u "#START") (upper (strip raw))); [done|].
    destruct (startswith (u "#END") (upper (strip raw))); [done|].
    destruct (split_once (ord ":") (strip raw)) as [[k v]|]; done.
  - intros [Hnone Hs]. destruct (classify_bare _ Hs) as (-> & -> & -> & ->).
    cbn. by rewrite Hnone.
Qed.

Lemma step_branch fr raw fr' c r :
  current_course fr = Some c → nonempty c = true →
  courses (self fr) !! c = Some r → step fr raw = Ok fr' →
  ∃ r', courses (self fr') !! c = Some r'
        ∧ branch r' = branch r || is_branch_line raw.
Proof.
  intros Hc Hn Hr Hs.
  assert (wf fr) as Hwf.
  { intros _. rewrite Hc. apply has_course_Some. eauto. }
  destruct (course_value raw) as [val|] eqn:Hcv.
  - rewrite (step_course _ _ _ Hcv) in Hs. injection Hs as <-.
    rewrite on_course_lookup_old by eauto.
    destruct (save_previous_lookup _ _ _ Hr) as (r' & -> & _ & Hb & _).
    exists r'. split; [done|]. rewrite Hb.
    unfold is_branch_line. unfold course_value in Hcv.
    destruct (classify raw); try done. by rewrite orb_false_r.
  - apply not_course_line in Hcv.
    destruct (step_keep _ _ _ Hwf Hs Hcv) as (_ & _ & _ & _ & Hrec).
    destruct (Hrec c r Hc Hr) as (r' & Hr' & _ & _ & _ & Hb).
    exists r'. split; [done|]. rewrite Hb, Hc. cbn. by rewrite Hn.
Qed.

(** ** The extension of the audio file *)

Lemma extension_of t w stem x :
  wave t = Some w →
  PosixPath.basename w = stem ++ ord "." :: x → ord "." ∉ x → PosixPath.has_stem stem →
  extension t = if nonempty (lower x) then lower x else u "mp3".
Proof.
  intros Hw Hbase Hx Hstem. unfold extension. rewrite Hw.
  assert (nonempty w = true) as Hn.
  { destruct w; [|done]. by destruct stem. }
  cbn [truthy default from_option id]. rewrite Hn.
  rewrite (splitext_ext _ stem x (basename_no_sep w) Hbase Hx Hstem).
  cbn [snd nonempty]. rewrite lstrip_dot by done.
  cbn [truthy default from_option id]. done.
Qed.

Lemma extension_fallback t :
  (∀ w stem x, wave t = Some w → PosixPath.basename w = stem ++ ord "." :: x →
               ord "." ∉ x → ¬ PosixPath.has_stem stem) →
  extension t = u "mp3".
Proof.
  intros Hno. unfold extension.
  destruct (wave t) as [w|] eqn:Hw; [|done].
  cbn [truthy default from_option id].
  destruct (nonempty w); [|done].
  rewrite splitext_none; [done|apply basename_no_sep|].
  intros stem x. by apply Hno.
Qed.

End Scanner.

(** * The claims *)
Section Claims.
Context `{Unicode}.

(** C1: [Tja(text)] on the text "TITLE:Foo\nCOURSE:ONI\nLEVEL:8 (★)\n
    EXAM1:g,80,100,m\nBRANCHSTART\nCOURSE:HARD\nLEVEL:5\n" returns an object
    whose courses have the key oni with stars 8, branch true and the one exam
    (id 1, type g, red_pass 80, gold_pass 100, scope m), and the key hard with
    stars 5, branch false and no exams; whatever the Unicode database. *)
Theorem C1_sample_chart :
  ∃ t, __init__ sample_text = Ok t
    ∧ title t = Some (u "Foo")
    ∧ courses t !! u "oni"
      = Some {| stars := Some 8%Z; branch := true;
                exams := Some [ {| exam_id := 1; exam_type := u "g"; red_pass := 80;
                                   gold_pass := 100; scope := u "m" |} ];
                songs := None |}
    ∧ courses t !! u "hard"
      = Some {| stars := Some 5%Z; branch := false; exams := None; songs := None |}
    ∧ dom (courses t) = {[ u "oni"; u "hard" ]}.
Proof.
  eexists. split; [vm_compute; reflexivity|].
  split_and!; try (vm_compute; reflexivity).
Qed.

(** C2: a text with a NEXTSONG line of four fields or more whose offset or
    scoreInit is there and is rejected by [float], respectively [int], makes
    [Tja(text)] raise ValueError; an EXAM1..EXAM4 line under a current course
    with three fields or more of which red_pass or gold_pass is there and is
    rejected by [int] raises nothing and appends the record with both
    red_pass and gold_pass 0; and a text without such a NEXTSONG line is
    parsed without an exception. *)
Theorem C2_nextsong_raises_exam_degrades :
  (∀ text raw parts,
     raw ∈ split 10 text →
     classify raw = NextSong parts → 4 ≤ length parts →
     (nonempty (field parts 4) = true ∧ float_ok (field parts 4) = false)
     ∨ (nonempty (field parts 5) = true ∧ int (field parts 5) = None) →
     __init__ text = Raise ValueError)
  ∧ (∀ fr raw key val,
       classify raw = KeyValue key val → is_exam_key key = true →
       truthy (current_course fr) = true →
       let exam_parts := split (ord ",") val in
       3 ≤ length exam_parts →
       (nonempty (strip (nth 1 exam_parts [])) = true
        ∧ int (strip (nth 1 exam_parts [])) = None)
       ∨ (nonempty (strip (nth 2 exam_parts [])) = true
          ∧ int (strip (nth 2 exam_parts [])) = None) →
       step fr raw =
         Ok (append_exam
               {| exam_id := exam_number key;
                  exam_type := lower (strip (nth 0 exam_parts []));
                  red_pass := 0; gold_pass := 0;
                  scope := if bool_decide (3 < length exam_parts)
                           then lower (strip (nth 3 exam_parts [])) else u "l" |}
               fr))
  ∧ (∀ text, existsb aborts (split 10 text) = false → ∃ t, __init__ text = Ok t).
Proof.
  split_and!.
  - intros text raw parts Hin Hk Hlen Hbad. unfold __init__, _parse.
    rewrite for_lines_aborts; [done|apply enter_wf|].
    apply existsb_exists. exists raw. split; [by apply list_elem_of_In|].
    unfold aborts. rewrite Hk. rewrite bool_decide_eq_true_2 by done. cbn.
    destruct Hbad as [[-> ->]|[-> ->]]; cbn; [done|].
    by rewrite orb_true_r.
  - intros fr raw key val Hk Hex Ht exam_parts Hlen Hbad. subst exam_parts.
    rewrite step_dispatch, Hk. cbn.
    assert (key ≠ u "COURSE") as Hne.
    { by destruct (is_exam_key_cases _ Hex) as [->|[->|[->| ->]]]. }
    rewrite on_key_value_shape by done. rewrite Hex, Ht. cbn.
    assert (bool_decide (key = u "LEVEL") = false) as ->.
    { by destruct (is_exam_key_cases _ Hex) as [->|[->|[->| ->]]]. }
    cbn. unfold on_exam. cbv zeta. rewrite bool_decide_eq_true_2 by done.
    rewrite (key_number_exam _ Hex). cbn.
    do 2 f_equal. unfold exam_data, pass_values. cbv zeta.
    destruct Hbad as [[-> ->]|[-> ->]]; [done|].
    destruct (nonempty _); [destruct (int _)|]; done.
  - intros text Hex. pose proof (init_outcome text) as Hout. by rewrite Hex in Hout.
Qed.

(** C3, amended: in a text without a COURSE directive, a parse that returns
    gives no courses; deleting EXAM lines and NEXTSONG lines that do not
    abort leaves the outcome, the chart or the exception, the same; and when
    the parse returns, so does the parse of the text without all its EXAM and
    NEXTSONG lines, with the same chart. *)
Theorem C3_no_course_directive text :
  Forall (fun raw => is_course_line raw = false) (split 10 text) →
  (∀ t, __init__ text = Ok t → courses t = ∅)
  ∧ (∀ p : str → bool,
       (∀ raw, raw ∈ split 10 text → p raw = true →
          (is_exam_line raw || is_nextsong_line raw) = true ∧ aborts raw = false) →
       same_result (__init__ (without p text)) (__init__ text))
  ∧ (∀ t, __init__ text = Ok t →
       ∃ t', __init__ (without (fun raw => is_exam_line raw || is_nextsong_line raw) text)
             = Ok t'
             ∧ same_chart t' t).
Proof.
  intros Hnc. split_and!.
  - intros t (fr & Hrun & _ & ->)%init_ok.
    destruct (quiet_run _ (enter (fresh text)) _ Hnc eq_refl Hrun) as [Hcc Hcs].
    cbn. rewrite save_final_idle by (unfold idle; by rewrite Hcc). by rewrite Hcs.
  - intros p Hp. by apply idle_effect.
  - intros t Ht.
    pose proof (idle_effect text (fun raw => is_exam_line raw || is_nextsong_line raw) Hnc)
      as Hsim.
    rewrite Ht in Hsim.
    destruct (__init__ (without _ text)) as [t'|e] eqn:Ht'.
    + exists t'. split; [done|]. apply Hsim.
      intros raw Hin Hk. split; [exact Hk|]. exact (init_no_abort _ _ _ Ht Hin).
    + exfalso. apply Hsim.
      intros raw Hin Hk. split; [exact Hk|]. exact (init_no_abort _ _ _ Ht Hin).
Qed.

(** C4: when the last COURSE line of a text introduces the course [c] and
    the parse returns, the record of [c] holds the exams and the songs that
    the lines after it appended, when there are any; and the commit at the
    end of the input is the commit of a COURSE switch. *)
Theorem C4_last_course_committed text pre cl post c t :
  split 10 text = pre ++ cl :: post →
  introduces c cl = true →
  Forall (fun raw => is_course_line raw = false) post →
  __init__ text = Ok t →
  (∃ r, courses t !! c = Some r
     ∧ (exams_of post ≠ [] → exams r = Some (exams_of post))
     ∧ (songs_of post ≠ [] → songs r = Some (songs_of post)))
  ∧ (∀ fr, save_final fr = save_previous fr).
Proof.
  intros Hsplit Hcl Hpost (fr & Hrun & _ & ->)%init_ok.
  split; [|apply save_previous_final].
  rewrite Hsplit in Hrun.
  destruct (course_block _ _ _ _ _ _ (enter_wf _) Hcl Hpost Hrun)
    as (fr1 & _ & _ & _ & Hc & Hn & Hex & Hso & r & Hr & _).
  cbn. rewrite (save_final_active _ _ _ Hc Hn Hr).
  eexists. split; [done|]. unfold committed. cbn. rewrite Hex, Hso.
  split; intros Hne; by rewrite bool_decide_eq_true_2.
Qed.

(** C5: the course a COURSE line makes current depends on its value alone,
    through the alias table; the table maps into the seven course names and
    sends both EDIT and URA to ura; the keys of a parsed chart are among the
    seven names; and COURSE:Edit, COURSE:Ura, and the two together, give
    the single key ura. *)
Theorem C5_course_aliases :
  (∀ val fr, current_course (on_course val fr) = course_map (upper (strip val)))
  ∧ (∀ token c, course_map token = Some c → c ∈ course_names)
  ∧ course_map (u "EDIT") = Some (u "ura")
  ∧ course_map (u "URA") = Some (u "ura")
  ∧ (∀ text t k, __init__ text = Ok t → is_Some (courses t !! k) → k ∈ course_names)
  ∧ (∃ t, __init__ (u "COURSE:Edit") = Ok t ∧ dom (courses t) = {[ u "ura" ]})
  ∧ (∃ t, __init__ (u "COURSE:Ura") = Ok t ∧ dom (courses t) = {[ u "ura" ]})
  ∧ (∃ t, __init__ (join 10 [u "COURSE:Edit"; u "COURSE:Ura"]) = Ok t
          ∧ dom (courses t) = {[ u "ura" ]}).
Proof.
  split_and!.
  - done.
  - apply course_map_names.
  - done.
  - done.
  - apply init_keys.
  - eexists. split; vm_compute; reflexivity.
  - eexists. split; vm_compute; reflexivity.
  - eexists. split; vm_compute; reflexivity.
Qed.

(** C6: a COURSE line [cl] re-declares the course [c], whose record was [r]
    after the lines [pre]; its block has no COURSE, LEVEL or branch-start
    line, and no later COURSE line introduces [c] again.  Then the final
    record of [c] has the stars and the branch of [r], and right after [cl]
    the buffers of exams and songs are empty. *)
Theorem C6_redeclared_course text pre cl block rest c fr1 r t :
  split 10 text = pre ++ cl :: block ++ rest →
  for_lines pre (enter (fresh text)) = Ok fr1 →
  courses (self fr1) !! c = Some r →
  introduces c cl = true →
  Forall (fun raw => is_course_line raw = false ∧ is_level_line raw = false
                     ∧ is_branch_line raw = false) block →
  match rest with [] => True | next :: _ => is_course_line next = true end →
  Forall (fun raw => introduces c raw = false) rest →
  __init__ text = Ok t →
  (∃ r', courses t !! c = Some r' ∧ stars r' = stars r ∧ branch r' = branch r)
  ∧ (∃ fr2, for_lines (pre ++ [cl]) (enter (fresh text)) = Ok fr2
            ∧ current_exams fr2 = [] ∧ current_songs fr2 = []).
Proof.
  intros Hsplit Hpre Hr Hcl Hblock Hnext Hrest (fr & Hrun & Hwf & ->)%init_ok.
  split.
  2:{ rewrite for_lines_app, Hpre. cbn.
      apply introduces_spec in Hcl as (val & Hcv & _).
      rewrite (step_course _ _ _ Hcv). cbn. by eexists. }
  rewrite Hsplit in Hrun.
  replace (pre ++ cl :: block ++ rest) with ((pre ++ cl :: block) ++ rest) in Hrun
    by (by rewrite <- app_assoc).
  rewrite for_lines_app in Hrun.
  destruct (for_lines (pre ++ cl :: block) _) as [frb|] eqn:Hb; cbn in Hrun; [|done].
  assert (Forall (fun raw => is_course_line raw = false) block) as Hnc.
  { eapply Forall_impl; [exact Hblock|]. by intros ? (?&?&?). }
  assert (Forall (fun raw => is_level_line raw = false) block) as Hnl.
  { eapply Forall_impl; [exact Hblock|]. by intros ? (?&?&?). }
  assert (existsb is_branch_line block = false) as Hnb.
  { clear -Hblock. induction Hblock as [|raw block (_ & _ & Hb) _ IH]; [done|].
    cbn. by rewrite Hb, IH. }
  destruct (course_block _ _ _ _ _ _ (enter_wf _) Hcl Hnc Hb)
    as (fr1' & Hpre' & _ & Hwfb & Hc & Hn & _ & _ & rb & Hrb & _ & _ & Hst & Hbr).
  assert (fr1' = fr1) as -> by congruence.
  destruct (save_previous_lookup _ _ _ Hr) as (r1 & Hr1 & Hst1 & Hbr1 & _).
  rewrite Hr1 in Hst, Hbr. cbn in Hst, Hbr. rewrite Hnb, orb_false_r in Hbr.
  specialize (Hst Hnl).
  assert (∃ r', courses (self fr) !! c = Some r' ∧ stars r' = stars r
                ∧ branch r' = branch r) as (r' & Hr' & Hst' & Hbr').
  { destruct rest as [|next tail].
    - cbn in Hrun. injection Hrun as <-. exists rb. split_and!; congruence.
    - unfold is_course_line in Hnext.
      apply bool_decide_eq_true in Hnext as [val Hcv].
      cbn in Hrun. rewrite (step_course _ _ _ Hcv) in Hrun. cbn in Hrun.
      inversion_clear Hrest as [|? ? Hni Htail].
      destruct (away_run c tail (on_course val frb) fr) as [_ Hsame];
        [apply on_course_wf| |done|done|].
      { unfold introduces in Hni. rewrite Hcv in Hni.
        by apply bool_decide_eq_false in Hni. }
      rewrite Hsame, on_course_lookup_old by eauto.
      destruct (save_previous_lookup _ _ _ Hrb) as (r2 & Hr2 & ? & ? & _).
      exists r2. split_and!; congruence. }
  cbn. rewrite save_previous_final.
  destruct (save_previous_lookup _ _ _ Hr') as (r3 & Hr3 & ? & ? & _).
  exists r3. split_and!; congruence.
Qed.

(** C7: a COURSE line whose value is not in the alias table commits the
    pending buffers of the course that was current, leaves no course current
    and empties both buffers; the commit stores the non-empty buffers in the
    record of that course; every COURSE line empties both buffers; and with
    no current course the lines up to the next recognized COURSE line change
    neither the courses nor the buffer of exams. *)
Theorem C7_unrecognized_course :
  (∀ fr raw val,
     course_value raw = Some val → course_map (upper (strip val)) = None →
     step fr raw =
       Ok {| self := set_courses (save_previous fr) (self fr);
             current_course := None; current_exams := []; current_songs := [];
             in_song_section := in_song_section fr |})
  ∧ (∀ fr c r,
       current_course fr = Some c → nonempty c = true →
       courses (self fr) !! c = Some r →
       save_previous fr = <[c := committed fr r]> (courses (self fr)))
  ∧ (∀ fr raw, is_course_line raw = true →
       ∃ fr', step fr raw = Ok fr' ∧ current_exams fr' = [] ∧ current_songs fr' = [])
  ∧ (∀ lines fr fr',
       current_course fr = None →
       Forall (fun raw => is_recognized_course_line raw = false) lines →
       for_lines lines fr = Ok fr' →
       current_course fr' = None ∧ courses (self fr') = courses (self fr)
       ∧ (current_exams fr = [] → current_exams fr' = [])).
Proof.
  split_and!.
  - intros fr raw val Hcv Hm.
    by rewrite (step_course _ _ _ Hcv), on_course_unrecognized.
  - apply save_previous_active.
  - intros fr raw Hc. unfold is_course_line in Hc.
    apply bool_decide_eq_true in Hc as [val Hcv].
    rewrite (step_course _ _ _ Hcv). by eexists.
  - apply dropped_run.
Qed.

(** C8: [to_mongo] gives music_type the lower-cased text [x] after the last
    dot of the basename of [wave], when something else than dots stands
    before that dot and the lower-cased text is not empty, and "mp3" when
    there is no such extension; song.OGG gives ogg, no [wave] gives mp3. *)
Theorem C8_music_type :
  (∀ t song_id created w stem x,
     wave t = Some w →
     PosixPath.basename w = stem ++ ord "." :: x → ord "." ∉ x → PosixPath.has_stem stem →
     lower x ≠ [] →
     music_type (to_mongo t song_id created) = lower x)
  ∧ (∀ t song_id created,
       (∀ w stem x, wave t = Some w → PosixPath.basename w = stem ++ ord "." :: x →
                    ord "." ∉ x → PosixPath.has_stem stem → lower x = []) →
       music_type (to_mongo t song_id created) = u "mp3")
  ∧ (∀ t song_id created,
       wave t = Some (u "song.OGG") →
       music_type (to_mongo t song_id created) = u "ogg")
  ∧ (∀ t song_id created,
       wave t = None → music_type (to_mongo t song_id created) = u "mp3").
Proof.
  split_and!.
  - intros t song_id created w stem x Hw Hbase Hx Hstem Hlow.
    change (music_type (to_mongo t song_id created)) with (extension t).
    rewrite (extension_of t w stem x) by done. by destruct (lower x).
  - intros t song_id created Hno.
    change (music_type (to_mongo t song_id created)) with (extension t).
    destruct (wave t) as [w|] eqn:Hw; [|unfold extension; by rewrite Hw].
    destruct (extension_cases (PosixPath.basename w)) as [Hd|Hd].
    + destruct Hd as (stem & x & Hbase & Hx & Hstem).
      rewrite (extension_of t w stem x) by done. by rewrite (Hno w stem x).
    + apply extension_fallback. intros w' stem x Hw'.
      assert (w' = w) as -> by congruence. apply Hd.
  - intros t song_id created Hw.
    change (music_type (to_mongo t song_id created)) with (extension t).
    unfold extension. by rewrite Hw.
  - intros t song_id created Hw.
    change (music_type (to_mongo t song_id created)) with (extension t).
    unfold extension. by rewrite Hw.
Qed.

(** C9: the course [c] is re-activated by the COURSE line [cl] when its
    committed record is [r0]; [post] is the block after [cl].  At the end of
    the input, as at the next COURSE line, the record of [c] has the exams of
    [post] alone when [post] appended any, and those of [r0] otherwise; the
    same for the songs. *)
Theorem C9_commit_replaces text pre cl post c fr1 r0 :
  introduces c cl = true →
  Forall (fun raw => is_course_line raw = false) post →
  for_lines pre (enter (fresh text)) = Ok fr1 →
  save_previous fr1 !! c = Some r0 →
  (∀ t, split 10 text = pre ++ cl :: post → __init__ text = Ok t →
     ∃ r, courses t !! c = Some r ∧ kept_or_replaced r0 post r)
  ∧ (∀ next tail fr,
       split 10 text = pre ++ cl :: post ++ next :: tail →
       is_course_line next = true →
       for_lines (pre ++ cl :: post ++ [next]) (enter (fresh text)) = Ok fr →
       ∃ r, courses (self fr) !! c = Some r ∧ kept_or_replaced r0 post r).
Proof.
  intros Hcl Hpost Hpre Hr0. split.
  - intros t Hsplit (fr & Hrun & _ & ->)%init_ok. rewrite Hsplit in Hrun.
    destruct (course_block _ _ _ _ _ _ (enter_wf _) Hcl Hpost Hrun)
      as (fr1' & Hpre' & _ & _ & Hc & Hn & Hex & Hso & r & Hr & He & Hs & _).
    assert (fr1' = fr1) as -> by congruence. rewrite Hr0 in He, Hs. cbn in He, Hs.
    cbn. rewrite (save_final_active _ _ _ Hc Hn Hr).
    eexists. split; [done|]. by apply committed_kept_or_replaced.
  - intros next tail fr _ Hnext Hrun. unfold is_course_line in Hnext.
    apply bool_decide_eq_true in Hnext as [val Hnext].
    replace (pre ++ cl :: post ++ [next]) with ((pre ++ cl :: post) ++ [next]) in Hrun
      by (by rewrite <- app_assoc).
    rewrite for_lines_app in Hrun.
    destruct (for_lines (pre ++ cl :: post) _) as [frb|] eqn:Hb; cbn in Hrun; [|done].
    rewrite (step_course _ _ _ Hnext) in Hrun. cbn in Hrun. injection Hrun as <-.
    destruct (course_block _ _ _ _ _ _ (enter_wf _) Hcl Hpost Hb)
      as (fr1' & Hpre' & _ & _ & Hc & Hn & Hex & Hso & r & Hr & He & Hs & _).
    assert (fr1' = fr1) as -> by congruence. rewrite Hr0 in He, Hs. cbn in He, Hs.
    rewrite on_course_lookup_old by eauto.
    rewrite (save_previous_active _ _ _ Hc Hn Hr), lookup_insert_eq.
    eexists. split; [done|]. by apply committed_kept_or_replaced.
Qed.

(** C10: a line sets the branch of the current course exactly when it is a
    branch-start line; a line is one exactly when, stripped, it has no colon
    and starts with BRANCHSTART or #BRANCHSTART as written, so the lower- and
    mixed-case spellings and lines with a colon are none; whereas #NEXTSONG,
    #START and #END are recognized in every ASCII case. *)
Theorem C10_branch_marker_case :
  (∀ fr raw fr' c r,
     current_course fr = Some c → nonempty c = true →
     courses (self fr) !! c = Some r → step fr raw = Ok fr' →
     ∃ r', courses (self fr') !! c = Some r'
           ∧ branch r' = branch r || is_branch_line raw)
  ∧ (∀ raw, is_branch_line raw = true ↔
       (ord ":" ∉ strip raw)
       ∧ (startswith (u "BRANCHSTART") (strip raw)
          || startswith (u "#BRANCHSTART") (strip raw)) = true)
  ∧ is_branch_line (u "BRANCHSTART") = true
  ∧ is_branch_line (u "#BRANCHSTART p,75,85") = true
  ∧ is_branch_line (u "branchstart") = false
  ∧ is_branch_line (u "#BranchStart p,75,85") = false
  ∧ is_branch_line (u "#BRANCHSTART p,75:85") = false
  ∧ (∀ p rest, ascii_upper <$> p = u "#NEXTSONG" →
       is_nextsong_line (p ++ rest) = true)
  ∧ (∀ p rest, ascii_upper <$> p = u "#START" → classify (p ++ rest) = Start)
  ∧ (∀ p rest, ascii_upper <$> p = u "#END" → classify (p ++ rest) = End_).
Proof.
  split_and!.
  - apply step_branch.
  - apply is_branch_line_spec.
  - vm_compute; reflexivity.
  - vm_compute; reflexivity.
  - vm_compute; reflexivity.
  - vm_compute; reflexivity.
  - vm_compute; reflexivity.
  - apply nextsong_any_case.
  - apply start_any_case.
  - apply end_any_case.
Qed.

End Claims.

(** * Further properties of the parser and of the document

    Properties the code has beyond the statements above: which lines count,
    what the attributes of a parsed chart are, what is stored in a course,
    and what [to_mongo] makes of a parsed chart. *)
Section Further.
Context `{Unicode}.

(** ** Frames that behave alike *)

Lemma save_previous_alike a b :
  course_alike a b → save_previous a = save_previous b.
Proof.
  intros (Hc & Hcc & He & Hs). unfold save_previous. by rewrite Hc, Hcc, He, Hs.
Qed.

Lemma on_course_alike val a b :
  course_alike a b → course_alike (on_course val a) (on_course val b).
Proof.
  intros Hab. unfold course_alike, on_course. cbn.
  by rewrite (save_previous_alike a b Hab).
Qed.

Lemma set_courses_eta t : set_courses (courses t) t = t.
Proof. by destruct t. Qed.

Lemma on_scalar_course val t : on_scalar (u "COURSE") val t = t.
Proof. reflexivity. Qed.

Lemma on_scalar_level val t : on_scalar (u "LEVEL") val t = t.
Proof. reflexivity. Qed.

(** The object after a line: the scalar attributes are those [metadata]
    gives, whatever the line did to the courses. *)
Lemma step_self fr raw fr' :
  step fr raw = Ok fr' →
  self fr' = set_courses (courses (self fr')) (metadata raw (self fr)).
Proof.
  rewrite step_dispatch. unfold metadata.
  destruct (classify raw) as [|parts| | |key val|line]; cbn.
  - intros [= <-]. by rewrite set_courses_eta.
  - case_bool_decide; [|intros [= <-]; by rewrite set_courses_eta].
    destruct (song_info parts); cbn; [|done].
    intros [= <-]. cbn. by rewrite set_courses_eta.
  - intros [= <-]. cbn. by rewrite set_courses_eta.
  - intros [= <-]. cbn. by rewrite set_courses_eta.
  - destruct (decide (key = u "COURSE")) as [->|Hne].
    { intros [= <-]. by destruct fr as [[]]. }
    rewrite on_key_value_shape by done.
    destruct (bool_decide (key = u "LEVEL")) eqn:Hl; cbn.
    + apply bool_decide_eq_true in Hl as ->.
      destruct (truthy (current_course fr)); cbn.
      * unfold on_level. destruct (setitem_course _ _ _); cbn; [|done].
        intros [= <-]. by destruct fr as [[]].
      * intros [= <-]. cbn. by rewrite set_courses_eta.
    + destruct (is_exam_key key && truthy (current_course fr)) eqn:He.
      * apply andb_true_iff in He as [He _].
        unfold on_exam. cbv zeta. rewrite (key_number_exam _ He). cbn.
        rewrite (on_scalar_exam _ _ _ He).
        destruct (bool_decide (3 ≤ _)); intros [= <-]; cbn; by rewrite set_courses_eta.
      * intros [= <-]. cbn. by rewrite set_courses_eta.
  - unfold on_other. destruct (_ && _).
    + destruct (setitem_course _ _ _); cbn; [|done].
      intros [= <-]. by destruct fr as [[]].
    + intros [= <-]. by rewrite set_courses_eta.
Qed.

Lemma step_course_alike a b raw :
  course_alike a b →
  match step a raw, step b raw with
  | Ok a', Ok b' => course_alike a' b'
  | Raise e1, Raise e2 => e1 = e2
  | _, _ => False
  end.
Proof.
  intros Hab. pose proof Hab as (Hc & Hcc & He & Hs).
  rewrite !step_dispatch.
  destruct (classify raw) as [|parts| | |key val|line]; cbn; try done.
  - case_bool_decide; [|done]. destruct (song_info parts); cbn; [|done].
    unfold course_alike. cbn. by rewrite Hs.
  - destruct (decide (key = u "COURSE")) as [->|Hne].
    { by apply on_course_alike. }
    rewrite !on_key_value_shape by done. rewrite <- Hcc.
    destruct (bool_decide (key = u "LEVEL") && truthy (current_course a)).
    { unfold on_level. rewrite <- Hc, <- Hcc.
      destruct (setitem_course _ _ _); cbn; [|done]. by unfold course_alike. }
    destruct (is_exam_key key && truthy (current_course a)).
    { unfold on_exam. cbv zeta.
      destruct (bool_decide (3 ≤ _)); [|done].
      destruct (key_number key); cbn; [|done].
      unfold course_alike. cbn. by rewrite He. }
    unfold course_alike. cbn. by rewrite !on_scalar_courses.
  - unfold on_other. rewrite <- Hcc, <- Hc.
    destruct (_ && _); [|done].
    destruct (setitem_course _ _ _); cbn; [|done]. by unfold course_alike.
Qed.

Lemma metadata_same_chart raw a b :
  same_chart a b → same_chart (metadata raw a) (metadata raw b).
Proof.
  unfold metadata. destruct (classify raw); try done.
  apply on_scalar_same_chart.
Qed.

Lemma step_alike a b raw :
  alike a b →
  match step a raw, step b raw with
  | Ok a', Ok b' => alike a' b'
  | Raise e1, Raise e2 => e1 = e2
  | _, _ => False
  end.
Proof.
  intros [Hsame Hab]. pose proof (step_course_alike a b raw Hab) as Hstep.
  destruct (step a raw) as [a'|e1] eqn:Ha, (step b raw) as [b'|e2] eqn:Hb; try done.
  split; [|done].
  rewrite (step_self _ _ _ Ha), (step_self _ _ _ Hb).
  destruct Hstep as (Hc & _). rewrite Hc.
  pose proof (metadata_same_chart raw _ _ Hsame) as (?&?&?&?&?&?&?).
  unfold same_chart. cbn. done.
Qed.

(** ** Lines without effect *)

Lemma alike_refl fr : alike fr fr.
Proof. by repeat split. Qed.

Lemma alike_sym a b : alike a b → alike b a.
Proof. intros [(?&?&?&?&?&?&?) (?&?&?&?)]. by repeat split. Qed.

Lemma alike_trans a b c : alike a b → alike b c → alike a c.
Proof.
  intros [(?&?&?&?&?&?&?) (?&?&?&?)] [(?&?&?&?&?&?&?) (?&?&?&?)].
  repeat split; congruence.
Qed.

Lemma for_lines_alike lines a b :
  alike a b →
  match for_lines lines a, for_lines lines b with
  | Ok a', Ok b' => alike a' b'
  | Raise e1, Raise e2 => e1 = e2
  | _, _ => False
  end.
Proof.
  revert a b. induction lines as [|raw lines IH]; intros a b Hab; cbn; [done|].
  pose proof (step_alike a b raw Hab) as Hs.
  destruct (step a raw), (step b raw); cbn; try done. by apply IH.
Qed.

Lemma enter_alike text1 text2 : alike (enter (fresh text1)) (enter (fresh text2)).
Proof. by repeat split. Qed.

(** The outcome of [_parse] from two frames that are alike. *)
Lemma finish_alike (ra rb : result Frame) :
  match ra, rb with
  | Ok a, Ok b => alike a b
  | Raise e1, Raise e2 => e1 = e2
  | _, _ => False
  end →
  same_result (fr ← ra; Ok (set_courses (save_final fr) (self fr)))
              (fr ← rb; Ok (set_courses (save_final fr) (self fr))).
Proof.
  destruct ra as [a|], rb as [b|]; cbn; try done.
  intros [(?&?&?&?&?&?&?) Hab]. rewrite !save_previous_final.
  rewrite (save_previous_alike a b Hab). by repeat split.
Qed.

Lemma known_key_cases key :
  known_key key = false →
  key ≠ u "COURSE" ∧ bool_decide (key = u "LEVEL") = false
  ∧ is_exam_key key = false ∧ ∀ val t, on_scalar key val t = t.
Proof.
  unfold known_key. intros Hk%bool_decide_eq_false.
  rewrite !elem_of_cons, elem_of_nil in Hk.
  assert (∀ k, key = k → k ∈ [u "TITLE"; u "TITLEJA"; u "SUBTITLE"; u "SUBTITLEJA";
                      u "WAVE"; u "OFFSET"; u "COURSE"; u "LEVEL";
                      u "EXAM1"; u "EXAM2"; u "EXAM3"; u "EXAM4"] → False) as Hno.
  { intros k -> Hin. apply Hk. by rewrite !elem_of_cons, elem_of_nil in Hin. }
  split_and!.
  - intros ->. apply (Hno _ eq_refl). compute_done.
  - apply bool_decide_eq_false. intros ->. apply (Hno _ eq_refl). compute_done.
  - unfold is_exam_key.
    rewrite !bool_decide_eq_false_2; [done|..];
      intros ->; apply (Hno _ eq_refl); compute_done.
  - intros val t. unfold on_scalar.
    rewrite !bool_decide_eq_false_2; [done|..];
      intros ->; apply (Hno _ eq_refl); compute_done.
Qed.

Lemma ignored_step fr raw :
  ignored raw = true → ∃ fr', step fr raw = Ok fr' ∧ alike fr fr'.
Proof.
  rewrite step_dispatch. unfold ignored.
  destruct (classify raw) as [|parts| | |key val|line]; cbn.
  - intros _. exists fr. split; [done|apply alike_refl].
  - intros Hlen%bool_decide_eq_true.
    rewrite bool_decide_eq_false_2 by lia. exists fr. split; [done|apply alike_refl].
  - intros _. eexists. split; [done|]. by repeat split.
  - intros _. eexists. split; [done|]. by repeat split.
  - intros [Hk%negb_true_iff|[He Hlen]%andb_true_iff]%orb_true_iff.
    + destruct (known_key_cases key Hk) as (Hne & Hl & He & Hid).
      rewrite on_key_value_shape by done. rewrite Hl, He. cbn.
      eexists. split; [done|]. unfold alike, same_chart, course_alike. cbn.
      rewrite Hid. by repeat split.
    + apply bool_decide_eq_true in Hlen.
      rewrite on_key_value_shape by (intros ->; by vm_compute in He).
      destruct (bool_decide (key = u "LEVEL")) eqn:Hl.
      { by rewrite (is_exam_key_LEVEL _ Hl) in He. }
      rewrite He. cbn [andb]. destruct (truthy (current_course fr)).
      * unfold on_exam. cbv zeta. rewrite bool_decide_eq_false_2 by lia.
        exists fr. split; [done|apply alike_refl].
      * eexists. split; [done|]. unfold alike, same_chart, course_alike. cbn.
        rewrite (on_scalar_exam _ _ _ He). by repeat split.
  - intros Hb%negb_true_iff. unfold on_other. rewrite Hb, andb_false_r.
    exists fr. split; [done|apply alike_refl].
Qed.

Lemma skip_run (p : str → bool) lines a b :
  Forall (fun raw => p raw = true → ignored raw = true) lines →
  alike a b →
  match for_lines (filter (fun raw => p raw = false) lines) a,
        for_lines lines b with
  | Ok a', Ok b' => alike a' b'
  | Raise e1, Raise e2 => e1 = e2
  | _, _ => False
  end.
Proof.
  intros Hall. revert a b.
  induction Hall as [|raw lines Hp _ IH]; intros a b Hab; [done|].
  destruct (p raw) eqn:Hpr.
  - rewrite filter_cons_False by (by rewrite Hpr).
    destruct (ignored_step b raw (Hp eq_refl)) as (b' & Hs & Hbb).
    cbn. rewrite Hs. cbn. apply IH. by eapply alike_trans.
  - rewrite filter_cons_True by done. cbn.
    pose proof (step_alike a b raw Hab) as Hs.
    destruct (step a raw), (step b raw); cbn; try done. by apply IH.
Qed.

(** X1: deleting lines that no branch of the loop acts on (blank lines,
    #START and #END markers, NEXTSONG lines of fewer than four fields, lines
    with an unknown key, EXAM lines of fewer than three fields, lines
    without a colon that are no branch-start lines) leaves the outcome of
    [Tja(text)] the same: the same attributes and courses, or the same
    exception. *)
Theorem X1_ignored_lines text (p : str → bool) :
  (∀ raw, raw ∈ split 10 text → p raw = true → ignored raw = true) →
  same_result (__init__ (without p text)) (__init__ text).
Proof.
  intros Hp. unfold __init__, _parse. cbn [Tja.text fresh].
  rewrite without_lines. apply finish_alike.
  apply skip_run; [|apply enter_alike].
  apply Forall_forall. intros raw Hin. by apply Hp.
Qed.

(** X2: [Tja(text)] raises nothing but ValueError, and only when a line of
    the text is a NEXTSONG line of four fields or more whose offset or
    scoreInit is there and is no number; no line raises KeyError or
    IndexError. *)
Theorem X2_only_value_error text e :
  __init__ text = Raise e →
  e = ValueError ∧ ∃ raw, raw ∈ split 10 text ∧ aborts raw = true.
Proof.
  intros He. pose proof (init_outcome text) as Hout.
  destruct (existsb aborts (split 10 text)) eqn:Hex.
  - rewrite Hout in He. injection He as <-. split; [done|].
    apply existsb_exists in Hex as (raw & Hin & Ha).
    exists raw. split; [by apply list_elem_of_In|done].
  - destruct Hout as [t Ht]. congruence.
Qed.

(** *** Whitespace around a line *)

Lemma drop_while_app_all p a b :
  forallb p a = true → drop_while p (a ++ b) = drop_while p b.
Proof.
  induction a as [|x a IH]; cbn; [done|].
  intros [Hx Ha]%andb_true_iff. rewrite Hx. by apply IH.
Qed.

Lemma drop_while_app_some p a b :
  forallb p a = false → drop_while p (a ++ b) = drop_while p a ++ b.
Proof.
  induction a as [|x a IH]; cbn; [done|].
  destruct (p x) eqn:Hx; [|done]. cbn. apply IH.
Qed.

Lemma drop_while_all p a : forallb p a = true → drop_while p a = [].
Proof.
  induction a as [|x a IH]; cbn; [done|].
  intros [Hx Ha]%andb_true_iff. rewrite Hx. by apply IH.
Qed.

Lemma strip_space_after s c : isspace c = true → strip (s ++ [c]) = strip s.
Proof.
  intros Hc. unfold strip, lstrip_with.
  destruct (forallb isspace s) eqn:Hall.
  - rewrite drop_while_app_all by done. cbn. rewrite Hc.
    by rewrite (drop_while_all _ _ Hall).
  - rewrite drop_while_app_some by done.
    unfold rstrip_with. rewrite rev_app_distr. cbn. by rewrite Hc.
Qed.

Lemma strip_space_before s c : isspace c = true → strip (c :: s) = strip s.
Proof. intros Hc. unfold strip, lstrip_with. cbn. by rewrite Hc. Qed.

Lemma step_strip fr raw raw' : strip raw = strip raw' → step fr raw = step fr raw'.
Proof. intros Hs. unfold step. cbv zeta. by rewrite Hs. Qed.

Lemma strip_run l1 l2 a b :
  strip <$> l1 = strip <$> l2 → alike a b →
  match for_lines l1 a, for_lines l2 b with
  | Ok a', Ok b' => alike a' b'
  | Raise e1, Raise e2 => e1 = e2
  | _, _ => False
  end.
Proof.
  revert l2 a b. induction l1 as [|r1 l1 IH]; intros [|r2 l2] a b; try done.
  rewrite !fmap_cons. intros [= Hr Hl] Hab. cbn.
  rewrite (step_strip a r1 r2 Hr).
  pose proof (step_alike a b r2 Hab) as Hs.
  destruct (step a r2), (step b r2); cbn; try done. by apply IH.
Qed.

(** X3: only the stripped lines count: two texts whose lines are the same
    after [strip] give the same outcome, so indentation and whitespace at
    the end of a line change nothing. *)
Theorem X3_line_whitespace text text' :
  strip <$> split 10 text = strip <$> split 10 text' →
  same_result (__init__ text) (__init__ text').
Proof.
  intros Hs. unfold __init__, _parse. cbn [Tja.text fresh].
  apply finish_alike. apply strip_run; [done|apply enter_alike].
Qed.

(** *** Carriage returns *)

Lemma split_nonempty sep s : split sep s ≠ [].
Proof. destruct s as [|c s]; cbn; [done|]. destruct (c =? sep)%N; [done|]. by destruct (split sep s). Qed.

Lemma split_crlf text :
  Forall2 (fun a b => a = b ∨ a = b ++ [13%N]) (split 10 (crlf text)) (split 10 text).
Proof.
  induction text as [|c text IH].
  - constructor; [by left|constructor].
  - change (crlf (c :: text))
      with ((if (c =? 10)%N then [13; 10]%N else [c]) ++ crlf text).
    destruct (N.eqb_spec c 10) as [->|Hne].
    + cbn. constructor; [by right|done].
    + cbn [app split]. rewrite (proj2 (N.eqb_neq c 10) Hne).
      destruct IH as [|a b la lb Hab Hrest].
      * constructor; [by left|constructor].
      * constructor; [|done]. destruct Hab as [->| ->]; [by left|by right].
Qed.

Lemma strip_split_crlf text :
  strip <$> split 10 (crlf text) = strip <$> split 10 text.
Proof.
  pose proof (split_crlf text) as Hall.
  induction Hall as [|a b la lb Hab _ IH]; [done|].
  rewrite !fmap_cons, IH. f_equal.
  destruct Hab as [->| ->]; [done|]. by apply strip_space_after.
Qed.

(** X4: a text with CRLF line ends gives the same outcome as the text with
    LF line ends. *)
Theorem X4_carriage_returns text :
  same_result (__init__ (crlf text)) (__init__ text).
Proof.
  unfold __init__, _parse. cbn [Tja.text fresh].
  apply finish_alike. apply strip_run; [apply strip_split_crlf|apply enter_alike].
Qed.


(** ** The scalar attributes *)

Lemma on_scalar_set_courses key val c t :
  on_scalar key val (set_courses c t) = set_courses c (on_scalar key val t).
Proof. unfold on_scalar. by repeat case_bool_decide. Qed.

Lemma metadata_set_courses raw c t :
  metadata raw (set_courses c t) = set_courses c (metadata raw t).
Proof. unfold metadata. destruct (classify raw); try done. apply on_scalar_set_courses. Qed.

Lemma set_courses_twice c c' t : set_courses c (set_courses c' t) = set_courses c t.
Proof. done. Qed.

Lemma fold_set_courses lines c t :
  foldl (fun t raw => metadata raw t) (set_courses c t) lines
  = set_courses c (foldl (fun t raw => metadata raw t) t lines).
Proof.
  revert t. induction lines as [|l lines IH]; intros t; cbn; [done|].
  by rewrite metadata_set_courses, IH.
Qed.

(** The scalar attributes after a run are the fold of [metadata]. *)
Lemma run_self lines fr fr' :
  for_lines lines fr = Ok fr' →
  self fr' = set_courses (courses (self fr'))
               (foldl (fun t raw => metadata raw t) (self fr) lines).
Proof.
  revert fr. induction lines as [|raw lines IH]; intros fr; cbn.
  - intros [= <-]. by rewrite set_courses_eta.
  - destruct (step fr raw) as [fr1|] eqn:Hs; cbn; [|done].
    intros Hrun. rewrite (IH _ Hrun) at 1. rewrite (step_self _ _ _ Hs).
    by rewrite fold_set_courses.
Qed.

Lemma init_self text t :
  __init__ text = Ok t →
  t = set_courses (courses t)
        (foldl (fun t raw => metadata raw t) (fresh text) (split 10 text)).
Proof.
  intros (fr & Hrun & _ & ->)%init_ok.
  rewrite (run_self _ _ _ Hrun) at 1. done.
Qed.

(** An attribute [get] that only the key [key] sets, to [value val]: after
    a fold it has the value of the last line with that key. *)
Section LastWins.
Context {A : Type} (get : Tja → A) (key : str) (value : str → A).
Hypothesis get_on_scalar : ∀ k v t,
  get (on_scalar k v t) = if bool_decide (k = key) then value v else get t.

Lemma get_metadata_other raw t : has_key key raw = false → get (metadata raw t) = get t.
Proof.
  unfold has_key, metadata. destruct (classify raw); try done.
  intros Hk. by rewrite get_on_scalar, Hk.
Qed.

Lemma get_fold_other lines t :
  Forall (fun raw => has_key key raw = false) lines →
  get (foldl (fun t raw => metadata raw t) t lines) = get t.
Proof.
  intros Hall. revert t. induction Hall as [|raw lines Hr _ IH]; intros t; cbn; [done|].
  by rewrite IH, get_metadata_other.
Qed.

Lemma get_fold_last pre raw post val t :
  classify raw = KeyValue key val →
  Forall (fun raw => has_key key raw = false) post →
  get (foldl (fun t raw => metadata raw t) t (pre ++ raw :: post)) = value val.
Proof.
  intros Hk Hpost. rewrite foldl_app. cbn. rewrite get_fold_other by done.
  unfold metadata. rewrite Hk, get_on_scalar. by rewrite bool_decide_eq_true_2.
Qed.
End LastWins.

Lemma scalar_on_scalar s k v t :
  scalar_of s (on_scalar k v t)
  = if bool_decide (k = scalar_key s) then or_None v else scalar_of s t.
Proof.
  unfold on_scalar.
  destruct (decide (k = u "TITLE")) as [->|?]; [by destruct s|].
  destruct (decide (k = u "TITLEJA")) as [->|?]; [by destruct s|].
  destruct (decide (k = u "SUBTITLE")) as [->|?]; [by destruct s|].
  destruct (decide (k = u "SUBTITLEJA")) as [->|?]; [by destruct s|].
  destruct (decide (k = u "WAVE")) as [->|?]; [by destruct s|].
  destruct (decide (k = u "OFFSET")) as [->|?]; [by destruct s|].
  rewrite !bool_decide_eq_false_2 by done.
  by rewrite bool_decide_eq_false_2 by (by destruct s).
Qed.

Lemma offset_on_scalar k v t :
  offset (on_scalar k v t)
  = if bool_decide (k = u "OFFSET") then offset_value v else offset t.
Proof.
  unfold on_scalar.
  destruct (decide (k = u "TITLE")) as [->|?]; [done|].
  destruct (decide (k = u "TITLEJA")) as [->|?]; [done|].
  destruct (decide (k = u "SUBTITLE")) as [->|?]; [done|].
  destruct (decide (k = u "SUBTITLEJA")) as [->|?]; [done|].
  destruct (decide (k = u "WAVE")) as [->|?]; [done|].
  destruct (decide (k = u "OFFSET")) as [->|?]; [done|].
  by rewrite !bool_decide_eq_false_2 by done.
Qed.

Lemma scalar_set_courses s c t : scalar_of s (set_courses c t) = scalar_of s t.
Proof. by destruct s. Qed.

(** X5: each of title, title_ja, subtitle, subtitle_ja and wave of a parsed
    chart is given by the last line with its key, as [val or None]; it is
    [None] when no line has the key. *)
Theorem X5_last_text_attribute (s : scalar) text t :
  __init__ text = Ok t →
  (∀ pre raw post val,
     split 10 text = pre ++ raw :: post →
     classify raw = KeyValue (scalar_key s) val →
     Forall (fun raw => has_key (scalar_key s) raw = false) post →
     scalar_of s t = or_None val)
  ∧ (Forall (fun raw => has_key (scalar_key s) raw = false) (split 10 text) →
     scalar_of s t = None).
Proof.
  intros Ht. rewrite (init_self _ _ Ht), scalar_set_courses. split.
  - intros pre raw post val -> Hk Hpost.
    by apply (get_fold_last (scalar_of s) (scalar_key s) or_None (scalar_on_scalar s)).
  - intros Hall.
    rewrite (get_fold_other (scalar_of s) (scalar_key s) or_None (scalar_on_scalar s))
      by done.
    by destruct s.
Qed.

(** X6: the offset of a parsed chart is given by the last OFFSET line: the
    [float] of its value, or [None] when [float] rejects it, whatever an
    earlier OFFSET line gave; it is [None] when there is no OFFSET line. *)
Theorem X6_last_offset text t :
  __init__ text = Ok t →
  (∀ pre raw post val,
     split 10 text = pre ++ raw :: post →
     classify raw = KeyValue (u "OFFSET") val →
     Forall (fun raw => has_key (u "OFFSET") raw = false) post →
     offset t = if float_ok val then Some (PyFloat val) else None)
  ∧ (Forall (fun raw => has_key (u "OFFSET") raw = false) (split 10 text) →
     offset t = None).
Proof.
  intros Ht. rewrite (init_self _ _ Ht). cbn [offset set_courses]. split.
  - intros pre raw post val -> Hk Hpost.
    by apply (get_fold_last offset (u "OFFSET") offset_value offset_on_scalar).
  - intros Hall.
    by rewrite (get_fold_other offset (u "OFFSET") offset_value offset_on_scalar).
Qed.

(** The text attributes are never the empty string and the offset is a
    float that [float] accepts, after any lines. *)
Lemma fold_attributes (s : scalar) lines t0 :
  scalar_of s t0 ≠ Some []
  ∧ (offset t0 = None ∨ ∃ val, offset t0 = Some (PyFloat val) ∧ float_ok val = true) →
  let t1 := foldl (fun t raw => metadata raw t) t0 lines in
  scalar_of s t1 ≠ Some []
  ∧ (offset t1 = None ∨ ∃ val, offset t1 = Some (PyFloat val) ∧ float_ok val = true).
Proof.
  revert t0. induction lines as [|raw lines IH]; intros t0 Ht0; [done|].
  cbn. apply IH. unfold metadata. destruct (classify raw); try done.
  rewrite scalar_on_scalar, offset_on_scalar. destruct Ht0 as [Hs Ho]. split.
  - case_bool_decide; [|done]. unfold or_None. by destruct val.
  - case_bool_decide; [|done]. unfold offset_value.
    destruct (float_ok val) eqn:Hf; eauto.
Qed.

Lemma init_attributes text t (s : scalar) :
  __init__ text = Ok t → scalar_of s t ≠ Some [].
Proof.
  intros Ht. rewrite (init_self _ _ Ht), scalar_set_courses.
  apply (fold_attributes s _ (fresh text)). split; [by destruct s|by left].
Qed.

(** X7: no text attribute of a parsed chart is the empty string (an empty
    value is stored as [None]), and its offset is [None] or the float of a
    text that [float] accepts. *)
Theorem X7_no_empty_attribute text t (s : scalar) :
  __init__ text = Ok t →
  scalar_of s t ≠ Some []
  ∧ (offset t = None ∨ ∃ val, offset t = Some (PyFloat val) ∧ float_ok val = true).
Proof.
  intros Ht. rewrite (init_self _ _ Ht), scalar_set_courses. cbn [offset set_courses].
  apply (fold_attributes s). split; [by destruct s|by left].
Qed.

(** ** Stripping, and the first colon *)

Lemma drop_while_idem p s : drop_while p (drop_while p s) = drop_while p s.
Proof.
  induction s as [|c s IH]; cbn; [done|].
  destruct (p c) eqn:Hc; [done|]. cbn. by rewrite Hc.
Qed.

Lemma drop_while_cases p s :
  (forallb p s = true ∧ drop_while p s = [])
  ∨ ∃ ws d rest, s = ws ++ d :: rest ∧ forallb p ws = true ∧ p d = false
                 ∧ drop_while p s = d :: rest.
Proof.
  induction s as [|c s IH]; cbn; [by left|].
  destruct (p c) eqn:Hc.
  - destruct IH as [[? ?]|(ws & d & rest & -> & ? & ? & ?)]; [by left|].
    right. exists (c :: ws), d, rest. cbn. by rewrite Hc.
  - right. by exists [], c, s.
Qed.

Lemma rstrip_all p s : forallb p s = true → rstrip_with p s = [].
Proof.
  intros Hall. unfold rstrip_with. rewrite drop_while_all; [done|].
  rewrite forallb_forall in *. intros x Hx. apply Hall. by apply in_rev.
Qed.

Lemma rstrip_idem p s : rstrip_with p (rstrip_with p s) = rstrip_with p s.
Proof. unfold rstrip_with. by rewrite rev_involutive, drop_while_idem. Qed.

Lemma rstrip_cons p d rest :
  p d = false → rstrip_with p (d :: rest) = d :: rstrip_with p rest.
Proof. apply (rstrip_app p [] d rest). Qed.

Lemma strip_lstrip s : strip (lstrip_with isspace s) = strip s.
Proof. unfold strip, lstrip_with. by rewrite drop_while_idem. Qed.

Lemma strip_rstrip s : strip (rstrip_with isspace s) = strip s.
Proof.
  unfold strip, lstrip_with.
  destruct (drop_while_cases isspace s)
    as [[Hall Hd]|(ws & d & rest & -> & Hws & Hd & Hdrop)].
  - by rewrite (rstrip_all _ _ Hall), Hd.
  - rewrite Hdrop, (rstrip_app _ ws d rest Hd), drop_while_app_stop by done.
    rewrite (drop_while_all _ _ Hws). cbn [app].
    rewrite !(rstrip_cons _ d _ Hd). by rewrite rstrip_idem.
Qed.

Lemma strip_idem s : strip (strip s) = strip s.
Proof. unfold strip at 2. by rewrite strip_rstrip, strip_lstrip. Qed.

Lemma field_strip parts i : strip (field parts i) = field parts i.
Proof. unfold field. destruct (parts !! i); [apply strip_idem|done]. Qed.

Lemma drop_while_suffix p s c : c ∈ drop_while p s → c ∈ s.
Proof.
  induction s as [|x s IH]; cbn; [done|].
  destruct (p x); [|done]. intros Hc. right. by apply IH.
Qed.

Lemma split_once_first sep a b :
  sep ∉ a → split_once sep (a ++ sep :: b) = Some (a, b).
Proof.
  induction a as [|x a IH]; cbn; intros Hn.
  - by rewrite N.eqb_refl.
  - apply not_elem_of_cons in Hn as [Hx Ha].
    destruct (N.eqb_spec x sep) as [->|_]; [done|]. by rewrite IH.
Qed.

Lemma strip_with_colon k v :
  strip (k ++ ord ":" :: v)
  = lstrip_with isspace k ++ ord ":" :: rstrip_with isspace v.
Proof.
  unfold strip, lstrip_with.
  rewrite drop_while_app_stop by done. by rewrite rstrip_app.
Qed.

(** X8: a line is cut at its first colon: the key is the text before it,
    stripped and in upper case, the value is all the text after it,
    stripped, further colons included; unless the stripped line starts with
    #NEXTSONG, #START or #END in any case, which is tested first. *)
Theorem X8_line_with_colon k v :
  ord ":" ∉ k → classify (k ++ ord ":" :: v) = kind_with_colon k v.
Proof.
  intros Hk. unfold classify, kind_with_colon. cbv zeta.
  rewrite strip_with_colon.
  replace (nonempty _) with true by (by destruct (lstrip_with isspace k)).
  cbn [negb].
  rewrite split_once_first, strip_lstrip, strip_rstrip; [done|].
  intros Hin. apply Hk. by eapply drop_while_suffix.
Qed.

(** The first piece of [re.split(r"\s+", s)] is the text before the first
    whitespace. *)
Lemma first_re_split s :
  first (re_split_spaces s) = take_while (fun c => negb (isspace c)) s.
Proof.
  unfold re_split_spaces, first.
  induction s as [|c s IH]; cbn; [done|].
  destruct (isspace c); cbn; [done|].
  destruct (re_split_spaces_from false s); cbn in *; by rewrite <- IH.
Qed.

(** ** What is stored *)

Lemma song_fields_valid parts off score :
  valid_offset off = true →
  valid_song {| song_title := field parts 0; artist := field parts 1;
                genre := field parts 2; song_wave := field parts 3;
                song_offset := off; scoreInit := score |}.
Proof.
  intros Hoff. unfold valid_song.
  cbn [song_title artist genre song_wave song_offset].
  by rewrite !field_strip.
Qed.

Lemma song_info_valid parts s : song_info parts = Ok s → valid_song s.
Proof.
  unfold song_info.
  destruct (nonempty (field parts 4)) eqn:Hn4.
  - destruct (float_ok (field parts 4)) eqn:Hf; cbn [mbind result_bind]; [|done].
    destruct (nonempty (field parts 5)).
    + destruct (int (field parts 5)); cbn [mbind result_bind or_raise]; [|done].
      intros [= <-]. apply song_fields_valid. cbn. by rewrite Hn4, Hf.
    + cbn [mbind result_bind]. intros [= <-]. apply song_fields_valid.
      cbn. by rewrite Hn4, Hf.
  - cbn [mbind result_bind]. destruct (nonempty (field parts 5)).
    + destruct (int (field parts 5)); cbn [mbind result_bind or_raise]; [|done].
      intros [= <-]. by apply song_fields_valid.
    + cbn [mbind result_bind]. intros [= <-]. by apply song_fields_valid.
Qed.

Lemma exam_number_range key : (1 ≤ exam_number key ≤ 4)%Z.
Proof. unfold exam_number. repeat case_bool_decide; lia. Qed.

Lemma exam_data_valid n parts : (1 ≤ n ≤ 4)%Z → valid_exam (exam_data n parts).
Proof. unfold valid_exam, exam_data. by destruct (pass_values parts). Qed.

Lemma valid_set_stars v r : valid_record r → valid_record (set_stars v r).
Proof. done. Qed.

Lemma valid_set_branch v r : valid_record r → valid_record (set_branch v r).
Proof. done. Qed.

Lemma valid_set_exams l r :
  l ≠ [] → Forall valid_exam l → valid_record r → valid_record (set_exams l r).
Proof. intros Hl Hall [He Hs]. split; [|done]. cbn. by intros ? [= <-]. Qed.

Lemma valid_set_songs l r :
  l ≠ [] → Forall valid_song l → valid_record r → valid_record (set_songs l r).
Proof. intros Hl Hall [He Hs]. split; [done|]. cbn. by intros ? [= <-]. Qed.

Lemma valid_alter (f : CourseRecord → CourseRecord) (c : str) (cs : gmap str CourseRecord) :
  (∀ r, valid_record r → valid_record (f r)) →
  map_Forall (fun _ r => valid_record r) cs →
  map_Forall (fun _ r => valid_record r) (alter f c cs).
Proof.
  intros Hf Hcs k r. destruct (decide (k = c)) as [->|Hne].
  - rewrite lookup_alter_eq. destruct (cs !! c) as [r0|] eqn:Hr0; cbn; [|done].
    intros [= <-]. apply Hf. by eapply Hcs.
  - rewrite lookup_alter_ne by done. apply Hcs.
Qed.

Lemma valid_setitem (cc : option str) (f : CourseRecord → CourseRecord) cs cs' :
  (∀ r, valid_record r → valid_record (f r)) →
  map_Forall (fun _ r => valid_record r) cs →
  setitem_course cc f cs = Ok cs' →
  map_Forall (fun _ r => valid_record r) cs'.
Proof.
  intros Hf Hcs. unfold setitem_course.
  destruct cc as [c|]; [|done]. destruct (cs !! c) as [r|] eqn:Hr; [|done].
  intros [= <-]. apply map_Forall_insert_2; [|done]. apply Hf. by eapply Hcs.
Qed.

Lemma save_previous_valid fr :
  valid_frame fr → map_Forall (fun _ r => valid_record r) (save_previous fr).
Proof.
  intros (Hcs & He & Hs). unfold save_previous. cbv zeta.
  destruct (_ && _); [|done].
  assert (map_Forall (fun _ r => valid_record r)
            (if bool_decide (current_exams fr ≠ [])
             then alter (set_exams (current_exams fr)) (default [] (current_course fr))
                    (courses (self fr))
             else courses (self fr))) as Hcs1.
  { destruct (decide (current_exams fr = [])) as [Hnil|Hne].
    - by rewrite bool_decide_eq_false_2 by auto.
    - rewrite bool_decide_eq_true_2 by done. apply valid_alter; [|done].
      intros r. by apply valid_set_exams. }
  destruct (decide (current_songs fr = [])) as [Hnil|Hne].
  - by rewrite (bool_decide_eq_false_2 (current_songs fr ≠ [])) by auto.
  - rewrite (bool_decide_eq_true_2 (current_songs fr ≠ [])) by done.
    apply valid_alter; [|done]. intros r. by apply valid_set_songs.
Qed.

Lemma on_course_valid val fr : valid_frame fr → valid_frame (on_course val fr).
Proof.
  intros Hv. pose proof (save_previous_valid fr Hv) as Hsp.
  unfold valid_frame, on_course. cbn. split_and!; [|done|done].
  destruct (_ && _); [|done]. apply map_Forall_insert_2; [|done].
  split; by intros l [=].
Qed.

Lemma step_valid fr raw fr' : valid_frame fr → step fr raw = Ok fr' → valid_frame fr'.
Proof.
  intros Hv. pose proof Hv as (Hcs & He & Hs).
  rewrite step_dispatch.
  destruct (classify raw) as [|parts| | |key val|line]; cbn.
  - by intros [= <-].
  - case_bool_decide; [|by intros [= <-]].
    destruct (song_info parts) as [s|] eqn:Hsong; cbn; [|done].
    intros [= <-]. unfold valid_frame. cbn. split_and!; [done|done|].
    apply Forall_app. split; [done|]. apply Forall_singleton.
    by eapply song_info_valid.
  - by intros [= <-].
  - by intros [= <-].
  - destruct (decide (key = u "COURSE")) as [->|Hne].
    { intros [= <-]. by apply on_course_valid. }
    rewrite on_key_value_shape by done.
    destruct (bool_decide (key = u "LEVEL") && truthy (current_course fr)).
    { unfold on_level.
      destruct (setitem_course _ _ _) as [cs|] eqn:Hset; cbn; [|done].
      intros [= <-]. unfold valid_frame. cbn. split_and!; [|done|done].
      eapply valid_setitem; [|exact Hcs|exact Hset]. intros r. apply valid_set_stars. }
    destruct (is_exam_key key && truthy (current_course fr)) eqn:Hex.
    { apply andb_true_iff in Hex as [Hex _].
      unfold on_exam. cbv zeta. rewrite (key_number_exam _ Hex). cbn.
      destruct (bool_decide (3 ≤ _)); intros [= <-]; [|done].
      unfold valid_frame. cbn. split_and!; [done| |done].
      apply Forall_app. split; [done|]. apply Forall_singleton.
      apply exam_data_valid, exam_number_range. }
    intros [= <-]. unfold valid_frame. cbn. by rewrite on_scalar_courses.
  - unfold on_other. destruct (_ && _); [|by intros [= <-]].
    destruct (setitem_course _ _ _) as [cs|] eqn:Hset; cbn; [|done].
    intros [= <-]. unfold valid_frame. cbn. split_and!; [|done|done].
    eapply valid_setitem; [|exact Hcs|exact Hset]. intros r. apply valid_set_branch.
Qed.

Lemma for_lines_valid lines fr fr' :
  valid_frame fr → for_lines lines fr = Ok fr' → valid_frame fr'.
Proof.
  revert fr. induction lines as [|raw lines IH]; intros fr Hv; cbn.
  - by intros [= <-].
  - destruct (step fr raw) as [fr1|] eqn:Hs; cbn; [|done].
    apply IH. by eapply step_valid.
Qed.

Lemma enter_valid text : valid_frame (enter (fresh text)).
Proof. unfold valid_frame. cbn. split_and!; [apply map_Forall_empty|done|done]. Qed.

(** X9: in a parsed chart no course has an empty list of exams or of
    songs (the key is absent instead); every stored exam has an id from 1 to
    4; every stored song has stripped texts and an offset that is the int 0
    or the float of a non-empty text that [float] accepts. *)
Theorem X9_stored_records text t c r :
  __init__ text = Ok t → courses t !! c = Some r → valid_record r.
Proof.
  intros (fr & Hrun & _ & ->)%init_ok. cbn. rewrite save_previous_final.
  pose proof (for_lines_valid _ _ _ (enter_valid text) Hrun) as Hv.
  apply (save_previous_valid fr Hv).
Qed.

(** *** The document of a parsed chart *)

Lemma course_names_table t id ns :
  doc_courses (to_mongo t id ns) = (fun name => (name, courses t !! name)) <$> course_names.
Proof. done. Qed.

(** X10: the courses of the document of a parsed chart are the seven names
    in the order of [to_mongo]; a course of the chart is in the table with
    its record, nothing else is in it with a record, and a name without a
    course has the entry [None]: the document loses no course of the
    chart. *)
Theorem X10_course_table text t id ns :
  __init__ text = Ok t →
  (doc_courses (to_mongo t id ns)).*1 = course_names
  ∧ (∀ c r, courses t !! c = Some r ↔ (c, Some r) ∈ doc_courses (to_mongo t id ns))
  ∧ (∀ c, c ∈ course_names → courses t !! c = None →
       (c, None) ∈ doc_courses (to_mongo t id ns)).
Proof.
  intros Ht. rewrite course_names_table. split_and!.
  - rewrite <- list_fmap_compose. apply list_fmap_id.
  - intros c r. rewrite list_elem_of_fmap. split.
    + intros Hr. exists c. split; [by rewrite Hr|].
      eapply init_keys; [exact Ht|by rewrite Hr].
    + by intros (name & [= -> ->] & _).
  - intros c Hc Hn. apply list_elem_of_fmap. exists c. by rewrite Hn.
Qed.


(** *** The languages of the document *)

Lemma or_else_first a b : a ≠ Some [] → or_else a b = first_of a b.
Proof. unfold or_else, first_of. destruct a as [[|]|]; done. Qed.

(** X11: in the document of a parsed chart the Japanese title is title_ja
    when a TITLEJA line gave one and the title otherwise, the Chinese title
    is title_ja; the same for the subtitles. *)
Theorem X11_languages text t id ns :
  __init__ text = Ok t →
  ja (title_lang (to_mongo t id ns)) = first_of (title_ja t) (title t)
  ∧ cn (title_lang (to_mongo t id ns)) = title_ja t
  ∧ ja (subtitle_lang (to_mongo t id ns)) = first_of (subtitle_ja t) (subtitle t)
  ∧ cn (subtitle_lang (to_mongo t id ns)) = subtitle_ja t.
Proof.
  intros Ht.
  pose proof (init_attributes text t TitleJa Ht) as Htj.
  pose proof (init_attributes text t SubtitleJa Ht) as Hsj.
  cbn in Htj, Hsj. cbn. rewrite !or_else_first by done.
  split_and!; try done.
  - by destruct (title_ja t).
  - by destruct (subtitle_ja t).
Qed.

(** *** The text of the object *)

Lemma metadata_text raw t : text (metadata raw t) = text t.
Proof.
  unfold metadata. destruct (classify raw); try done.
  unfold on_scalar. by repeat case_bool_decide.
Qed.

Lemma fold_metadata_text lines t :
  text (foldl (fun t raw => metadata raw t) t lines) = text t.
Proof.
  revert t. induction lines as [|raw lines IH]; intros t; cbn; [done|].
  by rewrite IH, metadata_text.
Qed.

(** X12: the parsed chart keeps the text it was made from, so parsing its
    own text again gives the same chart. *)
Theorem X12_text_kept text t :
  __init__ text = Ok t → Tja.text t = text ∧ __init__ (Tja.text t) = Ok t.
Proof.
  intros Ht. assert (Tja.text t = text) as Htext.
  { rewrite (init_self _ _ Ht). cbn [Tja.text set_courses].
    by rewrite fold_metadata_text. }
  by rewrite Htext.
Qed.

(** *** Lines before the first course *)

Lemma same_courses_idle a b :
  idle a → idle b → courses (self a) = courses (self b) →
  current_course a = current_course b → same_courses a b.
Proof.
  intros Ha Hb Hc Hcc. split_and!; [done|done|]. unfold idle in Ha. by rewrite Ha.
Qed.

Lemma idle_same_course a b : idle a → current_course a = current_course b → idle b.
Proof. unfold idle. by intros Ha <-. Qed.

Lemma on_course_same val a b :
  save_previous a = save_previous b →
  course_alike (on_course val a) (on_course val b).
Proof. intros Hsp. unfold course_alike, on_course. cbn. by rewrite Hsp. Qed.

Lemma course_alike_same a b : course_alike a b → same_courses a b.
Proof. intros (?&?&?&?). by split_and!. Qed.

Lemma step_same_courses a b raw :
  same_courses a b →
  match step a raw, step b raw with
  | Ok a', Ok b' => same_courses a' b'
  | Raise e1, Raise e2 => e1 = e2
  | _, _ => False
  end.
Proof.
  intros (Hc & Hcc & Hbuf).
  destruct (truthy (current_course a)) eqn:Hact.
  { destruct (Hbuf eq_refl) as [He Hs].
    assert (course_alike a b) as Hab by done.
    pose proof (step_course_alike a b raw Hab) as Hstep.
    destruct (step a raw), (step b raw); try done. by apply course_alike_same. }
  assert (idle a) as Ha by done.
  assert (idle b) as Hb by (by eapply idle_same_course).
  destruct (course_value raw) as [val|] eqn:Hcv.
  { rewrite !(step_course _ _ _ Hcv). apply course_alike_same, on_course_same.
    by rewrite !save_previous_idle. }
  apply not_course_line in Hcv.
  destruct (step a raw) as [a'|e1] eqn:Hsa, (step b raw) as [b'|e2] eqn:Hsb.
  - pose proof (idle_courses _ _ _ Ha Hcv Hsa) as Hca.
    pose proof (idle_courses _ _ _ Hb Hcv Hsb) as Hcb.
    destruct (step_keep _ _ _ (idle_wf _ Ha) Hsa Hcv) as (Hka & _).
    destruct (step_keep _ _ _ (idle_wf _ Hb) Hsb Hcv) as (Hkb & _).
    apply same_courses_idle; unfold idle; congruence.
  - destruct (step_raise _ _ _ (idle_wf _ Hb) Hsb) as [_ Hab].
    rewrite (step_aborts a raw Hab) in Hsa. done.
  - destruct (step_raise _ _ _ (idle_wf _ Ha) Hsa) as [_ Hab].
    rewrite (step_aborts b raw Hab) in Hsb. done.
  - destruct (step_raise _ _ _ (idle_wf _ Ha) Hsa) as [-> _].
    by destruct (step_raise _ _ _ (idle_wf _ Hb) Hsb) as [-> _].
Qed.

Lemma for_lines_same_courses lines a b :
  same_courses a b →
  match for_lines lines a, for_lines lines b with
  | Ok a', Ok b' => same_courses a' b'
  | Raise e1, Raise e2 => e1 = e2
  | _, _ => False
  end.
Proof.
  revert a b. induction lines as [|raw lines IH]; intros a b Hab; cbn; [done|].
  pose proof (step_same_courses a b raw Hab) as Hs.
  destruct (step a raw), (step b raw); cbn; try done. by apply IH.
Qed.

Lemma save_final_same a b : same_courses a b → save_final a = save_final b.
Proof.
  intros (Hc & Hcc & Hbuf). rewrite !save_previous_final.
  destruct (truthy (current_course a)) eqn:Hact.
  - destruct (Hbuf eq_refl). by apply save_previous_alike.
  - rewrite !save_previous_idle; [done| |done]. by rewrite <- Hcc.
Qed.

Lemma existsb_aborts_false lines :
  Forall (fun raw => is_recognized_course_line raw = false ∧ aborts raw = false) lines →
  existsb aborts lines = false.
Proof.
  induction 1 as [|raw lines [_ Ha] _ IH]; cbn; [done|]. by rewrite Ha, IH.
Qed.

(** X13: lines before the first recognized COURSE line do nothing to the
    courses: NEXTSONG and EXAM lines there are dropped.  With such lines
    [pre], none of which aborts, in front of a text, the courses are those
    of the text alone, or both parses raise the same exception. *)
Theorem X13_header_lines text text' pre :
  split 10 text = pre ++ split 10 text' →
  Forall (fun raw => is_recognized_course_line raw = false ∧ aborts raw = false) pre →
  same_courses_result (__init__ text) (__init__ text').
Proof.
  intros Hsplit Hpre. unfold __init__, _parse. cbn [Tja.text fresh].
  rewrite Hsplit, for_lines_app.
  destruct (for_lines_returns pre (enter (fresh text)) (enter_wf _)
              (existsb_aborts_false _ Hpre)) as [fr0 Hrun0].
  rewrite Hrun0. cbn [mbind result_bind].
  destruct (dropped_run pre (enter (fresh text)) fr0) as (Hcc & Hcs & _);
    [done| |done|].
  { eapply Forall_impl; [exact Hpre|]. by intros ? [? _]. }
  assert (same_courses fr0 (enter (fresh text'))) as Hsame.
  { split_and!; [by rewrite Hcs|by rewrite Hcc|by rewrite Hcc]. }
  pose proof (for_lines_same_courses (split 10 text') _ _ Hsame) as Hrun.
  destruct (for_lines (split 10 text') fr0) as [a|],
    (for_lines (split 10 text') (enter (fresh text'))) as [b|]; cbn; try done.
  by apply save_final_same.
Qed.

(** *** The stars and the branch of a block *)

Lemma step_level fr lv val c r :
  classify lv = KeyValue (u "LEVEL") val →
  current_course fr = Some c → nonempty c = true →
  courses (self fr) !! c = Some r →
  step fr lv
  = Ok (update_self
          (set_courses (<[c := set_stars (int (first (re_split_spaces val))) r]>
                          (courses (self fr)))) fr).
Proof.
  intros Hk Hc Hn Hr. rewrite step_dispatch, Hk. cbn [dispatch].
  rewrite on_key_value_shape by done.
  rewrite bool_decide_eq_true_2 by done. rewrite Hc. cbn [truthy andb]. rewrite Hn.
  unfold on_level, setitem_course. by rewrite Hc, Hr.
Qed.

Lemma level_run c b1 lv b2 val fr fr' :
  wf fr → current_course fr = Some c → nonempty c = true →
  is_Some (courses (self fr) !! c) →
  Forall (fun raw => is_course_line raw = false) (b1 ++ lv :: b2) →
  classify lv = KeyValue (u "LEVEL") val →
  Forall (fun raw => is_level_line raw = false) b2 →
  for_lines (b1 ++ lv :: b2) fr = Ok fr' →
  ∃ r', courses (self fr') !! c = Some r'
        ∧ stars r' = int (first (re_split_spaces val)).
Proof.
  intros Hwf Hc Hn [r Hr] Hnc Hk Hnl. rewrite for_lines_app.
  apply Forall_app in Hnc as [Hnc1 Hnc2]. inversion_clear Hnc2 as [|? ? _ Hnc3].
  destruct (for_lines b1 fr) as [f1|] eqn:H1; cbn [mbind result_bind]; [|done].
  destruct (block_run c b1 fr f1 Hwf Hc Hn Hnc1 H1) as (Hc1 & _ & _ & _ & Hrec).
  destruct (Hrec r Hr) as (r1 & Hr1 & _).
  pose proof (for_lines_wf _ _ _ Hwf H1) as Hwf1.
  cbn [for_lines]. pose proof (step_level f1 lv val c r1 Hk Hc1 Hn Hr1) as Hstep.
  rewrite Hstep. cbn [mbind result_bind]. intros H2.
  destruct (block_run c b2 _ fr' (step_wf _ _ _ Hwf1 Hstep) Hc1 Hn Hnc3 H2)
    as (_ & _ & _ & _ & Hrec2).
  destruct (Hrec2 (set_stars (int (first (re_split_spaces val))) r1))
    as (r2 & Hr2 & _ & _ & Hst & _).
  { cbn. apply lookup_insert_eq. }
  exists r2. split; [done|]. by rewrite (Hst Hnl).
Qed.

(** The record of [c] after its block, when no later COURSE line introduces
    [c]: the commits keep its stars and its branch. *)
Lemma after_block c rest frb fr rb :
  wf frb → courses (self frb) !! c = Some rb →
  match rest with [] => True | next :: _ => is_course_line next = true end →
  Forall (fun raw => introduces c raw = false) rest →
  for_lines rest frb = Ok fr →
  ∃ r, save_final fr !! c = Some r ∧ stars r = stars rb ∧ branch r = branch rb.
Proof.
  intros Hwfb Hrb Hnext Hrest Hrun.
  assert (∃ r', courses (self fr) !! c = Some r' ∧ stars r' = stars rb
                ∧ branch r' = branch rb) as (r' & Hr' & Hst' & Hbr').
  { destruct rest as [|next tail].
    - cbn in Hrun. injection Hrun as <-. by exists rb.
    - unfold is_course_line in Hnext.
      apply bool_decide_eq_true in Hnext as [val Hcv].
      cbn in Hrun. rewrite (step_course _ _ _ Hcv) in Hrun. cbn in Hrun.
      inversion_clear Hrest as [|? ? Hni Htail].
      destruct (away_run c tail (on_course val frb) fr) as [_ Hsame];
        [apply on_course_wf| |done|done|].
      { unfold introduces in Hni. rewrite Hcv in Hni.
        by apply bool_decide_eq_false in Hni. }
      rewrite Hsame, on_course_lookup_old by eauto.
      destruct (save_previous_lookup _ _ _ Hrb) as (r2 & Hr2 & ? & ? & _).
      by exists r2. }
  rewrite save_previous_final.
  destruct (save_previous_lookup _ _ _ Hr') as (r3 & Hr3 & ? & ? & _).
  exists r3. split_and!; congruence.
Qed.

(** X14: [cl] introduces the course [c], [block] are the lines up to the
    next COURSE line, and no later COURSE line introduces [c] again.  Then
    the stars of [c] in the parsed chart are [int] of the value of the last
    LEVEL line of the block up to its first whitespace ([None] when [int]
    rejects it), and the branch of [c] is true when the block has a
    branch-start line. *)
Theorem X14_level_and_branch text pre cl block rest c t :
  split 10 text = pre ++ cl :: block ++ rest →
  introduces c cl = true →
  Forall (fun raw => is_course_line raw = false) block →
  match rest with [] => True | next :: _ => is_course_line next = true end →
  Forall (fun raw => introduces c raw = false) rest →
  __init__ text = Ok t →
  ∃ r, courses t !! c = Some r
    ∧ (∀ b1 lv b2 val,
         block = b1 ++ lv :: b2 →
         classify lv = KeyValue (u "LEVEL") val →
         Forall (fun raw => is_level_line raw = false) b2 →
         stars r = int (take_while (fun x => negb (isspace x)) val))
    ∧ (existsb is_branch_line block = true → branch r = true).
Proof.
  intros Hsplit Hcl Hblock Hnext Hrest (fr & Hrun & Hwf & ->)%init_ok.
  rewrite Hsplit in Hrun.
  replace (pre ++ cl :: block ++ rest) with ((pre ++ cl :: block) ++ rest) in Hrun
    by (by rewrite <- app_assoc).
  rewrite for_lines_app in Hrun.
  destruct (for_lines (pre ++ cl :: block) _) as [frb|] eqn:Hb;
    cbn [mbind result_bind] in Hrun; [|done].
  destruct (course_block _ _ _ _ _ _ (enter_wf _) Hcl Hblock Hb)
    as (fr1 & Hpre & Hwf1 & Hwfb & Hc & Hn & _ & _ & rb & Hrb & _ & _ & _ & Hbr).
  destruct (after_block c rest frb fr rb Hwfb Hrb Hnext Hrest Hrun)
    as (r & Hr & Hst & Hbr').
  exists r. cbn [courses set_courses]. split_and!; [done| |].
  - intros b1 lv b2 val -> Hk Hnl. rewrite Hst, <- first_re_split.
    pose proof Hcl as (cv & Hcv & Hmap)%introduces_spec.
    rewrite for_lines_app, Hpre in Hb. cbn [mbind result_bind for_lines] in Hb.
    rewrite (step_course _ _ _ Hcv) in Hb. cbn [mbind result_bind] in Hb.
    destruct (level_run c b1 lv b2 val (on_course cv fr1) frb) as (r' & Hr' & Hs');
      try done.
    + apply on_course_wf.
    + rewrite (on_course_lookup_new cv fr1 c Hmap).
      by destruct (save_previous fr1 !! c).
    + congruence.
  - intros Hex. by rewrite Hbr', Hbr, Hex, orb_true_r.
Qed.

(** *** Fields after the last one that is read *)

Lemma field_app parts more i :
  i < length parts → field (parts ++ more) i = field parts i.
Proof. intros Hi. unfold field. by rewrite lookup_app_l. Qed.

Lemma song_info_app parts more :
  6 ≤ length parts → song_info (parts ++ more) = song_info parts.
Proof. intros Hlen. unfold song_info. by rewrite !field_app by lia. Qed.

Lemma exam_data_app n parts more :
  4 ≤ length parts → exam_data n (parts ++ more) = exam_data n parts.
Proof.
  intros Hlen. unfold exam_data, pass_values.
  rewrite !app_nth1 by lia. rewrite length_app.
  by rewrite !bool_decide_eq_true_2 by lia.
Qed.

(** X15: fields after the sixth of a NEXTSONG line and after the fourth of
    an EXAM line are not read: with or without them the line does the
    same. *)
Theorem X15_extra_fields fr parts more :
  (6 ≤ length parts →
   dispatch fr (NextSong (parts ++ more)) = dispatch fr (NextSong parts))
  ∧ (4 ≤ length parts → Forall (fun w => ord "," ∉ w) (parts ++ more) →
     ∀ key, on_exam key (join (ord ",") (parts ++ more)) fr
            = on_exam key (join (ord ",") parts) fr).
Proof.
  split.
  - intros Hlen. cbn [dispatch]. rewrite song_info_app by done.
    rewrite length_app. by rewrite !bool_decide_eq_true_2 by lia.
  - intros Hlen Hall key. unfold on_exam. cbv zeta.
    pose proof Hall as [Hparts _]%Forall_app.
    assert (∀ l : list str, 4 ≤ length l → l ≠ []) as Hne.
    { intros l Hl ->. cbn in Hl. lia. }
    rewrite (split_join _ parts) by auto.
    rewrite (split_join _ (parts ++ more)) by (try done; apply Hne; rewrite length_app; lia).
    rewrite length_app. rewrite !bool_decide_eq_true_2 by lia.
    destruct (key_number key); cbn [mbind result_bind]; [|done].
    by rewrite exam_data_app.
Qed.

(** ** The keys of the courses *)

Lemma introduces_course_line k raw : introduces k raw = true → is_course_line raw = true.
Proof.
  intros (val & Hcv & _)%introduces_spec. unfold is_course_line.
  apply bool_decide_eq_true. by rewrite Hcv.
Qed.

Lemma step_dom fr raw fr' k :
  wf fr → step fr raw = Ok fr' →
  is_Some (courses (self fr') !! k)
  ↔ is_Some (courses (self fr) !! k) ∨ introduces k raw = true.
Proof.
  intros Hwf Hs. destruct (course_value raw) as [val|] eqn:Hcv.
  - rewrite (step_course _ _ _ Hcv) in Hs. injection Hs as <-.
    unfold introduces. rewrite Hcv, bool_decide_eq_true.
    unfold on_course. cbn.
    destruct (course_map (upper (strip val))) as [d|] eqn:Hmap; cbn.
    + rewrite (course_map_nonempty _ _ Hmap). cbn.
      destruct (bool_decide (is_Some (save_previous fr !! d))) eqn:Hhas; cbn.
      * apply bool_decide_eq_true in Hhas. rewrite save_previous_dom. split; [by left|].
        intros [Hk|[= <-]]; [done|]. by apply save_previous_dom.
      * destruct (decide (k = d)) as [->|Hne].
        -- rewrite lookup_insert_eq. split; [by right|by eexists].
        -- rewrite lookup_insert_ne, save_previous_dom by done. split; [by left|].
           intros [Hk|[= <-]]; done.
    + rewrite save_previous_dom. split; [by left|]. by intros [Hk|[=]].
  - assert (introduces k raw = false) as ->.
    { unfold introduces. by rewrite Hcv. }
    apply not_course_line in Hcv.
    assert (is_Some (courses (self fr') !! k) ↔ is_Some (courses (self fr) !! k)) as ->.
    { destruct (truthy (current_course fr)) eqn:Ht.
      - destruct (step_keep _ _ _ Hwf Hs Hcv) as (_ & _ & _ & Hother & Hrec).
        destruct (decide (current_course fr = Some k)) as [Hck|Hck].
        + specialize (Hwf Ht). rewrite Hck in Hwf. apply has_course_Some in Hwf.
          destruct Hwf as [r Hr]. destruct (Hrec k r Hck Hr) as (r' & Hr' & _).
          rewrite Hr, Hr'. split; by eexists.
        + by rewrite Hother.
      - by rewrite (idle_courses _ _ _ Ht Hcv Hs). }
    split; [by left|]. by intros [?|?].
Qed.

Lemma for_lines_dom lines fr fr' k :
  wf fr → for_lines lines fr = Ok fr' →
  is_Some (courses (self fr') !! k)
  ↔ is_Some (courses (self fr) !! k) ∨ ∃ raw, raw ∈ lines ∧ introduces k raw = true.
Proof.
  revert fr. induction lines as [|raw lines IH]; intros fr Hwf; cbn.
  - intros [= <-]. split; [by left|]. intros [?|(raw & Hin & _)]; [done|].
    by apply elem_of_nil in Hin.
  - destruct (step fr raw) as [fr1|] eqn:Hs; cbn; [|done]. intros Hrun.
    rewrite (IH fr1 (step_wf _ _ _ Hwf Hs) Hrun), (step_dom _ _ _ k Hwf Hs).
    split.
    + intros [[Hk|Hi]|(r & Hin & Hi)]; [by left| |].
      * right. exists raw. split; [apply list_elem_of_here|done].
      * right. exists r. split; [by apply list_elem_of_further|done].
    + intros [Hk|(r & Hin & Hi)]; [by left; left|].
      apply elem_of_cons in Hin as [->|Hin]; [by left; right|].
      right. by exists r.
Qed.

(** X16: the courses of a parsed chart are the courses that the COURSE
    lines of the text introduce: each of them is a key, and there is no
    other key. *)
Theorem X16_course_keys text t k :
  __init__ text = Ok t →
  is_Some (courses t !! k) ↔ ∃ raw, raw ∈ split 10 text ∧ introduces k raw = true.
Proof.
  intros (fr & Hrun & _ & ->)%init_ok. cbn [courses set_courses].
  rewrite save_previous_final, save_previous_dom.
  rewrite (for_lines_dom _ _ _ k (enter_wf _) Hrun). cbn. rewrite lookup_empty.
  split; [|by right]. intros [[? ?]|?]; done.
Qed.

(** ** The branch of a course is never reset *)

Lemma step_branch_kept fr raw fr' c r :
  wf fr → step fr raw = Ok fr' →
  courses (self fr) !! c = Some r → branch r = true →
  ∃ r', courses (self fr') !! c = Some r' ∧ branch r' = true.
Proof.
  intros Hwf Hs Hr Hb. destruct (course_value raw) as [val|] eqn:Hcv.
  - rewrite (step_course _ _ _ Hcv) in Hs. injection Hs as <-.
    rewrite on_course_lookup_old by eauto.
    destruct (save_previous_lookup _ _ _ Hr) as (r' & Hr' & _ & Hb' & _).
    exists r'. split; [done|congruence].
  - apply not_course_line in Hcv.
    destruct (step_keep _ _ _ Hwf Hs Hcv) as (_ & _ & _ & Hother & Hrec).
    destruct (decide (current_course fr = Some c)) as [Hck|Hck].
    + destruct (Hrec c r Hck Hr) as (r' & Hr' & _ & _ & _ & Hb').
      exists r'. split; [done|]. by rewrite Hb', Hb.
    + exists r. by rewrite Hother.
Qed.

Lemma for_lines_branch_kept lines fr fr' c r :
  wf fr → for_lines lines fr = Ok fr' →
  courses (self fr) !! c = Some r → branch r = true →
  ∃ r', courses (self fr') !! c = Some r' ∧ branch r' = true.
Proof.
  revert fr r. induction lines as [|raw lines IH]; intros fr r Hwf; cbn.
  - intros [= <-] Hr Hb. by exists r.
  - destruct (step fr raw) as [fr1|] eqn:Hs; cbn; [|done]. intros Hrun Hr Hb.
    destruct (step_branch_kept _ _ _ _ _ Hwf Hs Hr Hb) as (r1 & Hr1 & Hb1).
    by apply (IH fr1 r1 (step_wf _ _ _ Hwf Hs)).
Qed.

(** X17: the branch of a course, once true, stays true: no later line and
    no commit resets it, and the course stays in the chart. *)
Theorem X17_branch_never_reset text pre post c fr1 r t :
  split 10 text = pre ++ post →
  for_lines pre (enter (fresh text)) = Ok fr1 →
  courses (self fr1) !! c = Some r → branch r = true →
  __init__ text = Ok t →
  ∃ r', courses t !! c = Some r' ∧ branch r' = true.
Proof.
  intros Hsplit Hpre Hr Hb (fr & Hrun & _ & ->)%init_ok.
  rewrite Hsplit, for_lines_app, Hpre in Hrun. cbn [mbind result_bind] in Hrun.
  pose proof (for_lines_wf _ _ _ (enter_wf _) Hpre) as Hwf1.
  destruct (for_lines_branch_kept _ _ _ _ _ Hwf1 Hrun Hr Hb) as (r1 & Hr1 & Hb1).
  cbn [courses set_courses]. rewrite save_previous_final.
  destruct (save_previous_lookup _ _ _ Hr1) as (r2 & Hr2 & _ & Hb2 & _).
  exists r2. split; [done|congruence].
Qed.

(** ** Attribute lines and the courses *)

Lemma course_alike_trans a b c : course_alike a b → course_alike b c → course_alike a c.
Proof. intros (?&?&?&?) (?&?&?&?). split_and!; congruence. Qed.

Lemma scalar_step fr raw :
  is_scalar_line raw = true → ∃ fr', step fr raw = Ok fr' ∧ course_alike fr fr'.
Proof.
  rewrite step_dispatch. unfold is_scalar_line.
  destruct (classify raw) as [|parts| | |key val|line]; try done.
  intros Hk%bool_decide_eq_true. cbn [dispatch].
  assert (key ≠ u "COURSE" ∧ bool_decide (key = u "LEVEL") = false
          ∧ is_exam_key key = false) as (Hne & Hl & He).
  { rewrite !elem_of_cons, elem_of_nil in Hk.
    destruct Hk as [->|[->|[->|[->|[->|[->|[]]]]]]]; by vm_compute. }
  rewrite on_key_value_shape by done. rewrite Hl, He. cbn [andb].
  eexists. split; [done|]. unfold course_alike. cbn.
  by rewrite on_scalar_courses.
Qed.

Lemma scalar_run (p : str → bool) lines a b :
  Forall (fun raw => p raw = true → is_scalar_line raw = true) lines →
  course_alike a b →
  match for_lines (filter (fun raw => p raw = false) lines) a,
        for_lines lines b with
  | Ok a', Ok b' => course_alike a' b'
  | Raise e1, Raise e2 => e1 = e2
  | _, _ => False
  end.
Proof.
  intros Hall. revert a b.
  induction Hall as [|raw lines Hp _ IH]; intros a b Hab; [done|].
  destruct (p raw) eqn:Hpr.
  - rewrite filter_cons_False by (by rewrite Hpr).
    destruct (scalar_step b raw (Hp eq_refl)) as (b' & Hs & Hbb).
    cbn. rewrite Hs. cbn. apply IH. by eapply course_alike_trans.
  - rewrite filter_cons_True by done. cbn.
    pose proof (step_course_alike a b raw Hab) as Hs.
    destruct (step a raw), (step b raw); cbn; try done. by apply IH.
Qed.

(** X18: the lines that set title, title_ja, subtitle, subtitle_ja, wave
    and offset do nothing to the courses, wherever they stand: deleting any
    of them leaves the courses of the chart, or the exception, the same. *)
Theorem X18_attribute_lines text (p : str → bool) :
  (∀ raw, raw ∈ split 10 text → p raw = true → is_scalar_line raw = true) →
  same_courses_result (__init__ (without p text)) (__init__ text).
Proof.
  intros Hp. unfold __init__, _parse. cbn [Tja.text fresh].
  rewrite without_lines.
  assert (Forall (fun raw => p raw = true → is_scalar_line raw = true) (split 10 text))
    as Hall.
  { apply Forall_forall. intros raw Hin. by apply Hp. }
  assert (course_alike (enter (fresh (without p text))) (enter (fresh text))) as Hab
    by done.
  pose proof (scalar_run p (split 10 text) _ _ Hall Hab) as Hrun.
  destruct (for_lines (filter (fun raw => p raw = false) (split 10 text))
              (enter (fresh (without p text)))) as [a|],
    (for_lines (split 10 text) (enter (fresh text))) as [b|]; cbn; try done.
  rewrite !save_previous_final. by apply save_previous_alike.
Qed.

End Further.

(** * The claims at concrete inputs

    The inputs are ASCII, so the database [plain] is the interpreter's. *)
Section Concrete.
#[local] Existing Instance plain.

Ltac evaluate := vm_compute; reflexivity.
Ltac each_line := repeat (constructor; [evaluate|]); constructor.

(** C2 on the examples of the specification: the NEXTSONG line with the
    offset "bad" makes the parse raise; EXAM1:g,bad,10 under the course oni
    appends an exam with both thresholds 0. *)
Lemma C2_witness :
  __init__ bad_song_text = Raise ValueError
  ∧ step (on_course (u "ONI") (enter (fresh []))) (u "EXAM1:g,bad,10")
    = Ok (append_exam {| exam_id := 1; exam_type := u "g"; red_pass := 0;
                         gold_pass := 0; scope := u "l" |}
            (on_course (u "ONI") (enter (fresh [])))).
Proof.
  split.
  - eapply (proj1 C2_nextsong_raises_exam_degrades bad_song_text bad_song_text).
    + apply list_elem_of_here.
    + evaluate.
    + vm_compute. lia.
    + left. split; evaluate.
  - refine (proj1 (proj2 C2_nextsong_raises_exam_degrades)
              (on_course (u "ONI") (enter (fresh []))) (u "EXAM1:g,bad,10")
              (u "EXAM1") (u "g,bad,10") _ _ _ _ _).
    + evaluate.
    + evaluate.
    + evaluate.
    + vm_compute. lia.
    + left. split; evaluate.
Defined.

(** C3 as stated fails: the text of one NEXTSONG line with the offset "bad"
    has no COURSE directive; with the line the parse raises, without it the
    parse returns. *)
Lemma C3_counterexample :
  Forall (fun raw => is_course_line raw = false) (split 10 bad_song_text)
  ∧ Forall (fun raw => is_nextsong_line raw = true) (split 10 bad_song_text)
  ∧ __init__ bad_song_text = Raise ValueError
  ∧ __init__ (without is_nextsong_line bad_song_text) = Ok (fresh [])
  ∧ ¬ same_result (__init__ (without is_nextsong_line bad_song_text))
                  (__init__ bad_song_text).
Proof.
  split_and!; [each_line | each_line | evaluate | evaluate |].
  vm_compute. by intros [].
Qed.

(** C3, amended, on a text with an EXAM, a NEXTSONG, a LEVEL and a
    branch-start line and no course. *)
Lemma C3_witness :
  Forall (fun raw => is_course_line raw = false) (split 10 no_course_text)
  ∧ ∃ t, __init__ no_course_text = Ok t ∧ courses t = ∅
      ∧ ∃ t', __init__ (without (fun raw => is_exam_line raw || is_nextsong_line raw)
                          no_course_text) = Ok t'
              ∧ same_chart t' t.
Proof.
  assert (Forall (fun raw => is_course_line raw = false) (split 10 no_course_text))
    as Hnc by each_line.
  split; [exact Hnc|].
  destruct (C3_no_course_directive no_course_text Hnc) as (Hempty & _ & Hsame).
  eexists. split; [evaluate|]. split.
  - apply Hempty. evaluate.
  - apply Hsame. evaluate.
Defined.

(** C4 on a text whose only course is followed by an EXAM and a NEXTSONG
    line. *)
Lemma C4_witness :
  ∃ t, __init__ last_course_text = Ok t
    ∧ ∃ r, courses t !! u "oni" = Some r
        ∧ exams r = Some [ {| exam_id := 1; exam_type := u "g"; red_pass := 0;
                              gold_pass := 0; scope := u "l" |} ]
        ∧ songs r = Some [ {| song_title := u "a"; artist := u "b"; genre := u "c";
                              song_wave := u "d.ogg"; song_offset := PyFloat (u "1.5");
                              scoreInit := 7 |} ].
Proof.
  eexists. split; [evaluate|].
  edestruct (C4_last_course_committed last_course_text [] (u "COURSE:Oni")
               [u "EXAM1:g,bad,10"; u "#nextsong a,b,c,d.ogg, 1.5 ,7"] (u "oni"))
    as [(r & Hr & Hex & Hso) _]; [evaluate|evaluate|each_line|evaluate|].
  exists r. split_and!; [exact Hr| |].
  - rewrite Hex; [evaluate|]. vm_compute. by intros [=].
  - rewrite Hso; [evaluate|]. vm_compute. by intros [=].
Defined.

(** C5 on the key oni of the example chart and on the value " Edit ". *)
Lemma C5_witness :
  ∃ t, __init__ sample_text = Ok t
    ∧ is_Some (courses t !! u "oni")
    ∧ u "oni" ∈ course_names
    ∧ course_map (upper (strip (u " Edit "))) = Some (u "ura")
    ∧ u "ura" ∈ course_names.
Proof.
  destruct C5_course_aliases as (_ & Hnames & _ & _ & Hkeys & _).
  eexists. split; [evaluate|].
  split_and!; [vm_compute; eauto | | evaluate |].
  - eapply (Hkeys sample_text); [evaluate|]. vm_compute. eauto.
  - apply (Hnames (upper (strip (u " Edit ")))). evaluate.
Defined.

(** C6 on a text that declares oni with LEVEL 8 and a branch, then hard,
    then oni again with an exam only, then easy. *)
Lemma C6_witness :
  ∃ t, __init__ twice_text = Ok t
    ∧ ∃ r, courses t !! u "oni" = Some r
        ∧ stars r = Some 8%Z ∧ branch r = true.
Proof.
  eexists. split; [evaluate|].
  edestruct (C6_redeclared_course twice_text
               [u "COURSE:Oni"; u "LEVEL:8"; u "BRANCHSTART"; u "EXAM1:g,80,100,m";
                u "COURSE:Hard"]
               (u "COURSE:Oni") [u "EXAM2:ok,1,2"] [u "COURSE:Easy"; u "LEVEL:2"]
               (u "oni"))
    as [(r & Hr & Hst & Hbr) _].
  - evaluate.
  - evaluate.
  - evaluate.
  - evaluate.
  - repeat (constructor; [split_and!; evaluate|]). constructor.
  - evaluate.
  - each_line.
  - evaluate.
  - exists r. split_and!; [exact Hr | rewrite Hst; evaluate | rewrite Hbr; evaluate].
Defined.

(** C7 on the line COURSE:Extreme while oni is current. *)
Lemma C7_witness :
  step (on_course (u "ONI") (enter (fresh []))) (u "COURSE:Extreme")
  = Ok {| self := set_courses (save_previous (on_course (u "ONI") (enter (fresh []))))
                    (self (on_course (u "ONI") (enter (fresh []))));
          current_course := None; current_exams := []; current_songs := [];
          in_song_section := false |}.
Proof.
  apply (proj1 C7_unrecognized_course
           (on_course (u "ONI") (enter (fresh []))) (u "COURSE:Extreme") (u "Extreme"));
    evaluate.
Defined.

(** C8 on the audio file dir.d/song.OGG. *)
Lemma C8_witness :
  music_type (to_mongo (set_wave (Some (u "dir.d/song.OGG")) (fresh [])) (u "1") 5)
  = u "ogg".
Proof.
  refine (proj1 C8_music_type (set_wave (Some (u "dir.d/song.OGG")) (fresh []))
            (u "1") 5%Z (u "dir.d/song.OGG") (u "song") (u "OGG") _ _ _ _ _).
  - evaluate.
  - evaluate.
  - compute_done.
  - exists (ord "s"). split; compute_done.
  - vm_compute. by intros [=].
Defined.

(** C9 on the same text as C6: at the line COURSE:Easy the exams of oni
    are those of its second block alone. *)
Lemma C9_witness :
  ∃ fr r,
    for_lines [u "COURSE:Oni"; u "LEVEL:8"; u "BRANCHSTART"; u "EXAM1:g,80,100,m";
               u "COURSE:Hard"; u "COURSE:Oni"; u "EXAM2:ok,1,2"; u "COURSE:Easy"]
      (enter (fresh twice_text)) = Ok fr
    ∧ courses (self fr) !! u "oni" = Some r
    ∧ exams r = Some [ {| exam_id := 2; exam_type := u "ok"; red_pass := 1;
                          gold_pass := 2; scope := u "l" |} ]
    ∧ songs r = None.
Proof.
  edestruct (C9_commit_replaces twice_text
               [u "COURSE:Oni"; u "LEVEL:8"; u "BRANCHSTART"; u "EXAM1:g,80,100,m";
                u "COURSE:Hard"]
               (u "COURSE:Oni") [u "EXAM2:ok,1,2"] (u "oni"))
    as [_ Hswitch]; [evaluate|each_line|evaluate|evaluate|].
  edestruct (Hswitch (u "COURSE:Easy") [u "LEVEL:2"])
    as (r & Hr & Hex & Hso); [evaluate|evaluate|evaluate|].
  eexists _, r. split_and!; [evaluate | exact Hr | rewrite Hex; evaluate
                            | rewrite Hso; evaluate].
Defined.

(** C10 on a branch-start line with blanks around it, while oni is
    current. *)
Lemma C10_witness :
  ∃ fr' r,
    step (on_course (u "ONI") (enter (fresh []))) (u "  #BRANCHSTART p,75,85 ") = Ok fr'
    ∧ courses (self fr') !! u "oni" = Some r ∧ branch r = true.
Proof.
  edestruct (proj1 C10_branch_marker_case
               (on_course (u "ONI") (enter (fresh [])))
               (u "  #BRANCHSTART p,75,85 "))
    as (r & Hr & Hb); [evaluate|evaluate|evaluate|evaluate|].
  eexists _, r. split_and!; [evaluate | exact Hr | rewrite Hb; evaluate].
Defined.

(** ** The further properties at concrete inputs *)

Ltac each_member H :=
  apply bool_decide_eq_true in H;
  repeat (apply elem_of_cons in H as [->|H]; [evaluate|]);
  by apply elem_of_nil in H.

(** X1 on a text with a #START and an #END marker, a line of notes, an
    unknown key, a blank line, a short EXAM and a short NEXTSONG line: three
    lines are left, and the outcome is the same. *)
Lemma X1_witness :
  without (fun raw => bool_decide (raw ∈ noise_lines)) noise_text
  = join 10 [u "TITLE:Foo"; u "COURSE:Oni"; u "LEVEL:3"]
  ∧ same_result
      (__init__ (without (fun raw => bool_decide (raw ∈ noise_lines)) noise_text))
      (__init__ noise_text).
Proof.
  split; [evaluate|].
  apply (X1_ignored_lines noise_text (fun raw => bool_decide (raw ∈ noise_lines))).
  intros raw _ Hp. each_member Hp.
Defined.

(** X2 on the NEXTSONG line with the offset "bad". *)
Lemma X2_witness :
  __init__ bad_song_text = Raise ValueError
  ∧ ∃ raw, raw ∈ split 10 bad_song_text ∧ aborts raw = true.
Proof.
  split; [evaluate|].
  apply (X2_only_value_error bad_song_text ValueError). evaluate.
Defined.

(** X3 on a text with blanks, a tab and a carriage return around its lines. *)
Lemma X3_witness :
  same_result (__init__ indented_text)
              (__init__ (join 10 [u "TITLE:Foo"; u "COURSE:Oni"])).
Proof. apply X3_line_whitespace. evaluate. Defined.

(** X5 on a text with two TITLE lines: the second one gives the title. *)
Lemma X5_witness :
  ∃ t, __init__ retitled_text = Ok t ∧ scalar_of Title t = Some (u "Two:2")
       ∧ scalar_of Wave t = None.
Proof.
  eexists. split; [evaluate|]. split.
  - refine (proj1 (X5_last_text_attribute Title retitled_text _ _)
              [u "TITLE:One"; u "OFFSET:-1.5"] (u "title: Two:2 ")
              [u "OFFSET:soon"; u "TITLEJA:"; u "SUBTITLE:Sub"; u "SUBTITLEJA:Fuku";
               u "COURSE:Oni"] (u "Two:2") _ _ _).
    + evaluate.
    + evaluate.
    + evaluate.
    + each_line.
  - refine (proj2 (X5_last_text_attribute Wave retitled_text _ _) _).
    + evaluate.
    + each_line.
Defined.

(** X6 on the same text: the second OFFSET line has no number. *)
Lemma X6_witness :
  ∃ t, __init__ retitled_text = Ok t ∧ offset t = None.
Proof.
  eexists. split; [evaluate|].
  refine (proj1 (X6_last_offset retitled_text _ _)
            [u "TITLE:One"; u "OFFSET:-1.5"; u "title: Two:2 "] (u "OFFSET:soon")
            [u "TITLEJA:"; u "SUBTITLE:Sub"; u "SUBTITLEJA:Fuku"; u "COURSE:Oni"]
            (u "soon") _ _ _).
  - evaluate.
  - evaluate.
  - evaluate.
  - each_line.
Defined.

(** X7 on the same text, whose TITLEJA line has no value. *)
Lemma X7_witness :
  ∃ t, __init__ retitled_text = Ok t ∧ scalar_of TitleJa t ≠ Some [].
Proof.
  eexists. split; [evaluate|].
  apply (X7_no_empty_attribute retitled_text _ TitleJa). evaluate.
Defined.

(** X8 on the line " title : a:b  ". *)
Lemma X8_witness :
  (ord ":" ∉ u " title ")
  ∧ classify (u " title " ++ ord ":" :: u " a:b  ") = KeyValue (u "TITLE") (u "a:b").
Proof.
  assert (ord ":" ∉ u " title ") as Hk by compute_done.
  split; [exact Hk|].
  etransitivity; [apply (X8_line_with_colon (u " title ") (u " a:b  ") Hk)|evaluate].
Defined.

(** X9 on the course of a text with an exam and a song. *)
Lemma X9_witness :
  ∃ t r, __init__ last_course_text = Ok t ∧ courses t !! u "oni" = Some r
         ∧ valid_record r.
Proof.
  eexists _, _. split_and!; [evaluate|evaluate|].
  eapply (X9_stored_records last_course_text _ (u "oni")); evaluate.
Defined.

(** X10 on the example chart: oni is in the table of the document. *)
Lemma X10_witness :
  ∃ t r, __init__ sample_text = Ok t ∧ courses t !! u "oni" = Some r
         ∧ (u "oni", Some r) ∈ doc_courses (to_mongo t (u "1") 5).
Proof.
  eexists _, _. split_and!; [evaluate|evaluate|].
  refine (proj1 (proj1 (proj2 (X10_course_table sample_text _ (u "1") 5%Z _))
                  (u "oni") _) _); evaluate.
Defined.

(** X11 on a text with a title and an empty TITLEJA, a subtitle and a
    SUBTITLEJA. *)
Lemma X11_witness :
  ∃ t, __init__ retitled_text = Ok t
    ∧ ja (title_lang (to_mongo t (u "1") 5)) = Some (u "Two:2")
    ∧ cn (title_lang (to_mongo t (u "1") 5)) = None
    ∧ ja (subtitle_lang (to_mongo t (u "1") 5)) = Some (u "Fuku")
    ∧ cn (subtitle_lang (to_mongo t (u "1") 5)) = Some (u "Fuku").
Proof.
  eexists. split; [evaluate|].
  match goal with
  | |- ja (title_lang (to_mongo ?t _ _)) = _ ∧ _ =>
      destruct (X11_languages retitled_text t (u "1") 5%Z) as (H1 & H2 & H3 & H4);
        [evaluate|]
  end.
  split_and!; [rewrite H1|rewrite H2|rewrite H3|rewrite H4]; evaluate.
Defined.

(** X12 on the example chart. *)
Lemma X12_witness :
  ∃ t, __init__ sample_text = Ok t ∧ text t = sample_text
       ∧ __init__ (text t) = Ok t.
Proof.
  eexists. split; [evaluate|]. apply (X12_text_kept sample_text). evaluate.
Defined.

(** X13 on a text with a title, a song and an exam before its course. *)
Lemma X13_witness :
  same_courses_result (__init__ header_text)
                      (__init__ (join 10 [u "COURSE:Oni"; u "LEVEL:3"])).
Proof.
  apply (X13_header_lines header_text (join 10 [u "COURSE:Oni"; u "LEVEL:3"])
           [u "TITLE:Foo"; u "#NEXTSONG a,b,c,d.ogg"; u "EXAM1:g,1,2"]).
  - evaluate.
  - repeat (constructor; [split; evaluate|]). constructor.
Defined.

(** X14 on a block of oni with the lines LEVEL:3, BRANCHSTART and
    LEVEL:9 stars, followed by the course hard. *)
Lemma X14_witness :
  ∃ t, __init__ level_text = Ok t
    ∧ ∃ r, courses t !! u "oni" = Some r
        ∧ stars r = Some 9%Z ∧ branch r = true.
Proof.
  eexists. split; [evaluate|].
  edestruct (X14_level_and_branch level_text [] (u "COURSE:Oni")
               [u "LEVEL:3"; u "BRANCHSTART"; u "LEVEL:9 stars"]
               [u "COURSE:Hard"; u "LEVEL:x"] (u "oni"))
    as (r & Hr & Hst & Hbr).
  - evaluate.
  - evaluate.
  - each_line.
  - evaluate.
  - each_line.
  - evaluate.
  - exists r. split_and!; [exact Hr| |].
    + rewrite (Hst [u "LEVEL:3"; u "BRANCHSTART"] (u "LEVEL:9 stars") [] (u "9 stars"));
        [evaluate|evaluate|evaluate|constructor].
    + apply Hbr. evaluate.
Defined.

(** X15 on a NEXTSONG line with a seventh field and an EXAM line with a
    fifth. *)
Lemma X15_witness :
  dispatch (enter (fresh []))
    (NextSong ([u "a"; u "b"; u "c"; u "d.ogg"; u "1.5"; u "7"] ++ [u "x"]))
  = dispatch (enter (fresh [])) (NextSong [u "a"; u "b"; u "c"; u "d.ogg"; u "1.5"; u "7"])
  ∧ on_exam (u "EXAM1") (join (ord ",") ([u "g"; u "80"; u "100"; u "m"] ++ [u "x"]))
      (on_course (u "ONI") (enter (fresh [])))
    = on_exam (u "EXAM1") (join (ord ",") [u "g"; u "80"; u "100"; u "m"])
        (on_course (u "ONI") (enter (fresh []))).
Proof.
  split.
  - apply (proj1 (X15_extra_fields (enter (fresh []))
                    [u "a"; u "b"; u "c"; u "d.ogg"; u "1.5"; u "7"] [u "x"])).
    cbn. lia.
  - apply (proj2 (X15_extra_fields (on_course (u "ONI") (enter (fresh [])))
                    [u "g"; u "80"; u "100"; u "m"] [u "x"])).
    + cbn. lia.
    + repeat (constructor; [compute_done|]). constructor.
Defined.

(** X16 on the example chart: the line COURSE:ONI makes oni a key. *)
Lemma X16_witness :
  ∃ t, __init__ sample_text = Ok t ∧ is_Some (courses t !! u "oni").
Proof.
  eexists. split; [evaluate|].
  refine (proj2 (X16_course_keys sample_text _ (u "oni") _) _); [evaluate|].
  exists (u "COURSE:ONI"). split; [|evaluate].
  apply (list_elem_of_lookup_2 _ 1). evaluate.
Defined.

(** X17 on the text of X14: oni has its branch after three lines and keeps
    it to the end. *)
Lemma X17_witness :
  ∃ t, __init__ level_text = Ok t
    ∧ ∃ r, courses t !! u "oni" = Some r ∧ branch r = true.
Proof.
  eexists. split; [evaluate|].
  eapply (X17_branch_never_reset level_text
            [u "COURSE:Oni"; u "LEVEL:3"; u "BRANCHSTART"]
            [u "LEVEL:9 stars"; u "COURSE:Hard"; u "LEVEL:x"] (u "oni"));
    [evaluate|evaluate|evaluate|evaluate|evaluate].
Defined.

(** X18 on a text with seven attribute lines and one course, three of the
    attribute lines being deleted. *)
Lemma X18_witness :
  same_courses_result
    (__init__ (without (fun raw => bool_decide (raw ∈ attribute_lines)) retitled_text))
    (__init__ retitled_text).
Proof.
  apply (X18_attribute_lines retitled_text
           (fun raw => bool_decide (raw ∈ attribute_lines))).
  intros raw _ Hp. each_member Hp.
Defined.

End Concrete.
